(** * axon traffic runtime: a shallow embedding and its checked properties

  The development follows the layout of the Python package:
  [axon.traffic.traffic_objects], [axon.traffic.clients.clients],
  [axon.common.metric_cache], [axon.common.subscribers],
  [axon.common.local_cache], [axon.common.monit_queues],
  [axon.traffic.servers.worker], [axon.traffic.clients.worker] and
  [axon.traffic.controller].

  Python values are rendered as follows: [str] is [string], [int] is [Z],
  [bool] is [bool]; a [dict] is an insertion-ordered association list
  whose lookups go through the key's [__hash__] and [__eq__]; an
  exception is an explicit [Raise] result; mutable objects are threaded
  through the functions that mutate them. *)

From Stdlib Require Import ZArith String Ascii List Bool Lia.
From Stdlib Require Import Numbers.DecimalString.
Import ListNotations.

Open Scope list_scope.
Open Scope Z_scope.
Open Scope string_scope.

(* ================================================================= *)
(** ** The fragment of Python the package relies on *)

Module Py.

Inductive exn :=
| KeyError | ValueError | IndexError | TypeError
| AttributeError | ConnectionError | UnboundLocalError | EOFError.

Inductive result (A : Type) :=
| Ok (a : A)
| Raise (e : exn).
Arguments Ok {A} a.
Arguments Raise {A} e.

(** The scalar values that reach the formatting and comparison code. *)
Inductive value :=
| Str (s : string)
| Int (z : Z)
| Bool (b : bool).

Definition str_int (z : Z) : string := NilZero.string_of_int (Z.to_int z).

Definition str_bool (b : bool) : string := if b then "True" else "False".

(** [str(v)], which is also what ["%s" % v] and ["{}".format(v)] print. *)
Definition str (v : value) : string :=
  match v with
  | Str s => s
  | Int z => str_int z
  | Bool b => str_bool b
  end.

(** [bool(v)]: truthiness. *)
Definition truth (v : value) : bool :=
  match v with
  | Str s => negb (String.eqb s "")
  | Int z => negb (Z.eqb z 0)
  | Bool b => b
  end.

(** [v == w]; [True == 1] and [False == 0] as in Python, a [str] never
    equals a number. *)
Definition eq (v w : value) : bool :=
  match v, w with
  | Str a, Str b => String.eqb a b
  | Int a, Int b => Z.eqb a b
  | Bool a, Bool b => Bool.eqb a b
  | Bool a, Int b | Int b, Bool a => Z.eqb (if a then 1 else 0) b
  | _, _ => false
  end.

(** [s.split(sep)] for a one-character separator. *)
Fixpoint split (sep : ascii) (s : string) : list string :=
  match s with
  | EmptyString => [EmptyString]
  | String c rest =>
      if Ascii.eqb c sep then EmptyString :: split sep rest
      else match split sep rest with
           | [] => [String c EmptyString]
           | hd :: tl => String c hd :: tl
           end
  end.

(** [sep.join(parts)]. *)
Fixpoint join (sep : string) (parts : list string) : string :=
  match parts with
  | [] => ""
  | [p] => p
  | p :: rest => p ++ sep ++ join sep rest
  end.

(** [sub in s] on strings. *)
Fixpoint contains (sub s : string) : bool :=
  String.prefix sub s
  || match s with
     | EmptyString => false
     | String _ rest => contains sub rest
     end.

(** [s.startswith(p)]. *)
Definition startswith (s p : string) : bool := String.prefix p s.

(** [s * n]: repetition, empty for [n <= 0]. *)
Fixpoint repeat_str (s : string) (n : nat) : string :=
  match n with
  | O => ""
  | S n' => s ++ repeat_str s n'
  end.

(** [a * b] on the operand kinds the controller produces. *)
Definition mul (a b : value) : result value :=
  match a, b with
  | Int x, Int y => Ok (Int (x * y))
  | Int n, Str s | Str s, Int n => Ok (Str (repeat_str s (Z.to_nat n)))
  | Bool x, Int y | Int y, Bool x => Ok (Int ((if x then 1 else 0) * y))
  | Bool x, Bool y => Ok (Int ((if x then 1 else 0) * (if y then 1 else 0)))
  | Bool x, Str s | Str s, Bool x =>
      Ok (Str (repeat_str s (if x then 1%nat else 0%nat)))
  | Str _, Str _ => Raise TypeError
  end.

(** [a + b]. *)
Definition add (a b : value) : result value :=
  match a, b with
  | Int x, Int y => Ok (Int (x + y))
  | Str x, Str y => Ok (Str (x ++ y))
  | Bool x, Int y | Int y, Bool x => Ok (Int ((if x then 1 else 0) + y))
  | Bool x, Bool y => Ok (Int ((if x then 1 else 0) + (if y then 1 else 0)))
  | Str _, _ | _, Str _ => Raise TypeError
  end.

(** A slice index must be an integer (or a [bool], which is one). *)
Definition index (v : value) : result Z :=
  match v with
  | Int z => Ok z
  | Bool b => Ok (if b then 1 else 0)
  | Str _ => Raise TypeError
  end.

(** Clamp a slice bound into [0 .. len] the way [l[a:b]] does. *)
Definition clamp (len i : Z) : Z :=
  let i' := if Z.ltb i 0 then i + len else i in
  Z.max 0 (Z.min len i').

(** [l[start:stop]] with integer bounds. *)
Definition slice {A : Type} (l : list A) (start stop : Z) : list A :=
  let len := Z.of_nat (List.length l) in
  let a := clamp len start in
  let b := clamp len stop in
  firstn (Z.to_nat (b - a)) (skipn (Z.to_nat a) l).

(** [int(math.ceil(float(n) / w))] for the list lengths and worker
    counts that occur: [w] is 1 or 2 and [n] is far below 2^53, where
    the float quotient is exact enough for [ceil]. *)
Definition ceil_div (n w : Z) : Z := (n + w - 1) / w.

(** The builtin [hash] on [str]: a per-process keyed function. *)
Class StrHash := hash : string -> Z.

End Py.

(** Insertion-ordered dictionaries.  [same k' k] is the test a lookup
  makes between a stored key [k'] and the probe [k]: equal hashes and
  [k' == k]. *)
Module PyDict.
Section Dict.
Context {K V : Type} (same : K -> K -> bool).

Fixpoint get (d : list (K * V)) (k : K) : option V :=
  match d with
  | [] => None
  | (k', v) :: d' => if same k' k then Some v else get d' k
  end.

Definition mem (d : list (K * V)) (k : K) : bool :=
  match get d k with Some _ => true | None => false end.

(** [d[k] = v]: an existing entry keeps its key and position. *)
Fixpoint set (d : list (K * V)) (k : K) (v : V) : list (K * V) :=
  match d with
  | [] => [(k, v)]
  | (k', v') :: d' =>
      if same k' k then (k', v) :: d' else (k', v') :: set d' k v
  end.

(** [del d[k]]; [None] stands for the [KeyError]. *)
Fixpoint del (d : list (K * V)) (k : K) : option (list (K * V)) :=
  match d with
  | [] => None
  | (k', v') :: d' =>
      if same k' k then Some d'
      else match del d' k with
           | Some d'' => Some ((k', v') :: d'')
           | None => None
           end
  end.

Definition keys (d : list (K * V)) : list K := map fst d.
Definition values (d : list (K * V)) : list V := map snd d.
End Dict.
End PyDict.

(* ================================================================= *)
(** ** axon.traffic.traffic_objects *)

Module TrafficServer.

Record t := {
  id : string;
  endpoint : string;
  port : Z;
  protocol : string;
  enabled : bool
}.

(** What the right operand of [==] can be. *)
Inductive other :=
| Instance (o : t)
| Foreign (v : Py.value).

Definition __str__ (self : t) : string :=
  "TrafficServer" ++ "("
    ++ ("endpoint=" ++ endpoint self ++ ", port=" ++ Py.str_int (port self)
        ++ ", protocol=" ++ protocol self
        ++ ", enabled=" ++ Py.str_bool (enabled self))
    ++ ")".

Definition __eq__ (self : t) (o : other) : bool :=
  match o with
  | Instance other =>
      String.eqb (endpoint self) (endpoint other)
      && Z.eqb (port self) (port other)
      && String.eqb (protocol self) (protocol other)
  | Foreign _ => false
  end.

Definition __hash__ `{Py.StrHash} (self : t) : Z := Py.hash (__str__ self).

(** The comparison a [dict] lookup makes between two server keys. *)
Definition same_key `{Py.StrHash} (k' k : t) : bool :=
  Z.eqb (__hash__ k') (__hash__ k) && __eq__ k' (Instance k).

End TrafficServer.

Module TrafficRule.

Record t := {
  id : string;
  source : string;
  destination : string;
  port : Z;
  protocol : string;
  allowed : bool;
  enabled : bool;
  request_count : Z
}.

Inductive other :=
| Instance (o : t)
| Foreign (v : Py.value).

Definition __str__ (self : t) : string :=
  "TrafficRule" ++ "("
    ++ ("source=" ++ source self ++ ", destination=" ++ destination self
        ++ ", port=" ++ Py.str_int (port self)
        ++ ", protocol=" ++ protocol self
        ++ ", allowed=" ++ Py.str_bool (allowed self))
    ++ ")".

Definition __eq__ (self : t) (o : other) : bool :=
  match o with
  | Instance other =>
      String.eqb (source self) (source other)
      && String.eqb (destination self) (destination other)
      && Z.eqb (port self) (port other)
      && String.eqb (protocol self) (protocol other)
      && Bool.eqb (allowed self) (allowed other)
  | Foreign _ => false
  end.

Definition __hash__ `{Py.StrHash} (self : t) : Z := Py.hash (__str__ self).

Definition same_key `{Py.StrHash} (k' k : t) : bool :=
  Z.eqb (__hash__ k') (__hash__ k) && __eq__ k' (Instance k).

End TrafficRule.

Module TrafficRuleCollection.
Section WithHash.
Context `{Py.StrHash}.

(** [_rules_map] is the membership index, [_rules] the deque that fixes
    the order; the mutex serialises whole method bodies and is implicit in
    the fact that every method is one function. *)
Record t := {
  _rules_map : list (TrafficRule.t * Z);
  _rules : list TrafficRule.t
}.

Definition __init__ : t := {| _rules_map := []; _rules := [] |}.

Definition __add_rule (self : t) (rule : TrafficRule.t) : t :=
  if negb (PyDict.mem TrafficRule.same_key (_rules_map self) rule) then
    {| _rules_map := PyDict.set TrafficRule.same_key (_rules_map self) rule 1;
       _rules := (_rules self ++ [rule])%list |}
  else self.

Definition add_rule (self : t) (rule : TrafficRule.t) : t :=
  __add_rule self rule.

(** [deque.remove(x)]: drop the first element [e] with [e == x];
    [None] stands for the [ValueError] of a missing element. *)
Fixpoint deque_remove (d : list TrafficRule.t) (x : TrafficRule.other)
  : option (list TrafficRule.t) :=
  match d with
  | [] => None
  | e :: d' =>
      if TrafficRule.__eq__ e x then Some d'
      else match deque_remove d' x with
           | Some d'' => Some (e :: d'')
           | None => None
           end
  end.

(** The body rebinds [rule] to the value stored under it in [_rules_map]
    before calling [remove]; only a [KeyError] is caught (and re-raised). *)
Definition __delete_rule (self : t) (rule : TrafficRule.t)
  : Py.result unit * t :=
  match PyDict.get TrafficRule.same_key (_rules_map self) rule with
  | None => (Py.Raise Py.KeyError, self)
  | Some stored =>
      let rule := TrafficRule.Foreign (Py.Int stored) in
      match deque_remove (_rules self) rule with
      | None => (Py.Raise Py.ValueError, self)
      | Some d => (Py.Ok tt, {| _rules_map := _rules_map self; _rules := d |})
      end
  end.

Definition delete_rule (self : t) (rule : TrafficRule.t)
  : Py.result unit * t :=
  __delete_rule self rule.

Definition add_rules (self : t) (rules : list TrafficRule.t) : t :=
  fold_left __add_rule rules self.

Definition clear_rules (self : t) : t := __init__.

Fixpoint delete_rules (self : t) (rules : list TrafficRule.t)
  : Py.result unit * t :=
  match rules with
  | [] => (Py.Ok tt, self)
  | rule :: rest =>
      match __delete_rule self rule with
      | (Py.Ok _, self') => delete_rules self' rest
      | (Py.Raise e, self') => (Py.Raise e, self')
      end
  end.

Definition get_rule_count (self : t) : Z :=
  Z.of_nat (List.length (_rules_map self)).

Definition __contains__ (self : t) (item : TrafficRule.t) : bool :=
  PyDict.mem TrafficRule.same_key (_rules_map self) item.

(** [deque.rotate(-1)]. *)
Definition rotate_left (d : list TrafficRule.t) : list TrafficRule.t :=
  match d with
  | [] => []
  | x :: rest => (rest ++ [x])%list
  end.

(** *** round_robin_rule_generator

    The generator object is either not yet started, suspended at its
    [yield] holding [item], or exhausted. *)
Inductive generator :=
| Created
| Suspended (item : TrafficRule.t)
| Finished.

(** The [finally] clause. *)
Definition rr_finally (item : TrafficRule.t) (self : t) : t :=
  if PyDict.mem TrafficRule.same_key (_rules_map self) item then
    {| _rules_map := _rules_map self; _rules := rotate_left (_rules self) |}
  else self.

(** From the [while] test to the next [yield] or to the end; [last] is the
    binding of [item] left by the previous iteration.  [Ok None] is the
    end of the sequence. *)
Definition rr_loop (last : option TrafficRule.t) (self : t)
  : Py.result (option TrafficRule.t) * generator * t :=
  match _rules_map self with
  | [] => (Py.Ok None, Finished, self)
  | _ :: _ =>
      match _rules self with
      | item :: _ => (Py.Ok (Some item), Suspended item, self)
      | [] =>
          (* IndexError: logged, [return] through [finally] *)
          match last with
          | Some item => (Py.Ok None, Finished, rr_finally item self)
          | None => (Py.Raise Py.UnboundLocalError, Finished, self)
          end
      end
  end.

(** [next(gen)]. *)
Definition next (g : generator) (self : t)
  : Py.result (option TrafficRule.t) * generator * t :=
  match g with
  | Created => rr_loop None self
  | Suspended item => rr_loop (Some item) (rr_finally item self)
  | Finished => (Py.Ok None, Finished, self)
  end.

(** The first [n] rules the generator yields when nothing else touches
    the collection in between (fewer when it ends earlier). *)
Fixpoint take (n : nat) (g : generator) (self : t) : list TrafficRule.t :=
  match n with
  | O => []
  | S n' =>
      match next g self with
      | (Py.Ok (Some item), g', self') => item :: take n' g' self'
      | _ => []
      end
  end.

Definition round_robin_rule_generator (self : t) (n : nat)
  : list TrafficRule.t :=
  take n Created self.

End WithHash.
End TrafficRuleCollection.

Module TrafficRecord.

(** [port] holds text: the only constructor call in the package is the
    one in [from_metric], which passes the piece cut out of the metric
    string, and [__str__] joins it as a string.  [created] is the clock
    reading taken by [__init__]. *)
Record t := {
  id : string;
  source : string;
  destination : string;
  port : string;
  protocol : string;
  success_count : Z;
  failure_count : Z;
  connected : bool;
  created : Z
}.

Definition __str__ (self : t) : string :=
  "TrafficRecord(" ++
    Py.join "," [source self; destination self; port self; protocol self;
                 Py.str_bool (connected self)]
    ++ ")".

Definition to_metric
  (source destination port protocol connected success : Py.value) : string :=
  let metric :=
    Py.str source ++ ":" ++ Py.str destination ++ ":" ++ Py.str port ++ ":"
      ++ Py.str protocol ++ ":" ++ Py.str connected in
  if Py.truth success then metric ++ ":" ++ "success"
  else metric ++ ":" ++ "failure".

(** [uid] is the [uuid.uuid4().hex] drawn for the new record and [now]
    the clock reading of its constructor.  Unpacking anything but six
    pieces is a [ValueError]. *)
Definition from_metric (uid : string) (now : Z) (metric : string)
  : Py.result t :=
  match Py.split ":" metric with
  | [source; destination; port; protocol; connected; result] =>
      Py.Ok {| id := uid; source := source; destination := destination;
               port := port; protocol := protocol;
               success_count := 0; failure_count := 0;
               connected := String.eqb connected "True";
               created := now |}
  | _ => Py.Raise Py.ValueError
  end.

Definition is_success (metric : string) : bool :=
  Py.contains "success" metric.

Definition with_success_count (self : t) (value : Z) : t :=
  {| id := id self; source := source self; destination := destination self;
     port := port self; protocol := protocol self;
     success_count := value; failure_count := failure_count self;
     connected := connected self; created := created self |}.

Definition with_failure_count (self : t) (value : Z) : t :=
  {| id := id self; source := source self; destination := destination self;
     port := port self; protocol := protocol self;
     success_count := success_count self; failure_count := value;
     connected := connected self; created := created self |}.

End TrafficRecord.

(* ================================================================= *)
(** ** axon.common.metric_cache *)

Module Counter.

Record t := { _count : Z }.

Definition __init__ : t := {| _count := 0 |}.
Definition inc (val : Z) (self : t) : t := {| _count := _count self + val |}.
Definition count (self : t) : Z := _count self.
Definition clear (self : t) : t := {| _count := 0 |}.
Definition dec (val : Z) (self : t) : t := inc (- val) self.

End Counter.

Module MetricsCache.

(** [_counters]: metric string to counter.  A counter object is reached
    only through its key, so the key stands for the reference. *)
Definition t := list (string * Counter.t).

Definition __init__ : t := [].

(** [counter(key)]: create on first access. *)
Definition counter (self : t) (key : string) : t :=
  if PyDict.mem String.eqb self key then self
  else PyDict.set String.eqb self key Counter.__init__.

(** The counter stored under [key] (a fresh one if there is none). *)
Definition lookup (self : t) (key : string) : Counter.t :=
  match PyDict.get String.eqb self key with
  | Some c => c
  | None => Counter.__init__
  end.

(** Apply a counter method to the object stored under [key]. *)
Definition update (key : string) (f : Counter.t -> Counter.t) (self : t) : t :=
  match PyDict.get String.eqb self key with
  | Some c => PyDict.set String.eqb self key (f c)
  | None => self
  end.

Definition clear (self : t) : t := [].

(** [dump_metrics] copies the mapping; the copy shares the counters, so
    it is the list of keys. *)
Definition dump_metrics (self : t) : list string :=
  PyDict.keys self.

End MetricsCache.

Module ExchangeReporter.

(** What other threads do to the cache while [report] runs: a list of
    [cache.counter(key).inc(val)] calls (the probes' [record]). *)
Definition interference := list (string * Z).

Definition interfere (calls : interference) (cache : MetricsCache.t)
  : MetricsCache.t :=
  fold_left
    (fun c call =>
       MetricsCache.update (fst call) (Counter.inc (snd call))
         (MetricsCache.counter c (fst call)))
    calls cache.

(** The [for key in metrics.keys()] loop.  [sched key] is what the other
    threads get to run between [counter.count()] and
    [counter.dec(count)] of that key; each of the two calls is atomic
    under the counter's lock. *)
Fixpoint report_loop (sched : string -> interference) (keys : list string)
  (cache : MetricsCache.t) (count_dict : list (string * Z))
  : MetricsCache.t * list (string * Z) :=
  match keys with
  | [] => (cache, count_dict)
  | key :: rest =>
      let count := Counter.count (MetricsCache.lookup cache key) in
      if Z.eqb count 0 then report_loop sched rest cache count_dict
      else
        let count_dict := PyDict.set String.eqb count_dict key count in
        let cache := interfere (sched key) cache in
        let cache := MetricsCache.update key (Counter.dec count) cache in
        report_loop sched rest cache count_dict
  end.

(** [report]: the cache afterwards and the message handed to
    [exchange.send], if any. *)
Definition report (sched : string -> interference) (cache : MetricsCache.t)
  : MetricsCache.t * option (list (string * Z)) :=
  let (cache', count_dict) :=
    report_loop sched (MetricsCache.dump_metrics cache) cache [] in
  (cache', match count_dict with [] => None | _ :: _ => Some count_dict end).

End ExchangeReporter.

(* ================================================================= *)
(** ** axon.traffic.clients.clients *)

Module TCPClient.

Inductive kind := TCP | UDP | HTTP.

(** [TCPClient] and its subclasses [UDPClient] and [HTTPClient], which
    differ in [PROTOCOL] and [ping] only.  The metric cache is shared
    with the reporter and is passed to [record] explicitly. *)
Record t := {
  cls : kind;
  _source : string;
  _destination : string;
  _port : Z;
  _connected : Py.value;
  _action : Py.value;
  _request_count : Z
}.

Definition PROTOCOL (self : t) : string :=
  match cls self with
  | TCP => "TCP"
  | UDP => "UDP"
  | HTTP => "HTTP"
  end.

Definition is_traffic_successful (self : t) (success : Py.value) : bool :=
  if negb (Py.truth (_connected self)) then
    Bool.eqb (Py.truth (_connected self)) (Py.truth success)
  else
    Bool.eqb (Py.truth (_action self)) (Py.truth success).

(** The metric key [record] counts under. *)
Definition record_metric (self : t) (success : Py.value) : string :=
  let success := is_traffic_successful self success in
  TrafficRecord.to_metric
    (Py.Str (_source self)) (Py.Str (_destination self)) (Py.Int (_port self))
    (Py.Str (PROTOCOL self)) (_connected self) (Py.Bool success).

Definition record (self : t) (success : Py.value) (cache : MetricsCache.t)
  : MetricsCache.t :=
  let metric := record_metric self success in
  let cache := MetricsCache.counter cache metric in
  MetricsCache.update metric (Counter.inc 1) cache.

End TCPClient.

(* ================================================================= *)
(** ** axon.common.subscribers *)

Module SQLRecorder.

(** A message is the [count_dict] one [report] sent: metric to value, in
    insertion order.  [fresh n] is the pair of draws (uuid, clock) made
    by the [n]-th [TrafficRecord] constructed during the call. *)
Definition message := list (string * Z).

Definition handle_item (fresh : nat -> string * Z)
  (traffic_records_map : list (string * TrafficRecord.t)) (n : nat)
  (item : string * Z)
  : Py.result (list (string * TrafficRecord.t)) :=
  let (metric, value) := item in
  let success := TrafficRecord.is_success metric in
  match TrafficRecord.from_metric (fst (fresh n)) (snd (fresh n)) metric with
  | Py.Raise e => Py.Raise e
  | Py.Ok record =>
      let record :=
        match PyDict.get String.eqb traffic_records_map
                (TrafficRecord.__str__ record) with
        | Some found => found
        | None => record
        end in
      let record :=
        if success then TrafficRecord.with_success_count record value
        else TrafficRecord.with_failure_count record value in
      Py.Ok (PyDict.set String.eqb traffic_records_map
               (TrafficRecord.__str__ record) record)
  end.

Fixpoint handle_items (fresh : nat -> string * Z)
  (traffic_records_map : list (string * TrafficRecord.t)) (n : nat)
  (items : message)
  : Py.result (list (string * TrafficRecord.t) * nat) :=
  match items with
  | [] => Py.Ok (traffic_records_map, n)
  | item :: rest =>
      match handle_item fresh traffic_records_map n item with
      | Py.Raise e => Py.Raise e
      | Py.Ok m => handle_items fresh m (S n) rest
      end
  end.

Fixpoint handle_messages (fresh : nat -> string * Z)
  (traffic_records_map : list (string * TrafficRecord.t)) (n : nat)
  (messages : list message)
  : Py.result (list (string * TrafficRecord.t)) :=
  match messages with
  | [] => Py.Ok traffic_records_map
  | message :: rest =>
      match handle_items fresh traffic_records_map n message with
      | Py.Raise e => Py.Raise e
      | Py.Ok (m, n') => handle_messages fresh m n' rest
      end
  end.

(** [handle]: the rows handed to [record_store.add_records_batch]. *)
Definition handle (fresh : nat -> string * Z) (messages : list message)
  : Py.result (list TrafficRecord.t) :=
  match handle_messages fresh [] 0%nat messages with
  | Py.Raise e => Py.Raise e
  | Py.Ok traffic_records_map => Py.Ok (PyDict.values traffic_records_map)
  end.

End SQLRecorder.

(* ================================================================= *)
(** ** axon.traffic.servers *)

Module ServerFactory.

(** What [run_coroutine_threadsafe(...).result()] hands back:
    [create_server] gives a server object, [create_datagram_endpoint] a
    (transport, protocol) pair. *)
Inductive instance :=
| AsyncServer (host : string) (port : Z) (tls : bool)
| DatagramEndpoint (host : string) (port : Z).

(** Binding is taken to succeed (listeners are opened with
    [reuse_port]).  For a protocol outside the four branches the factory
    returns [None] and scheduling it is a [TypeError]. *)
Definition create_server (server : TrafficServer.t) : Py.result instance :=
  let host := TrafficServer.endpoint server in
  let port := TrafficServer.port server in
  if String.eqb (TrafficServer.protocol server) "TCP" then
    Py.Ok (AsyncServer host port false)
  else if String.eqb (TrafficServer.protocol server) "UDP" then
    Py.Ok (DatagramEndpoint host port)
  else if String.eqb (TrafficServer.protocol server) "HTTP" then
    Py.Ok (AsyncServer host port false)
  else if String.eqb (TrafficServer.protocol server) "HTTPS" then
    Py.Ok (AsyncServer host port true)
  else Py.Raise Py.TypeError.

End ServerFactory.

Module TrafficServerWorker.
Section WithHash.
Context `{Py.StrHash}.

Record t := {
  _uid : string;
  _servers : list TrafficServer.t;
  _running_servers : list (TrafficServer.t * ServerFactory.instance)
}.

Definition __init__ (uid : string) : t :=
  {| _uid := uid; _servers := []; _running_servers := [] |}.

(** [server in self._servers]. *)
Definition list_contains (l : list TrafficServer.t) (server : TrafficServer.t)
  : bool :=
  existsb (fun e => TrafficServer.__eq__ e (TrafficServer.Instance server)) l.

(** [self._servers.remove(server)]; [None] is the [ValueError]. *)
Fixpoint list_remove (l : list TrafficServer.t) (server : TrafficServer.t)
  : option (list TrafficServer.t) :=
  match l with
  | [] => None
  | e :: l' =>
      if TrafficServer.__eq__ e (TrafficServer.Instance server) then Some l'
      else match list_remove l' server with
           | Some l'' => Some (e :: l'')
           | None => None
           end
  end.

Fixpoint add_servers (self : t) (servers : list TrafficServer.t)
  : Py.result unit * t :=
  match servers with
  | [] => (Py.Ok tt, self)
  | server :: rest =>
      if negb (list_contains (_servers self) server) then
        let self := {| _uid := _uid self;
                       _servers := (_servers self ++ [server])%list;
                       _running_servers := _running_servers self |} in
        match ServerFactory.create_server server with
        | Py.Raise e => (Py.Raise e, self)
        | Py.Ok server_instance =>
            add_servers
              {| _uid := _uid self; _servers := _servers self;
                 _running_servers :=
                   PyDict.set TrafficServer.same_key (_running_servers self)
                     server server_instance |}
              rest
        end
      else add_servers self rest
  end.

(** [close()] and [wait_closed()] exist on a server object only. *)
Definition _stop_server (self : t) (server : TrafficServer.t)
  : Py.result unit * t :=
  match PyDict.get TrafficServer.same_key (_running_servers self) server with
  | None => (Py.Raise Py.KeyError, self)
  | Some (ServerFactory.DatagramEndpoint _ _) =>
      (Py.Raise Py.AttributeError, self)
  | Some (ServerFactory.AsyncServer _ _ _) =>
      match PyDict.del TrafficServer.same_key (_running_servers self) server with
      | None => (Py.Raise Py.KeyError, self)
      | Some d =>
          (Py.Ok tt, {| _uid := _uid self; _servers := _servers self;
                        _running_servers := d |})
      end
  end.

(** One pass of a loop body shared by the two delete methods. *)
Definition stop_and_remove (self : t) (server : TrafficServer.t)
  : Py.result unit * t :=
  match _stop_server self server with
  | (Py.Raise e, self') => (Py.Raise e, self')
  | (Py.Ok _, self') =>
      match list_remove (_servers self') server with
      | None => (Py.Raise Py.ValueError, self')
      | Some l =>
          (Py.Ok tt, {| _uid := _uid self'; _servers := l;
                        _running_servers := _running_servers self' |})
      end
  end.

(** [for server in servers: if server in servers: ...]: the test is
    against the argument list. *)
Fixpoint delete_servers_loop (self : t) (servers todo : list TrafficServer.t)
  : Py.result unit * t :=
  match todo with
  | [] => (Py.Ok tt, self)
  | server :: rest =>
      if list_contains servers server then
        match stop_and_remove self server with
        | (Py.Raise e, self') => (Py.Raise e, self')
        | (Py.Ok _, self') => delete_servers_loop self' servers rest
        end
      else delete_servers_loop self servers rest
  end.

Definition delete_servers (self : t) (servers : list TrafficServer.t)
  : Py.result unit * t :=
  delete_servers_loop self servers servers.

(** [for server in self._servers: ...] with the body removing from the
    list it iterates: the list iterator keeps an index [i] and reads
    [self._servers[i]] afresh at every step until [i] is out of range.
    Each pass shortens the list by one and advances [i] by one, so
    [fuel] passes are enough when [fuel] is the length of the list; the
    outcome marked for exhausted fuel is never reached from
    [delete_all_servers] (lemma [delete_all_loop_fuel]). *)
Fixpoint delete_all_loop (fuel : nat) (i : nat) (self : t)
  : Py.result unit * t :=
  match nth_error (_servers self) i with
  | None => (Py.Ok tt, self)
  | Some server =>
      match fuel with
      | O => (Py.Raise Py.IndexError, self)
      | S fuel' =>
          match stop_and_remove self server with
          | (Py.Raise e, self') => (Py.Raise e, self')
          | (Py.Ok _, self') => delete_all_loop fuel' (S i) self'
          end
      end
  end.

Definition delete_all_servers (self : t) : Py.result unit * t :=
  delete_all_loop (List.length (_servers self)) 0%nat self.

Definition get_server_count (self : t) : Z :=
  Z.of_nat (List.length (_servers self)).

Definition has_server (self : t) (server : TrafficServer.t) : bool :=
  list_contains (_servers self) server.

End WithHash.
End TrafficServerWorker.

(* ================================================================= *)
(** ** axon.traffic.clients.worker *)

Module TrafficGenWorker.
Section WithHash.
Context `{Py.StrHash}.

(** The traffic thread itself is not part of the state; [_run_event]
    records that one has been started. *)
Record t := {
  _uid : string;
  _rule_collections : TrafficRuleCollection.t;
  _run_event : bool;
  _stop_event : bool
}.

Definition __init__ (uid : string) : t :=
  {| _uid := uid; _rule_collections := TrafficRuleCollection.__init__;
     _run_event := false; _stop_event := false |}.

Definition add_clients (self : t) (rules : list TrafficRule.t) : t :=
  {| _uid := _uid self;
     _rule_collections :=
       TrafficRuleCollection.add_rules (_rule_collections self) rules;
     _run_event := true;
     _stop_event := _stop_event self |}.

Fixpoint delete_clients (self : t) (rules : list TrafficRule.t)
  : Py.result unit * t :=
  match rules with
  | [] => (Py.Ok tt, self)
  | rule :: rest =>
      match TrafficRuleCollection.delete_rule (_rule_collections self) rule with
      | (Py.Raise e, c) =>
          (Py.Raise e, {| _uid := _uid self; _rule_collections := c;
                          _run_event := _run_event self;
                          _stop_event := _stop_event self |})
      | (Py.Ok _, c) =>
          delete_clients {| _uid := _uid self; _rule_collections := c;
                            _run_event := _run_event self;
                            _stop_event := _stop_event self |} rest
      end
  end.

Definition delete_all_clients (self : t) : t :=
  {| _uid := _uid self;
     _rule_collections :=
       TrafficRuleCollection.clear_rules (_rule_collections self);
     _run_event := _run_event self;
     _stop_event := true |}.

Definition get_rule_count (self : t) : Z :=
  TrafficRuleCollection.get_rule_count (_rule_collections self).

Definition has_rule (self : t) (rule : TrafficRule.t) : bool :=
  TrafficRuleCollection.__contains__ (_rule_collections self) rule.

End WithHash.
End TrafficGenWorker.

(* ================================================================= *)
(** ** axon.common.local_cache *)

Module MemCache.
Section Cache.
Context {V : Type}.

Definition t := list (string * V).

Definition __init__ : t := [].

Definition add (self : t) (key : string) (value : V) : t :=
  PyDict.set String.eqb self key value.

(** [get(key)] with the default [None].  The keys stored are strings; a
    probe of another type equals none of them. *)
Definition get (self : t) (key : Py.value) : option V :=
  match key with
  | Py.Str k => PyDict.get String.eqb self k
  | Py.Int _ | Py.Bool _ => None
  end.

Definition delete (self : t) (key : string) : t :=
  match PyDict.del String.eqb self key with
  | Some d => d
  | None => self
  end.

Definition delete_many (self : t) (keys : list string) : t :=
  fold_left delete keys self.

Definition get_all_keys (self : t) : list string := PyDict.keys self.

End Cache.
Arguments t : clear implicits.
End MemCache.

(* ================================================================= *)
(** ** axon.traffic.controller *)

Module TrafficController.

(** What the controller takes from its host: the successive
    [uuid.uuid4().hex] draws, the addresses the kernel gives to the
    listeners of successive worker processes, and [cpu_count()]. *)
Class Host := {
  uuid4_hex : nat -> string;
  listener_address : nat -> string;
  cpu_count : Z
}.

Section WithHost.
Context `{Py.StrHash} `{Host}.

(** [min(2, cpu_count() or 1)]. *)
Definition CLIENT_WORKER_COUNT : Z :=
  Z.min 2 (if Z.eqb cpu_count 0 then 1 else cpu_count).
Definition SERVER_WORKER_COUNT : Z :=
  Z.min 2 (if Z.eqb cpu_count 0 then 1 else cpu_count).

Inductive worker_type := server | client.

Definition type_name (wt : worker_type) : string :=
  match wt with
  | server => "server"
  | client => "client"
  end.

(** The rule class each entry point works on. *)
Definition rule (wt : worker_type) : Type :=
  match wt with
  | server => TrafficServer.t
  | client => TrafficRule.t
  end.

Definition rule_id {wt : worker_type} : rule wt -> string :=
  match wt with
  | server => TrafficServer.id
  | client => TrafficRule.id
  end.

(** The worker context dictionary: ['uid'], then ['address'] and
    ['process'] once the process exists. *)
Record context := {
  uid : string;
  address : option string;
  process : option string
}.

Inductive handler :=
| ServerHandler (h : TrafficServerWorker.t)
| GenHandler (h : TrafficGenWorker.t).

(** The controller's two registries together with the worker processes
    it talks to ([processes]: listener address to the state of the
    handler served there) and the number of contexts drawn so far. *)
Record t := {
  _rules_registry : MemCache.t context;
  _workers_registry : MemCache.t context;
  processes : list (string * handler);
  draws : nat
}.

Definition __init__ : t :=
  {| _rules_registry := MemCache.__init__;
     _workers_registry := MemCache.__init__;
     processes := []; draws := 0%nat |}.

Definition with_rules_registry (self : t) (r : MemCache.t context) : t :=
  {| _rules_registry := r; _workers_registry := _workers_registry self;
     processes := processes self; draws := draws self |}.

Definition with_workers_registry (self : t) (r : MemCache.t context) : t :=
  {| _rules_registry := _rules_registry self; _workers_registry := r;
     processes := processes self; draws := draws self |}.

Definition with_processes (self : t) (p : list (string * handler)) : t :=
  {| _rules_registry := _rules_registry self;
     _workers_registry := _workers_registry self;
     processes := p; draws := draws self |}.

(** Methods: a result (or an exception) and the state left behind. *)
Definition M (A : Type) : Type := t -> Py.result A * t.

Definition ret {A : Type} (a : A) : M A := fun self => (Py.Ok a, self).

Definition raise {A : Type} (e : Py.exn) : M A :=
  fun self => (Py.Raise e, self).

Definition bind {A B : Type} (m : M A) (k : A -> M B) : M B :=
  fun self =>
    match m self with
    | (Py.Ok a, self') => k a self'
    | (Py.Raise e, self') => (Py.Raise e, self')
    end.

(** [try: m  except Exception as ex: print(ex)]. *)
Definition try_print (m : M unit) : M unit :=
  fun self =>
    match m self with
    | (Py.Ok a, self') => (Py.Ok a, self')
    | (Py.Raise _, self') => (Py.Ok tt, self')
    end.

Definition lift {A : Type} (r : Py.result A) : M A := fun self => (r, self).

Notation "x <- m ;; k" := (bind m (fun x => k))
  (at level 61, m at next level, right associativity).
Notation "m ;;; k" := (bind m (fun _ => k))
  (at level 61, right associativity).

Definition _get_worker_context : M context :=
  fun self =>
    (Py.Ok {| uid := uuid4_hex (draws self); address := None;
              process := None |},
     {| _rules_registry := _rules_registry self;
        _workers_registry := _workers_registry self;
        processes := processes self; draws := S (draws self) |}).

(** [_create_worker]: a new process serving [handler] on a fresh
    listener; the result is the pair (address, process name).  The
    context was the last one drawn. *)
Definition _create_worker (name : string) (h : handler)
  : M (string * string) :=
  fun self =>
    let addr := listener_address (Nat.pred (draws self)) in
    (Py.Ok (addr, name),
     with_processes self (PyDict.set String.eqb (processes self) addr h)).

Definition _get_all_workers (wt : worker_type) : M (list string) :=
  fun self =>
    (Py.Ok (filter (fun worker => Py.startswith worker (type_name wt))
              (MemCache.get_all_keys (_workers_registry self))),
     self).

Definition _get_all_rules (wt : worker_type) : M (list string) :=
  fun self =>
    (Py.Ok (filter (fun r => Py.startswith r (type_name wt))
              (MemCache.get_all_keys (_rules_registry self))),
     self).

(** *** The RPC client

    [RPCClient(address).method(rules)]: connect, let the worker process
    run the handler method, and re-raise what it raised.  A method the
    handler does not have ends the serving process, which the caller
    sees as a dropped connection. *)
Definition rpc (addr : option string)
  (method : handler -> option (Py.result unit * handler)) : M unit :=
  fun self =>
    match addr with
    | None => (Py.Raise Py.ValueError, self)
    | Some a =>
        match PyDict.get String.eqb (processes self) a with
        | None => (Py.Raise Py.ConnectionError, self)
        | Some h =>
            match method h with
            | None =>
                (Py.Raise Py.EOFError,
                 with_processes self
                   (match PyDict.del String.eqb (processes self) a with
                    | Some p => p
                    | None => processes self
                    end))
            | Some (r, h') =>
                (r, with_processes self
                      (PyDict.set String.eqb (processes self) a h'))
            end
        end
    end.

(** [add_servers] for server rules, [add_clients] for client rules. *)
Definition add_method (wt : worker_type)
  : list (rule wt) -> handler -> option (Py.result unit * handler) :=
  match wt with
  | server => fun rules h =>
      match h with
      | ServerHandler s =>
          let (r, s') := TrafficServerWorker.add_servers s rules in
          Some (r, ServerHandler s')
      | GenHandler _ => None
      end
  | client => fun rules h =>
      match h with
      | GenHandler g =>
          Some (Py.Ok tt, GenHandler (TrafficGenWorker.add_clients g rules))
      | ServerHandler _ => None
      end
  end.

(** [delete_servers] for server rules, [delete_clients] for client rules. *)
Definition delete_method (wt : worker_type)
  : list (rule wt) -> handler -> option (Py.result unit * handler) :=
  match wt with
  | server => fun rules h =>
      match h with
      | ServerHandler s =>
          let (r, s') := TrafficServerWorker.delete_servers s rules in
          Some (r, ServerHandler s')
      | GenHandler _ => None
      end
  | client => fun rules h =>
      match h with
      | GenHandler g =>
          let (r, g') := TrafficGenWorker.delete_clients g rules in
          Some (r, GenHandler g')
      | ServerHandler _ => None
      end
  end.

Definition rule_key (wt : worker_type) (r : rule wt) : string :=
  type_name wt ++ "_" ++ rule_id r.

(** The closing loop of both sharding paths: record each rule of the
    slice as owned by [ctx]. *)
Definition register_rules (wt : worker_type) (rules : list (rule wt))
  (ctx : context) : M unit :=
  fun self =>
    (Py.Ok tt,
     with_rules_registry self
       (fold_left (fun reg r => MemCache.add reg (rule_key wt r) ctx)
          rules (_rules_registry self))).

(** [enumerate(l)]. *)
Definition enumerate {A : Type} (l : list A) : list (Z * A) :=
  combine (map Z.of_nat (seq 0 (List.length l))) l.

(** *** _add_rules_to_existing_workers

    The loop header reads [for worker, index in enumerate(...)]: the
    position is bound to [worker] and the registry key to [index]. *)
Fixpoint add_existing_loop (wt : worker_type) (new_rules : list (rule wt))
  (rules_per_worker : Z) (items : list (Z * string)) : M unit :=
  match items with
  | [] => ret tt
  | (position, key) :: rest =>
      let worker := Py.Int position in
      let index := Py.Str key in
      fun self =>
        let ctx := MemCache.get (_workers_registry self) worker in
        (start <- lift (Py.mul (Py.Int rules_per_worker) index) ;;
         end_ <- lift (Py.add start (Py.Int rules_per_worker)) ;;
         a <- lift (Py.index start) ;;
         b <- lift (Py.index end_) ;;
         let rules := Py.slice new_rules a b in
         match rules with
         | [] => add_existing_loop wt new_rules rules_per_worker rest
         | _ :: _ =>
             match ctx with
             | None => raise Py.AttributeError
             | Some c =>
                 rpc (address c) (add_method wt rules) ;;;
                 register_rules wt rules c ;;;
                 add_existing_loop wt new_rules rules_per_worker rest
             end
         end) self
  end.

Definition _add_rules_to_existing_workers (wt : worker_type)
  (new_rules : list (rule wt)) (rules_per_worker : Z) : M unit :=
  workers <- _get_all_workers wt ;;
  add_existing_loop wt new_rules rules_per_worker (enumerate workers).

(** *** _create_workers_and_add_rules *)

Definition new_handler (wt : worker_type) (uid : string) : handler :=
  match wt with
  | server => ServerHandler (TrafficServerWorker.__init__ uid)
  | client => GenHandler (TrafficGenWorker.__init__ uid)
  end.

(** The part of the loop body after the [break] test. *)
Definition create_one (wt : worker_type) (rules : list (rule wt))
  (ctx : context) : M unit :=
  let h := new_handler wt (uid ctx) in
  let name := "axon_" ++ type_name wt ++ "_worker_" ++ uid ctx in
  worker <- _create_worker name h ;;
  let ctx := {| uid := uid ctx; address := Some (fst worker);
                process := Some (snd worker) |} in
  let key := type_name wt ++ "_" ++ uid ctx in
  (fun self =>
     (Py.Ok tt,
      with_workers_registry self
        (MemCache.add (_workers_registry self) key ctx))) ;;;
  rpc (address ctx) (add_method wt rules) ;;;
  register_rules wt rules ctx.

(** [for i in range(workers_to_be_created)], from [i] on, [todo] passes
    left; every pass is wrapped in [try ... except Exception]. *)
Fixpoint create_loop (wt : worker_type) (new_rules : list (rule wt))
  (rules_per_worker : Z) (i : Z) (todo : nat) : M unit :=
  match todo with
  | O => ret tt
  | S todo' =>
      fun self =>
        match _get_worker_context self with
        | (Py.Raise e, self') =>
            create_loop wt new_rules rules_per_worker (i + 1) todo' self'
        | (Py.Ok ctx, self') =>
            let start := rules_per_worker * i in
            let end_ := start + rules_per_worker in
            let rules := Py.slice new_rules start end_ in
            match rules with
            | [] => (Py.Ok tt, self')          (* break *)
            | _ :: _ =>
                (try_print (create_one wt rules ctx) ;;;
                 create_loop wt new_rules rules_per_worker (i + 1) todo')
                  self'
            end
        end
  end.

Definition _create_workers_and_add_rules (wt : worker_type)
  (new_rules : list (rule wt)) (workers_to_be_created : Z)
  (rules_per_worker : Z) : M unit :=
  create_loop wt new_rules rules_per_worker 0
    (Z.to_nat workers_to_be_created).

(** *** _delete_rule_from_worker *)

(** The first loop: [workers_rule_map], owner uid to its rules. *)
Fixpoint group_by_owner (wt : worker_type) (registry : MemCache.t context)
  (rules : list (rule wt)) (workers_rule_map : list (string * list (rule wt)))
  : list (string * list (rule wt)) :=
  match rules with
  | [] => workers_rule_map
  | r :: rest =>
      let rule_key := type_name wt ++ "_" ++ rule_id r in
      match MemCache.get registry (Py.Str rule_key) with
      | Some rule_owner_context =>
          let owner := uid rule_owner_context in
          let sofar :=
            match PyDict.get String.eqb workers_rule_map owner with
            | Some l => l
            | None => []
            end in
          group_by_owner wt registry rest
            (PyDict.set String.eqb workers_rule_map owner (sofar ++ [r])%list)
      | None => group_by_owner wt registry rest workers_rule_map
      end
  end.

(** The second loop: [for worker, rules in workers_rule_map.items()];
    the registry is probed with the map's key, the owner's uid. *)
Fixpoint delete_loop (wt : worker_type)
  (items : list (string * list (rule wt))) : M unit :=
  match items with
  | [] => ret tt
  | (worker, rules) :: rest =>
      fun self =>
        match MemCache.get (_workers_registry self) (Py.Str worker) with
        | None => (Py.Raise Py.AttributeError, self)
        | Some ctx =>
            (rpc (address ctx) (delete_method wt rules) ;;;
             (fun self =>
                let rule_keys :=
                  map (fun r => type_name wt ++ "_" ++ rule_id r) rules in
                (Py.Ok tt,
                 with_rules_registry self
                   (MemCache.delete_many (_rules_registry self) rule_keys))) ;;;
             delete_loop wt rest) self
        end
  end.

Definition _delete_rule_from_worker (wt : worker_type)
  (rules : list (rule wt)) : M unit :=
  fun self =>
    delete_loop wt (group_by_owner wt (_rules_registry self) rules []) self.

(** *** The entry points *)

Definition in_keys (k : string) (keys : list string) : bool :=
  existsb (String.eqb k) keys.

Definition start_servers (server_rules : list TrafficServer.t) : M unit :=
  existing_server_rules <- _get_all_rules server ;;
  let new_rules :=
    filter (fun r => negb (in_keys ("server" ++ "_" ++ TrafficServer.id r)
                             existing_server_rules)) server_rules in
  all_workers <- _get_all_workers server ;;
  let current_workers := Z.of_nat (List.length all_workers) in
  let workers := SERVER_WORKER_COUNT in
  let servers_per_worker :=
    Py.ceil_div (Z.of_nat (List.length new_rules)) workers in
  if negb (Z.eqb current_workers 0) && Z.eqb current_workers workers then
    _add_rules_to_existing_workers server new_rules servers_per_worker
  else
    let workers_to_be_created := workers - current_workers in
    _create_workers_and_add_rules server new_rules workers_to_be_created
      servers_per_worker.

Definition start_clients (rules : list TrafficRule.t) : M unit :=
  existing_rules <- _get_all_rules client ;;
  let new_rules :=
    filter (fun r => negb (in_keys ("client" ++ "_" ++ TrafficRule.id r)
                             existing_rules)) rules in
  all_workers <- _get_all_workers client ;;
  let current_workers := Z.of_nat (List.length all_workers) in
  let workers := CLIENT_WORKER_COUNT in
  let rules_per_worker :=
    Py.ceil_div (Z.of_nat (List.length new_rules)) workers in
  if negb (Z.eqb current_workers 0) && Z.eqb current_workers workers then
    _add_rules_to_existing_workers client new_rules rules_per_worker
  else
    let workers_to_be_created := workers - current_workers in
    _create_workers_and_add_rules client new_rules workers_to_be_created
      rules_per_worker.

Definition stop_servers (rules : list TrafficServer.t) : M unit :=
  _delete_rule_from_worker server rules.

Definition stop_clients (rules : list TrafficRule.t) : M unit :=
  _delete_rule_from_worker client rules.

End WithHost.
End TrafficController.

(* ================================================================= *)
(** ** axon.traffic.clients.worker: the traffic thread *)

Module TrafficGenThread.
Section WithHash.
Context `{Py.StrHash}.

(** The loop body's choice of client class and the sender it builds
    from the rule; [None] is the "Invalid protocol" branch. *)
Definition sender (rule : TrafficRule.t) : option TCPClient.t :=
  let client :=
    if String.eqb (TrafficRule.protocol rule) "TCP" then Some TCPClient.TCP
    else if String.eqb (TrafficRule.protocol rule) "UDP" then
      Some TCPClient.UDP
    else if String.eqb (TrafficRule.protocol rule) "HTTP" then
      Some TCPClient.HTTP
    else None in
  match client with
  | None => None
  | Some client =>
      Some {| TCPClient.cls := client;
              TCPClient._source := TrafficRule.source rule;
              TCPClient._destination := TrafficRule.destination rule;
              TCPClient._port := TrafficRule.port rule;
              TCPClient._connected := Py.Bool true;
              TCPClient._action := Py.Bool (TrafficRule.allowed rule);
              TCPClient._request_count := TrafficRule.request_count rule |}
  end.

Definition with_rules (self : TrafficGenWorker.t)
  (c : TrafficRuleCollection.t) : TrafficGenWorker.t :=
  {| TrafficGenWorker._uid := TrafficGenWorker._uid self;
     TrafficGenWorker._rule_collections := c;
     TrafficGenWorker._run_event := TrafficGenWorker._run_event self;
     TrafficGenWorker._stop_event := TrafficGenWorker._stop_event self |}.

Definition _cleanup_states (self : TrafficGenWorker.t) : TrafficGenWorker.t :=
  {| TrafficGenWorker._uid := TrafficGenWorker._uid self;
     TrafficGenWorker._rule_collections :=
       TrafficGenWorker._rule_collections self;
     TrafficGenWorker._run_event := false;
     TrafficGenWorker._stop_event := true |}.

(** Leaving the [for] loop by [break] drops the generator, which closes
    it: [GeneratorExit] is raised at the [yield] and the [finally]
    clause runs. *)
Definition close (g : TrafficRuleCollection.generator)
  (c : TrafficRuleCollection.t) : TrafficRuleCollection.t :=
  match g with
  | TrafficRuleCollection.Suspended item =>
      TrafficRuleCollection.rr_finally item c
  | _ => c
  end.

(** Where the thread is after a number of passes: still in the loop
    with the generator suspended, returned after the callback, or dead
    from an exception the generator let through. *)
Inductive outcome :=
| Running (g : TrafficRuleCollection.generator) (self : TrafficGenWorker.t)
| Returned (self : TrafficGenWorker.t)
| Died (e : Py.exn) (self : TrafficGenWorker.t).

(** [fuel] passes of the loop with no other thread acting in between;
    the result lists the senders handed to the pool, in order. *)
Fixpoint _generate_traffic (fuel : nat) (g : TrafficRuleCollection.generator)
  (self : TrafficGenWorker.t) : list TCPClient.t * outcome :=
  match fuel with
  | O => ([], Running g self)
  | S fuel' =>
      match TrafficRuleCollection.next g
              (TrafficGenWorker._rule_collections self) with
      | (Py.Raise e, _, c) => ([], Died e (with_rules self c))
      | (Py.Ok None, _, c) => ([], Returned (_cleanup_states (with_rules self c)))
      | (Py.Ok (Some rule), g', c) =>
          let self := with_rules self c in
          if TrafficGenWorker._stop_event self then
            ([], Returned (_cleanup_states (with_rules self (close g' c))))
          else
            match sender rule with
            | None => _generate_traffic fuel' g' self
            | Some s =>
                let (sent, o) := _generate_traffic fuel' g' self in
                (s :: sent, o)
            end
      end
  end.

End WithHash.
End TrafficGenThread.


(* ================================================================= *)
(** ** axon.common.monit_queues *)

Module Exchange.

(** A subscriber is an object compared by identity; [task] is that
    identity.  A message is what [send] was given (the reporter's
    [count_dict]). *)
Definition task := nat.
Definition message := list (string * Z).

(** The per-subscriber dictionary. *)
Record details := {
  queue : list message;
  buffer_interval : Z;
  next_fire_time : Z
}.

(** The [defaultdict] factory. *)
Definition default : details :=
  {| queue := []; buffer_interval := 0; next_fire_time := 0 |}.

(** [_queue] is the multiprocessing queue, oldest item first (each
    [send] also writes the byte that makes the exchange readable);
    [started] lists the [subscriber.handle(messages)] threads started so
    far, oldest first. *)
Record t := {
  _queue : list message;
  _subscribers : list (task * details);
  started : list (task * list message)
}.

Definition __init__ : t :=
  {| _queue := []; _subscribers := []; started := [] |}.

(** The loop of [_send]: what it leaves in [_subscribers] and the
    threads it starts. *)
Fixpoint send_loop (current_time : Z) (subscribers : list (task * details))
  : list (task * details) * list (task * list message) :=
  match subscribers with
  | [] => ([], [])
  | (subscriber, d) :: rest =>
      let (rest', threads) := send_loop current_time rest in
      if Z.geb current_time (next_fire_time d) then
        let messages := queue d in
        ((subscriber,
          {| queue := []; buffer_interval := buffer_interval d;
             next_fire_time := current_time + buffer_interval d |}) :: rest',
         (subscriber, messages) :: threads)
      else ((subscriber, d) :: rest', threads)
  end.

(** [current_time] is the reading of [int(time.time())]. *)
Definition _send (current_time : Z) (self : t) : t :=
  let (subscribers, threads) := send_loop current_time (_subscribers self) in
  {| _queue := _queue self; _subscribers := subscribers;
     started := (started self ++ threads)%list |}.

(** [None]: the queue is empty and [get] blocks. *)
Definition _recieve (current_time : Z) (self : t) : option t :=
  match _queue self with
  | [] => None
  | message :: rest =>
      Some (_send current_time
              {| _queue := rest;
                 _subscribers :=
                   map (fun entry =>
                          (fst entry,
                           {| queue := (queue (snd entry) ++ [message])%list;
                              buffer_interval := buffer_interval (snd entry);
                              next_fire_time := next_fire_time (snd entry) |}))
                     (_subscribers self);
                 started := started self |})
  end.

Definition send (self : t) (item : message) : t :=
  {| _queue := (_queue self ++ [item])%list;
     _subscribers := _subscribers self; started := started self |}.

(** The first subscript creates the default entry when [task] is new. *)
Definition attach (self : t) (task : task) (buffer_interval : Z)
  (current_time : Z) : t :=
  let d := match PyDict.get Nat.eqb (_subscribers self) task with
           | Some d => d
           | None => default
           end in
  {| _queue := _queue self;
     _subscribers :=
       PyDict.set Nat.eqb (_subscribers self) task
         {| queue := queue d; buffer_interval := buffer_interval;
            next_fire_time := current_time + buffer_interval |};
     started := started self |}.

Definition detach (self : t) (task : task) : Py.result unit * t :=
  match PyDict.del Nat.eqb (_subscribers self) task with
  | None => (Py.Raise Py.KeyError, self)
  | Some subscribers =>
      (Py.Ok tt, {| _queue := _queue self; _subscribers := subscribers;
                    started := started self |})
  end.

End Exchange.


(* ================================================================= *)
(** ** axon.traffic.clients.clients: the probes *)

(** What the network does to one request is an input: whether each
    socket call succeeds, and for HTTP what [get_response] returns. *)
Module Probe.

(** The exceptions that occur inside [ping]; every handler there
    catches [Exception], so they differ in name only. *)
Inductive raised :=
| SocketError                      (* raised by a socket or HTTP call *)
| RequestFailed (status : Z)       (* Exception("HTTP Request failed ...") *)
| NoCodeAttribute                  (* AttributeError: int has no 'code' *)
| SockUnbound.                     (* UnboundLocalError on [sock] *)

Inductive outcome :=
| Return
| Throw (e : raised).

(** One TCP or UDP request: is the socket created, does [connect] go
    through, and do the first and the second send/receive go through. *)
Record request := {
  creates : bool;
  connects : bool;
  first : bool;
  second : bool
}.

(** One HTTP request: the status each of the two possible
    [get_response] calls returns, [None] when the call raises. *)
Record http_request := {
  first_response : option Z;
  second_response : option Z
}.

(** [TCPClient._send_receive] and [UDPClient._send_receive]: try, and
    on any exception try once more. *)
Definition _send_receive (r : request) : outcome :=
  if first r then Return
  else if second r then Return
  else Throw SocketError.

(** [HTTPClient._send_receive].  [status] stays [None] when the first
    [get_response] raises; the retry reads [status.code] of the integer
    the second call returned. *)
Definition http_send_receive (r : http_request) : outcome :=
  let retry :=
    match second_response r with
    | Some status => Throw NoCodeAttribute
    | None => Throw SocketError
    end in
  match first_response r with
  | Some status =>
      if negb (Z.eqb status 200) then
        if negb (Z.eqb status 0) then Throw (RequestFailed status)
        else retry
      else Return
  | None => retry
  end.

(** [TCPClient.ping]: [bound] says whether [sock] has been assigned in
    an earlier pass; when it has not and the socket cannot be created,
    the [finally] clause raises and the method logs that and returns. *)
Fixpoint tcp_loop (self : TCPClient.t) (requests : list request)
  (bound : bool) (cache : MetricsCache.t) : MetricsCache.t :=
  match requests with
  | [] => cache
  | r :: rest =>
      if creates r then
        let done :=
          if connects r then _send_receive r else Throw SocketError in
        let cache :=
          match done with
          | Return => TCPClient.record self (Py.Bool true) cache
          | Throw _ => TCPClient.record self (Py.Bool false) cache
          end in
        tcp_loop self rest true cache
      else
        let cache := TCPClient.record self (Py.Bool false) cache in
        if bound then tcp_loop self rest true cache
        else cache
  end.

Definition tcp_ping (self : TCPClient.t) (net : nat -> request)
  (cache : MetricsCache.t) : MetricsCache.t :=
  tcp_loop self
    (map net (seq 0 (Z.to_nat (TCPClient._request_count self)))) false cache.

(** [UDPClient.ping]: one socket for all requests; when it cannot be
    created nothing is recorded and the [finally] clause raises. *)
Definition udp_ping (self : TCPClient.t) (created : bool)
  (net : nat -> request) (cache : MetricsCache.t)
  : outcome * MetricsCache.t :=
  if created then
    (Return,
     fold_left
       (fun cache r =>
          match _send_receive r with
          | Return => TCPClient.record self (Py.Bool true) cache
          | Throw _ => TCPClient.record self (Py.Bool false) cache
          end)
       (map net (seq 0 (Z.to_nat (TCPClient._request_count self)))) cache)
  else (Throw SockUnbound, cache).

(** [HTTPClient.ping]. *)
Definition http_ping (self : TCPClient.t) (net : nat -> http_request)
  (cache : MetricsCache.t) : MetricsCache.t :=
  fold_left
    (fun cache r =>
       match http_send_receive r with
       | Return => TCPClient.record self (Py.Bool true) cache
       | Throw _ => TCPClient.record self (Py.Bool false) cache
       end)
    (map net (seq 0 (Z.to_nat (TCPClient._request_count self)))) cache.

End Probe.


(* ================================================================= *)
(** ** axon.traffic.controller: stopping everything *)

Module TrafficControllerStopAll.
Section WithHost.
Context `{Py.StrHash} `{TrafficController.Host}.

(** [delete_all_servers] on a server worker, [delete_all_clients] on a
    client worker. *)
Definition delete_all_method (wt : TrafficController.worker_type)
  : TrafficController.handler ->
    option (Py.result unit * TrafficController.handler) :=
  match wt with
  | TrafficController.server => fun h =>
      match h with
      | TrafficController.ServerHandler s =>
          let (r, s') := TrafficServerWorker.delete_all_servers s in
          Some (r, TrafficController.ServerHandler s')
      | TrafficController.GenHandler _ => None
      end
  | TrafficController.client => fun h =>
      match h with
      | TrafficController.GenHandler g =>
          Some (Py.Ok tt,
                TrafficController.GenHandler
                  (TrafficGenWorker.delete_all_clients g))
      | TrafficController.ServerHandler _ => None
      end
  end.

(** [process = context.get('process'); if process: process.stop()]:
    the listener is closed and the worker process terminated.  The
    process of a context is the one serving at its address (both are
    written by the same [update]). *)
Definition stop_process (ctx : TrafficController.context)
  : TrafficController.M unit :=
  fun self =>
    match TrafficController.process ctx, TrafficController.address ctx with
    | Some _, Some a =>
        (Py.Ok tt,
         TrafficController.with_processes self
           (match PyDict.del String.eqb (TrafficController.processes self) a
            with
            | Some p => p
            | None => TrafficController.processes self
            end))
    | _, _ => (Py.Ok tt, self)
    end.

Fixpoint delete_all_loop (wt : TrafficController.worker_type)
  (workers : list string) : TrafficController.M unit :=
  match workers with
  | [] => TrafficController.ret tt
  | worker :: rest =>
      fun self =>
        match MemCache.get (TrafficController._workers_registry self)
                (Py.Str worker) with
        | None => (Py.Raise Py.AttributeError, self)
        | Some context =>
            TrafficController.bind
              (TrafficController.rpc (TrafficController.address context)
                 (delete_all_method wt))
              (fun _ =>
                 TrafficController.bind (stop_process context)
                   (fun _ => delete_all_loop wt rest))
              self
        end
  end.

Definition _delete_all_rules_from_workers
  (wt : TrafficController.worker_type) : TrafficController.M unit :=
  TrafficController.bind (TrafficController._get_all_workers wt)
    (fun workers =>
       TrafficController.bind (delete_all_loop wt workers)
         (fun _ =>
            TrafficController.bind (TrafficController._get_all_rules wt)
              (fun rules self =>
                 (Py.Ok tt,
                  TrafficController.with_rules_registry self
                    (MemCache.delete_many
                       (TrafficController._rules_registry self) rules))))).

Definition stop_all_servers : TrafficController.M unit :=
  _delete_all_rules_from_workers TrafficController.server.

Definition stop_all_clients : TrafficController.M unit :=
  _delete_all_rules_from_workers TrafficController.client.

End WithHost.
End TrafficControllerStopAll.


(* ================================================================= *)
(** ** axon.common.local_cache: the methods of the base class *)

(** [BaseCache] builds these on the abstract [add], [get] and [delete];
    they are given here for [MemCache], the only subclass.  The values
    stored are never [None], so [get(k) is not None] says that [k] is
    present. *)
Module BaseCache.
Section Cache.
Context {V : Type}.

Definition get_many (self : MemCache.t V) (keys : list string)
  : list (string * V) :=
  fold_left
    (fun d k =>
       match MemCache.get self (Py.Str k) with
       | Some val => PyDict.set String.eqb d k val
       | None => d
       end)
    keys [].

Definition has_key (self : MemCache.t V) (key : string) : bool :=
  match MemCache.get self (Py.Str key) with
  | Some _ => true
  | None => false
  end.

(** [data] is the argument dictionary, in its own order; the method
    returns the empty list. *)
Definition set_many (self : MemCache.t V) (data : list (string * V))
  : list string * MemCache.t V :=
  ([], fold_left (fun c item => MemCache.add c (fst item) (snd item))
         data self).

End Cache.
End BaseCache.


(* ================================================================= *)
(** ** Sample environments

    Concrete stand-ins for the host-dependent functions, used where a
    statement is run on an example. *)

Definition length_hash : Py.StrHash :=
  fun s => Z.of_nat (String.length s).

Definition sample_host : TrafficController.Host :=
  {| TrafficController.uuid4_hex := fun n => "w" ++ Py.str_int (Z.of_nat n);
     TrafficController.listener_address :=
       fun n => "/tmp/listener-" ++ Py.str_int (Z.of_nat n);
     TrafficController.cpu_count := 4 |}.

Definition sample_fresh (n : nat) : string * Z :=
  ("r" ++ Py.str_int (Z.of_nat n), 1000 + Z.of_nat n).

Definition tcp_server (id : string) (port : Z) (enabled : bool)
  : TrafficServer.t :=
  {| TrafficServer.id := id; TrafficServer.endpoint := "10.0.0.1";
     TrafficServer.port := port; TrafficServer.protocol := "TCP";
     TrafficServer.enabled := enabled |}.

Definition tcp_rule (id : string) (port : Z) : TrafficRule.t :=
  {| TrafficRule.id := id; TrafficRule.source := "10.0.0.1";
     TrafficRule.destination := "10.0.0.2"; TrafficRule.port := port;
     TrafficRule.protocol := "TCP"; TrafficRule.allowed := true;
     TrafficRule.enabled := true; TrafficRule.request_count := 1 |}.

(** [c] occurs in [s]. *)
Fixpoint mentions (c : ascii) (s : string) : bool :=
  match s with
  | EmptyString => false
  | String c' rest => Ascii.eqb c' c || mentions c rest
  end.

(** The elements at positions 1, 3, 5, ... *)
Fixpoint odds {A : Type} (l : list A) : list A :=
  match l with
  | _ :: y :: rest => y :: odds rest
  | _ => []
  end.

(** A server worker hosting two TCP servers, and a rule collection
    holding three rules. *)
Definition sample_server_worker : TrafficServerWorker.t :=
  snd (@TrafficServerWorker.add_servers length_hash
         (TrafficServerWorker.__init__ "w0")
         [tcp_server "s1" 80 true; tcp_server "s2" 81 true]).

Definition sample_collection : TrafficRuleCollection.t :=
  @TrafficRuleCollection.add_rules length_hash TrafficRuleCollection.__init__
    [tcp_rule "r1" 80; tcp_rule "r2" 81; tcp_rule "r3" 82].

(** A metric cache with three counters, and a schedule in which two
    probes record while the first counter is being drained. *)
Definition sample_cache : MetricsCache.t :=
  [("10.0.0.1:10.0.0.2:80:TCP:True:success", {| Counter._count := 3 |});
   ("10.0.0.1:10.0.0.2:80:TCP:True:failure", {| Counter._count := 0 |});
   ("10.0.0.1:10.0.0.2:81:TCP:True:success", {| Counter._count := 5 |})].

Definition sample_sched (key : string) : ExchangeReporter.interference :=
  if String.eqb key "10.0.0.1:10.0.0.2:80:TCP:True:success" then
    [("10.0.0.1:10.0.0.2:80:TCP:True:success", 2);
     ("10.0.0.1:10.0.0.2:82:TCP:True:success", 1)]
  else [].

(** The fields a server rule, respectively a client rule, is compared
    on. *)
Definition server_identity (s : TrafficServer.t) : string * Z * string :=
  (TrafficServer.endpoint s, TrafficServer.port s, TrafficServer.protocol s).

Definition rule_identity (r : TrafficRule.t)
  : string * string * Z * string * bool :=
  (TrafficRule.source r, TrafficRule.destination r, TrafficRule.port r,
   TrafficRule.protocol r, TrafficRule.allowed r).

(** [server] has a live stream listener on the worker. *)
Definition listening `{Py.StrHash} (self : TrafficServerWorker.t)
  (server : TrafficServer.t) : bool :=
  match PyDict.get TrafficServer.same_key
          (TrafficServerWorker._running_servers self) server with
  | Some (ServerFactory.AsyncServer _ _ _) => true
  | _ => false
  end.

(** How many of [l] compare equal to [r]. *)
Definition occurrences (r : TrafficRule.t) (l : list TrafficRule.t) : nat :=
  List.length
    (filter (fun x => TrafficRule.__eq__ x (TrafficRule.Instance r)) l).

(** Every rule of [l] is a key of the index [m]. *)
Definition indexed `{Py.StrHash} (m : list (TrafficRule.t * Z))
  (l : list TrafficRule.t) : Prop :=
  Forall (fun r => PyDict.mem TrafficRule.same_key m r = true) l.

(** The state every collection built through the class's methods is in:
    the index covers the deque, the deque holds no two equal rules, and
    both have the same size. *)
Definition well_formed `{Py.StrHash} (self : TrafficRuleCollection.t) : Prop :=
  indexed (TrafficRuleCollection._rules_map self)
    (TrafficRuleCollection._rules self)
  /\ NoDup (map rule_identity (TrafficRuleCollection._rules self))
  /\ List.length (TrafficRuleCollection._rules_map self)
     = List.length (TrafficRuleCollection._rules self).

(** The collection as the generator's next resumption finds it once the
    pending [finally] clause has run. *)
Definition settle `{Py.StrHash} (g : TrafficRuleCollection.generator)
  (self : TrafficRuleCollection.t) : TrafficRuleCollection.t :=
  match g with
  | TrafficRuleCollection.Suspended item =>
      TrafficRuleCollection.rr_finally item self
  | _ => self
  end.

(** Reading the metric cache and the reporter's messages: the count of
    the counter under [key]; the total a list of concurrent [inc] calls
    adds to [key]; the value a message carries for [key] (0 if none); and
    the items of the message [report] sent, if it sent one. *)
Definition amount (key : string) (cache : MetricsCache.t) : Z :=
  Counter.count (MetricsCache.lookup cache key).

Definition added (key : string) (calls : ExchangeReporter.interference) : Z :=
  fold_right
    (fun call acc => if String.eqb (fst call) key then snd call + acc else acc)
    0 calls.

Definition drained (key : string) (count_dict : list (string * Z)) : Z :=
  match PyDict.get String.eqb count_dict key with
  | Some v => v
  | None => 0
  end.

Definition sent (message : option (list (string * Z))) : list (string * Z) :=
  match message with
  | Some count_dict => count_dict
  | None => []
  end.

Definition quiet : string -> ExchangeReporter.interference := fun _ => [].

(** The shape of the registries the controller builds: every key of
    [workers_registry] is of the form ["<type>_<uid>"] and so contains an
    underscore, while the uid inside a context stored in [rules_registry]
    is the hexadecimal text of a uuid and contains none. *)
Definition registries_shaped (self : TrafficController.t) : Prop :=
  (forall k, In k (MemCache.get_all_keys
                     (TrafficController._workers_registry self)) ->
             mentions "_" k = true)
  /\ (forall k ctx, In (k, ctx) (TrafficController._rules_registry self) ->
                    mentions "_" (TrafficController.uid ctx) = false).

(** [rules_registry] has an entry under [k]. *)
Definition registered (k : string) (self : TrafficController.t) : Prop :=
  PyDict.get String.eqb (TrafficController._rules_registry self) k <> None.

(** The live workers of a type, as [_get_all_workers] lists them. *)
Definition live_workers (type_name : string) (self : TrafficController.t)
  : list string :=
  filter (fun worker => Py.startswith worker type_name)
    (MemCache.get_all_keys (TrafficController._workers_registry self)).

(** The controller after [start_clients] of three rules on a fresh
    controller of the sample host (two workers), and of two rules. *)
Definition sample_started : TrafficController.t :=
  snd (@TrafficController.start_clients length_hash sample_host
         [tcp_rule "r1" 80; tcp_rule "r2" 81; tcp_rule "r3" 82]
         TrafficController.__init__).

(** The calls a user of a rule collection can make, and the collection a
    sequence of them leaves, starting from an empty one (a call that
    raises leaves what it had done so far). *)
Inductive collection_call :=
| CallAddRule (rule : TrafficRule.t)
| CallAddRules (rules : list TrafficRule.t)
| CallClearRules
| CallDeleteRule (rule : TrafficRule.t)
| CallDeleteRules (rules : list TrafficRule.t).

Definition collection_step `{Py.StrHash} (self : TrafficRuleCollection.t)
  (call : collection_call) : TrafficRuleCollection.t :=
  match call with
  | CallAddRule rule => TrafficRuleCollection.add_rule self rule
  | CallAddRules rules => TrafficRuleCollection.add_rules self rules
  | CallClearRules => TrafficRuleCollection.clear_rules self
  | CallDeleteRule rule => snd (TrafficRuleCollection.delete_rule self rule)
  | CallDeleteRules rules =>
      snd (TrafficRuleCollection.delete_rules self rules)
  end.

Definition collection_after `{Py.StrHash} (calls : list collection_call)
  : TrafficRuleCollection.t :=
  fold_left collection_step calls TrafficRuleCollection.__init__.

(** How many times [c] occurs in [s]. *)
Fixpoint count_char (c : ascii) (s : string) : nat :=
  match s with
  | EmptyString => 0%nat
  | String c' rest =>
      if Ascii.eqb c' c then S (count_char c rest) else count_char c rest
  end.

(** The counters of a cache that are not at zero, with their counts, in
    the order of the cache; and the sum of all its counts. *)
Definition nonzero_counts (cache : MetricsCache.t) : list (string * Z) :=
  filter (fun item => negb (Z.eqb (snd item) 0))
    (map (fun entry => (fst entry, Counter.count (snd entry))) cache).

Definition total (cache : MetricsCache.t) : Z :=
  fold_right (fun entry acc => Counter.count (snd entry) + acc) 0 cache.

(** The cache after a sequence of probes has been recorded, each given
    by the client that made it and its raw result. *)
Definition record_all (probes : list (TCPClient.t * Py.value))
  (cache : MetricsCache.t) : MetricsCache.t :=
  fold_left (fun c probe => TCPClient.record (fst probe) (snd probe) c)
    probes cache.

(** Every key of every message of a batch has the six fields of a metric
    key. *)
Definition keys_well_formed (messages : list SQLRecorder.message) : bool :=
  forallb
    (fun message =>
       forallb (fun item => Nat.eqb (count_char ":" (fst item)) 5) message)
    messages.

(** What the loop keeps true of [traffic_records_map]: distinct keys,
    each the text of the record stored under it. *)
Definition keyed_by_text (m : list (string * TrafficRecord.t)) : Prop :=
  NoDup (PyDict.keys m)
  /\ forall k r, In (k, r) m -> k = TrafficRecord.__str__ r.


(** [server] is served by a stream listener (a server object). *)
Definition is_stream (server : TrafficServer.t) : bool :=
  String.eqb (TrafficServer.protocol server) "TCP"
  || String.eqb (TrafficServer.protocol server) "HTTP"
  || String.eqb (TrafficServer.protocol server) "HTTPS".

(** [server]'s protocol is one the factory knows. *)
Definition is_known (server : TrafficServer.t) : bool :=
  is_stream server || String.eqb (TrafficServer.protocol server) "UDP".

(** The state of a server worker that its own [add_servers] maintains:
    no two hosted servers are equal, every running instance belongs to a
    hosted server, every hosted server with a stream protocol has a live
    listener, and no two running instances belong to equal servers. *)
Definition worker_ok `{Py.StrHash} (self : TrafficServerWorker.t) : Prop :=
  NoDup (map server_identity (TrafficServerWorker._servers self))
  /\ (forall k inst,
        In (k, inst) (TrafficServerWorker._running_servers self) ->
        In k (TrafficServerWorker._servers self))
  /\ (forall s, In s (TrafficServerWorker._servers self) ->
        is_stream s = true -> listening self s = true)
  /\ NoDup (map server_identity
              (map fst (TrafficServerWorker._running_servers self))).

(** The worker after a sequence of [add_servers] calls on a new one. *)
Definition worker_after `{Py.StrHash} (uid : string)
  (batches : list (list TrafficServer.t)) : TrafficServerWorker.t :=
  fold_left (fun w batch => snd (TrafficServerWorker.add_servers w batch))
    batches (TrafficServerWorker.__init__ uid).

(** A server with a protocol of the caller's choice, for examples. *)
Definition proto_server (protocol : string) (port : Z) : TrafficServer.t :=
  {| TrafficServer.id := "p"; TrafficServer.endpoint := "10.0.0.1";
     TrafficServer.port := port; TrafficServer.protocol := protocol;
     TrafficServer.enabled := true |}.


(** The generator yields inside [with self._mutex], so the lock stays
    held while it is suspended and a call from another thread can get
    in only once it has been resumed: before the [finally] clause takes
    the lock again (then the call sees the collection as it was at the
    [yield], the case [take n (Suspended item) (call self)]), or after
    the [finally] clause has released it.  This is the second case: the
    first [n] yields when [between] runs after the [finally] clause of
    the generator suspended at [item]. *)
Definition take_after_finally `{Py.StrHash} (n : nat) (item : TrafficRule.t)
  (between : TrafficRuleCollection.t -> TrafficRuleCollection.t)
  (self : TrafficRuleCollection.t) : list TrafficRule.t :=
  match n with
  | O => []
  | S n' =>
      match TrafficRuleCollection.rr_loop (Some item)
              (between (TrafficRuleCollection.rr_finally item self)) with
      | (Py.Ok (Some y), g', self') =>
          y :: TrafficRuleCollection.take n' g' self'
      | _ => []
      end
  end.


(** The senders one pass over the rules [l] hands to the pool. *)
Definition senders (l : list TrafficRule.t) : list TCPClient.t :=
  flat_map (fun rule => match TrafficGenThread.sender rule with
                        | Some s => [s]
                        | None => []
                        end) l.

(** A rule with a protocol of the caller's choice, for examples. *)
Definition proto_rule (protocol : string) (port : Z) (allowed : bool)
  : TrafficRule.t :=
  {| TrafficRule.id := "p"; TrafficRule.source := "10.0.0.1";
     TrafficRule.destination := "10.0.0.2"; TrafficRule.port := port;
     TrafficRule.protocol := protocol; TrafficRule.allowed := allowed;
     TrafficRule.enabled := true; TrafficRule.request_count := 1 |}.

(** A client worker given one rule of each of four protocols. *)
Definition sample_gen_worker : TrafficGenWorker.t :=
  @TrafficGenWorker.add_clients length_hash (TrafficGenWorker.__init__ "g0")
    [proto_rule "TCP" 80 true; proto_rule "HTTPS" 443 true;
     proto_rule "UDP" 53 false; proto_rule "HTTP" 8080 true].


(** [rule] has been placed: [rules_registry] names as its owner the
    context of the [j]-th worker created, that context is the one
    [workers_registry] holds for the worker, and the process at the
    context's address runs a client worker that has the rule and has
    started its traffic. *)
Definition placed `{Py.StrHash} `{TrafficController.Host}
  (r : TrafficRule.t) (self : TrafficController.t) : Prop :=
  exists (j : nat) (ctx : TrafficController.context)
         (g : TrafficGenWorker.t),
    (j < TrafficController.draws self)%nat
    /\ TrafficController.uid ctx = TrafficController.uuid4_hex j
    /\ TrafficController.address ctx
       = Some (TrafficController.listener_address j)
    /\ MemCache.get (TrafficController._rules_registry self)
         (Py.Str ("client_" ++ TrafficRule.id r)) = Some ctx
    /\ MemCache.get (TrafficController._workers_registry self)
         (Py.Str ("client_" ++ TrafficController.uid ctx)) = Some ctx
    /\ PyDict.get String.eqb (TrafficController.processes self)
         (TrafficController.listener_address j)
       = Some (TrafficController.GenHandler g)
    /\ TrafficGenWorker.has_rule g r = true
    /\ TrafficGenWorker._run_event g = true.

(** The controller once one more client worker has been created for
    the slice [sl] and the slice registered. *)
Definition with_client_worker `{Py.StrHash} `{TrafficController.Host}
  (sl : list TrafficRule.t) (self : TrafficController.t)
  : TrafficController.t :=
  let u := TrafficController.uuid4_hex (TrafficController.draws self) in
  let a := TrafficController.listener_address (TrafficController.draws self) in
  let ctx :=
    {| TrafficController.uid := u; TrafficController.address := Some a;
       TrafficController.process := Some ("axon_client_worker_" ++ u) |} in
  {| TrafficController._rules_registry :=
       fold_left
         (fun reg r => MemCache.add reg ("client_" ++ TrafficRule.id r) ctx)
         sl (TrafficController._rules_registry self);
     TrafficController._workers_registry :=
       MemCache.add (TrafficController._workers_registry self)
         ("client_" ++ u) ctx;
     TrafficController.processes :=
       PyDict.set String.eqb
         (PyDict.set String.eqb (TrafficController.processes self) a
            (TrafficController.GenHandler (TrafficGenWorker.__init__ u)))
         a
         (TrafficController.GenHandler
            (TrafficGenWorker.add_clients (TrafficGenWorker.__init__ u) sl));
     TrafficController.draws := S (TrafficController.draws self) |}.

(** The controller after a context has been drawn and dropped. *)
Definition with_draw (self : TrafficController.t) : TrafficController.t :=
  {| TrafficController._rules_registry :=
       TrafficController._rules_registry self;
     TrafficController._workers_registry :=
       TrafficController._workers_registry self;
     TrafficController.processes := TrafficController.processes self;
     TrafficController.draws := S (TrafficController.draws self) |}.

(** [f] takes distinct values on the first two draws, the only ones a
    start on a new controller makes. *)
Definition distinct_draws (f : nat -> string) : Prop := f 0%nat <> f 1%nat.


(** Reading an exchange: the [handle] threads started for [task]; the
    messages handed to them so far, in order; the messages waiting in
    the task's buffer; whether the task is subscribed; and the exchange
    after the manager has served one readable event at each of the
    times [times] ([None] if the queue runs empty before). *)
Definition threads_of (task : Exchange.task)
  (threads : list (Exchange.task * list Exchange.message))
  : list (Exchange.task * list Exchange.message) :=
  filter (fun thread => Nat.eqb (fst thread) task) threads.

Definition handed (task : Exchange.task)
  (threads : list (Exchange.task * list Exchange.message))
  : list Exchange.message :=
  concat (map snd (threads_of task threads)).

Definition waiting (task : Exchange.task) (self : Exchange.t)
  : list Exchange.message :=
  match PyDict.get Nat.eqb (Exchange._subscribers self) task with
  | Some d => Exchange.queue d
  | None => []
  end.

Definition subscribed (task : Exchange.task) (self : Exchange.t) : bool :=
  PyDict.mem Nat.eqb (Exchange._subscribers self) task.

Fixpoint receive_all (times : list Z) (self : Exchange.t)
  : option Exchange.t :=
  match times with
  | [] => Some self
  | current_time :: rest =>
      match Exchange._recieve current_time self with
      | Some self' => receive_all rest self'
      | None => None
      end
  end.

(** An exchange with two subscribers, the first due at 100 with a
    message waiting, the second due at 130, and two messages queued. *)
Definition sample_exchange : Exchange.t :=
  {| Exchange._queue := [[("k1", 1)]; [("k2", 2)]];
     Exchange._subscribers :=
       [(1%nat, {| Exchange.queue := [[("k0", 5)]];
                   Exchange.buffer_interval := 30;
                   Exchange.next_fire_time := 100 |});
        (2%nat, {| Exchange.queue := [];
                   Exchange.buffer_interval := 60;
                   Exchange.next_fire_time := 130 |})];
     Exchange.started := [] |}.


(** The first [get_response] of an HTTP request returns status 200. *)
Definition answers_200 (r : Probe.http_request) : bool :=
  match Probe.first_response r with
  | Some status => Z.eqb status 200
  | None => false
  end.

(** An HTTP client and a TCP client sending three requests per ping,
    and networks on which every first attempt fails and every second
    one would succeed. *)
Definition sample_http_client : TCPClient.t :=
  {| TCPClient.cls := TCPClient.HTTP; TCPClient._source := "10.0.0.1";
     TCPClient._destination := "10.0.0.2"; TCPClient._port := 8080;
     TCPClient._connected := Py.Bool true; TCPClient._action := Py.Bool true;
     TCPClient._request_count := 3 |}.

Definition sample_tcp_client : TCPClient.t :=
  {| TCPClient.cls := TCPClient.TCP; TCPClient._source := "10.0.0.1";
     TCPClient._destination := "10.0.0.2"; TCPClient._port := 80;
     TCPClient._connected := Py.Bool true; TCPClient._action := Py.Bool true;
     TCPClient._request_count := 3 |}.

Definition flaky_http : nat -> Probe.http_request :=
  fun _ => {| Probe.first_response := None;
              Probe.second_response := Some 200 |}.

Definition flaky_tcp : nat -> Probe.request :=
  fun _ => {| Probe.creates := true; Probe.connects := true;
              Probe.first := false; Probe.second := true |}.


(** A controller whose client pool is alive: the dictionaries have
    distinct keys, every client worker of [workers_registry] has a
    context with a process and an address at which a client worker is
    served, and no two of them share an address. *)
Definition pool_alive (self : TrafficController.t) : Prop :=
  NoDup (PyDict.keys (TrafficController._workers_registry self))
  /\ NoDup (PyDict.keys (TrafficController._rules_registry self))
  /\ NoDup (PyDict.keys (TrafficController.processes self))
  /\ (forall k, In k (live_workers "client" self) ->
        exists ctx a g,
          PyDict.get String.eqb (TrafficController._workers_registry self) k
          = Some ctx
          /\ TrafficController.address ctx = Some a
          /\ TrafficController.process ctx <> None
          /\ PyDict.get String.eqb (TrafficController.processes self) a
             = Some (TrafficController.GenHandler g))
  /\ (forall k1 k2 c1 c2,
        In k1 (live_workers "client" self) ->
        In k2 (live_workers "client" self) ->
        PyDict.get String.eqb (TrafficController._workers_registry self) k1
        = Some c1 ->
        PyDict.get String.eqb (TrafficController._workers_registry self) k2
        = Some c2 ->
        TrafficController.address c1 = TrafficController.address c2 ->
        k1 = k2).


(** The controller after [start_clients] of a single rule on a new
    controller of the sample host: one client worker of two. *)
Definition sample_partial : TrafficController.t :=
  snd (@TrafficController.start_clients length_hash sample_host
         [tcp_rule "r1" 80] TrafficController.__init__).


(** The calls that change a cache, and the cache a sequence of them
    leaves, starting from an empty one. *)
Inductive cache_call (V : Type) :=
| CallAdd (key : string) (value : V)
| CallDelete (key : string)
| CallDeleteMany (keys : list string)
| CallSetMany (data : list (string * V)).
Arguments CallAdd {V} key value.
Arguments CallDelete {V} key.
Arguments CallDeleteMany {V} keys.
Arguments CallSetMany {V} data.

Definition cache_step {V : Type} (self : MemCache.t V) (call : cache_call V)
  : MemCache.t V :=
  match call with
  | CallAdd key value => MemCache.add self key value
  | CallDelete key => MemCache.delete self key
  | CallDeleteMany keys => MemCache.delete_many self keys
  | CallSetMany data => snd (BaseCache.set_many self data)
  end.

Definition cache_after {V : Type} (calls : list (cache_call V))
  : MemCache.t V :=
  fold_left cache_step calls MemCache.__init__.


(* ================================================================= *)
(** * Properties *)

(** ** Strings and dictionaries *)

Lemma append_assoc (a b c : string) : (a ++ b) ++ c = a ++ (b ++ c).
Proof.
  induction a as [|ch a IH]; simpl; [reflexivity | now rewrite IH].
Qed.

Lemma append_inv_head (a x y : string) : a ++ x = a ++ y -> x = y.
Proof.
  induction a as [|ch a IH]; simpl; intros E; [exact E|].
  injection E as E. now apply IH.
Qed.

Lemma split_free (sep : ascii) (s : string) :
  mentions sep s = false -> Py.split sep s = [s].
Proof.
  induction s as [|c s IH]; simpl; [reflexivity|].
  intros E. apply orb_false_iff in E as [E1 E2].
  rewrite E1, (IH E2). reflexivity.
Qed.

Lemma split_piece (sep : ascii) (s rest : string) :
  mentions sep s = false ->
  Py.split sep (s ++ String sep rest) = s :: Py.split sep rest.
Proof.
  induction s as [|c s IH]; simpl.
  - intros _. now rewrite Ascii.eqb_refl.
  - intros E. apply orb_false_iff in E as [E1 E2].
    rewrite E1, (IH E2). reflexivity.
Qed.

Lemma mentions_uint (d : Decimal.uint) :
  mentions ":" (NilEmpty.string_of_uint d) = false.
Proof.
  induction d; simpl; auto.
Qed.

Lemma mentions_str_int (z : Z) : mentions ":" (Py.str_int z) = false.
Proof.
  unfold Py.str_int, NilZero.string_of_int, NilZero.string_of_uint.
  destruct (Z.to_int z) as [d|d]; destruct d; simpl;
    auto using mentions_uint.
Qed.

Lemma mentions_str_bool (b : bool) : mentions ":" (Py.str_bool b) = false.
Proof. destruct b; reflexivity. Qed.

Section DictFacts.
Context {K V : Type} (same : K -> K -> bool).

Lemma get_set_same (d : list (K * V)) (k : K) (v : V) :
  same k k = true -> PyDict.get same (PyDict.set same d k v) k = Some v.
Proof.
  intros R. induction d as [|[k' v'] d IH]; simpl.
  - now rewrite R.
  - destruct (same k' k) eqn:E; simpl; rewrite E; auto.
Qed.

Lemma get_set_other (d : list (K * V)) (k k0 : K) (v : V) :
  (forall k', same k' k = true -> same k' k0 = false) ->
  same k k0 = false ->
  PyDict.get same (PyDict.set same d k v) k0 = PyDict.get same d k0.
Proof.
  intros O N. induction d as [|[k' v'] d IH]; simpl.
  - now rewrite N.
  - destruct (same k' k) eqn:E; simpl.
    + now rewrite (O _ E).
    + now rewrite IH.
Qed.

Lemma get_del_other (d d' : list (K * V)) (k k0 : K) :
  (forall k', same k' k = true -> same k' k0 = false) ->
  PyDict.del same d k = Some d' ->
  PyDict.get same d' k0 = PyDict.get same d k0.
Proof.
  intros O. revert d'. induction d as [|[k' v'] d IH]; simpl; intros d' E.
  - discriminate.
  - destruct (same k' k) eqn:S.
    + injection E as <-. now rewrite (O _ S).
    + destruct (PyDict.del same d k) as [d''|] eqn:D; [|discriminate].
      injection E as <-. simpl. now rewrite (IH _ eq_refl).
Qed.

Lemma del_of_get (d : list (K * V)) (k : K) (v : V) :
  PyDict.get same d k = Some v -> exists d', PyDict.del same d k = Some d'.
Proof.
  induction d as [|[k' v'] d IH]; simpl; [discriminate|].
  destruct (same k' k); [eauto|].
  intros G. destruct (IH G) as [d' ->]. eauto.
Qed.

End DictFacts.

(** ** Rule identity *)

Lemma TrafficServer_eq_iff (a b : TrafficServer.t) :
  TrafficServer.__eq__ a (TrafficServer.Instance b) = true <->
  (TrafficServer.endpoint a, TrafficServer.port a, TrafficServer.protocol a)
  = (TrafficServer.endpoint b, TrafficServer.port b, TrafficServer.protocol b).
Proof.
  simpl. rewrite !andb_true_iff, !String.eqb_eq, Z.eqb_eq. split.
  - intros [[-> ->] ->]. reflexivity.
  - intros E. injection E as -> -> ->. auto.
Qed.

Lemma TrafficRule_eq_iff (a b : TrafficRule.t) :
  TrafficRule.__eq__ a (TrafficRule.Instance b) = true <->
  (TrafficRule.source a, TrafficRule.destination a, TrafficRule.port a,
   TrafficRule.protocol a, TrafficRule.allowed a)
  = (TrafficRule.source b, TrafficRule.destination b, TrafficRule.port b,
     TrafficRule.protocol b, TrafficRule.allowed b).
Proof.
  simpl. rewrite !andb_true_iff, !String.eqb_eq, Z.eqb_eq, Bool.eqb_true_iff.
  split.
  - intros [[[[-> ->] ->] ->] ->]. reflexivity.
  - intros E. injection E as -> -> -> -> ->. auto.
Qed.

Lemma TrafficRule_eq_str (a b : TrafficRule.t) :
  TrafficRule.__eq__ a (TrafficRule.Instance b) = true ->
  TrafficRule.__str__ a = TrafficRule.__str__ b.
Proof.
  intros E. apply TrafficRule_eq_iff in E. injection E as E1 E2 E3 E4 E5.
  unfold TrafficRule.__str__. now rewrite E1, E2, E3, E4, E5.
Qed.

Lemma TrafficRule_eq_hash `{Py.StrHash} (a b : TrafficRule.t) :
  TrafficRule.__eq__ a (TrafficRule.Instance b) = true ->
  TrafficRule.__hash__ a = TrafficRule.__hash__ b.
Proof.
  intros E. unfold TrafficRule.__hash__. now rewrite (TrafficRule_eq_str a b E).
Qed.

Lemma TrafficRule_eq_refl (a : TrafficRule.t) :
  TrafficRule.__eq__ a (TrafficRule.Instance a) = true.
Proof. now apply TrafficRule_eq_iff. Qed.

Lemma TrafficRule_same_key_eq `{Py.StrHash} (a b : TrafficRule.t) :
  TrafficRule.same_key a b = TrafficRule.__eq__ a (TrafficRule.Instance b).
Proof.
  unfold TrafficRule.same_key.
  destruct (TrafficRule.__eq__ a (TrafficRule.Instance b)) eqn:E.
  - now rewrite (TrafficRule_eq_hash a b E), Z.eqb_refl.
  - apply andb_false_r.
Qed.

(** C7.  Two server rules that compare equal but differ in [enabled] are
    printed differently by [__str__], and [__hash__] hashes that text:
    their hashes agree only if the builtin string hash collides on two
    distinct strings.  So for [TrafficServer] equality does not carry
    over to hashing, and [enabled] takes part in the hash. *)
Theorem TrafficServer_hash_reads_enabled `{Py.StrHash}
  (a b : TrafficServer.t) :
  TrafficServer.__eq__ a (TrafficServer.Instance b) = true ->
  TrafficServer.enabled a <> TrafficServer.enabled b ->
  TrafficServer.__str__ a <> TrafficServer.__str__ b
  /\ (TrafficServer.__hash__ a = TrafficServer.__hash__ b ->
      exists s1 s2 : string, s1 <> s2 /\ Py.hash s1 = Py.hash s2).
Proof.
  intros E D.
  assert (N : TrafficServer.__str__ a <> TrafficServer.__str__ b).
  { apply TrafficServer_eq_iff in E. injection E as E1 E2 E3.
    unfold TrafficServer.__str__. rewrite E1, E2, E3. intros S.
    repeat (rewrite ?append_assoc in S; apply append_inv_head in S).
    destruct (TrafficServer.enabled a), (TrafficServer.enabled b);
      simpl in S; try discriminate; now apply D. }
  split; [exact N|].
  intros Hh. exists (TrafficServer.__str__ a), (TrafficServer.__str__ b).
  split; [exact N | exact Hh].
Qed.

Lemma TrafficServer_hash_reads_enabled_example :
  TrafficServer.__eq__ (tcp_server "s1" 80 true)
    (TrafficServer.Instance (tcp_server "s2" 80 false)) = true
  /\ TrafficServer.enabled (tcp_server "s1" 80 true)
     <> TrafficServer.enabled (tcp_server "s2" 80 false)
  /\ (TrafficServer.__str__ (tcp_server "s1" 80 true)
      <> TrafficServer.__str__ (tcp_server "s2" 80 false)
      /\ (@TrafficServer.__hash__ length_hash (tcp_server "s1" 80 true)
          = @TrafficServer.__hash__ length_hash (tcp_server "s2" 80 false) ->
          exists s1 s2 : string,
            s1 <> s2 /\ @Py.hash length_hash s1 = @Py.hash length_hash s2)).
Proof.
  split; [reflexivity|].
  split; [discriminate|].
  apply (@TrafficServer_hash_reads_enabled length_hash
           (tcp_server "s1" 80 true) (tcp_server "s2" 80 false));
    [reflexivity | discriminate].
Defined.

(** ** The metric cache *)

Lemma string_same_eq (k' k k0 : string) :
  String.eqb k' k = true -> String.eqb k k0 = false ->
  String.eqb k' k0 = false.
Proof. intros E N. apply String.eqb_eq in E. now subst. Qed.

Lemma lookup_counter (c : MetricsCache.t) (k k0 : string) :
  MetricsCache.lookup (MetricsCache.counter c k) k0 = MetricsCache.lookup c k0.
Proof.
  unfold MetricsCache.counter, PyDict.mem, MetricsCache.lookup.
  destruct (PyDict.get String.eqb c k) as [x|] eqn:G; [reflexivity|].
  destruct (String.eqb k k0) eqn:E.
  - apply String.eqb_eq in E. subst k0.
    now rewrite get_set_same, G by apply String.eqb_refl.
  - rewrite get_set_other; eauto using string_same_eq.
Qed.

Lemma mem_counter (c : MetricsCache.t) (k : string) :
  PyDict.get String.eqb (MetricsCache.counter c k) k <> None.
Proof.
  unfold MetricsCache.counter, PyDict.mem.
  destruct (PyDict.get String.eqb c k) as [x|] eqn:G.
  - now rewrite G.
  - now rewrite get_set_same by apply String.eqb_refl.
Qed.

Lemma lookup_update_same (c : MetricsCache.t) (k : string)
  (f : Counter.t -> Counter.t) :
  PyDict.get String.eqb c k <> None ->
  MetricsCache.lookup (MetricsCache.update k f c) k
  = f (MetricsCache.lookup c k).
Proof.
  unfold MetricsCache.update, MetricsCache.lookup. intros G.
  destruct (PyDict.get String.eqb c k) as [x|] eqn:E; [|easy].
  now rewrite get_set_same by apply String.eqb_refl.
Qed.

Lemma lookup_update_other (c : MetricsCache.t) (k k0 : string)
  (f : Counter.t -> Counter.t) :
  String.eqb k k0 = false ->
  MetricsCache.lookup (MetricsCache.update k f c) k0
  = MetricsCache.lookup c k0.
Proof.
  unfold MetricsCache.update, MetricsCache.lookup. intros N.
  destruct (PyDict.get String.eqb c k) as [x|] eqn:E; [|reflexivity].
  rewrite get_set_other; eauto using string_same_eq.
Qed.

(** ** Outcome classification *)

(** C1.  The flag [record] stores is computed from the raw result [S] by
    [is_traffic_successful]: with a false [connected] it is the negation
    of [S], otherwise it says whether [S] agrees with the rule's
    allowed/action flag; the counter that [record] increments is the one
    keyed by the metric string carrying that flag. *)
Theorem record_classifies_outcome (self : TCPClient.t) (S : Py.value)
  (cache : MetricsCache.t) :
  TCPClient.is_traffic_successful self S
  = (if Py.truth (TCPClient._connected self)
     then Bool.eqb (Py.truth S) (Py.truth (TCPClient._action self))
     else negb (Py.truth S))
  /\ TCPClient.record_metric self S
     = TrafficRecord.to_metric
         (Py.Str (TCPClient._source self))
         (Py.Str (TCPClient._destination self))
         (Py.Int (TCPClient._port self))
         (Py.Str (TCPClient.PROTOCOL self))
         (TCPClient._connected self)
         (Py.Bool (TCPClient.is_traffic_successful self S))
  /\ Counter.count
       (MetricsCache.lookup (TCPClient.record self S cache)
          (TCPClient.record_metric self S))
     = Counter.count
         (MetricsCache.lookup cache (TCPClient.record_metric self S)) + 1
  /\ (forall key, key <> TCPClient.record_metric self S ->
        MetricsCache.lookup (TCPClient.record self S cache) key
        = MetricsCache.lookup cache key).
Proof.
  repeat split.
  - unfold TCPClient.is_traffic_successful.
    destruct (Py.truth (TCPClient._connected self)),
      (Py.truth S), (Py.truth (TCPClient._action self)); reflexivity.
  - unfold TCPClient.record.
    rewrite lookup_update_same by apply mem_counter.
    now rewrite lookup_counter.
  - intros key N. unfold TCPClient.record.
    rewrite lookup_update_other, lookup_counter; [reflexivity|].
    apply String.eqb_neq. congruence.
Qed.

(** The table of the four boolean cases. *)
Lemma classification_table (self : TCPClient.t) (S : bool) :
  (TCPClient._connected self = Py.Bool true ->
   TCPClient._action self = Py.Bool true ->
   TCPClient.is_traffic_successful self (Py.Bool S) = S)
  /\ (TCPClient._connected self = Py.Bool true ->
      TCPClient._action self = Py.Bool false ->
      TCPClient.is_traffic_successful self (Py.Bool S) = negb S)
  /\ (TCPClient._connected self = Py.Bool false ->
      TCPClient.is_traffic_successful self (Py.Bool S) = negb S).
Proof.
  unfold TCPClient.is_traffic_successful.
  repeat split; intros; repeat match goal with E : _ = _ |- _ => rewrite E end;
    destruct S; reflexivity.
Qed.

(** ** The metric key *)

(** The pieces of a metric key whose fields contain no separator. *)
Lemma split_metric (s d proto : string) (p : Z) (c : bool) (tail : string) :
  mentions ":" s = false ->
  mentions ":" d = false ->
  mentions ":" proto = false ->
  mentions ":" tail = false ->
  Py.split ":"
    ((s ++ ":" ++ d ++ ":" ++ Py.str_int p ++ ":" ++ proto ++ ":"
        ++ Py.str_bool c) ++ ":" ++ tail)
  = [s; d; Py.str_int p; proto; Py.str_bool c; tail].
Proof.
  intros Hs Hd Hp Ht. rewrite !append_assoc. simpl.
  rewrite (split_piece _ s) by assumption.
  rewrite (split_piece _ d) by assumption.
  rewrite (split_piece _ (Py.str_int p)) by apply mentions_str_int.
  rewrite (split_piece _ proto) by assumption.
  rewrite (split_piece _ (Py.str_bool c)) by apply mentions_str_bool.
  now rewrite split_free.
Qed.

(** C8, as stated, fails: an address containing [:] (any IPv6 literal)
    makes the key split into more than six pieces and [from_metric]
    raises; and a numeric port comes back as its decimal text, which is
    not equal to the number. *)
Lemma from_metric_to_metric_counterexample :
  TrafficRecord.from_metric "id0" 0
    (TrafficRecord.to_metric (Py.Str "::1") (Py.Str "10.0.0.2") (Py.Int 80)
       (Py.Str "TCP") (Py.Bool true) (Py.Bool true))
  = Py.Raise Py.ValueError
  /\ (exists r,
        TrafficRecord.from_metric "id0" 0
          (TrafficRecord.to_metric (Py.Str "10.0.0.1") (Py.Str "10.0.0.2")
             (Py.Int 80) (Py.Str "TCP") (Py.Bool true) (Py.Bool true))
        = Py.Ok r
        /\ Py.eq (Py.Str (TrafficRecord.port r)) (Py.Int 80) = false).
Proof.
  split; [reflexivity|].
  eexists. split; reflexivity.
Qed.

(** C8, amended.  When the source, the destination and the protocol
    contain no [:], the port is an integer and [connected] a boolean,
    [from_metric (to_metric ...)] returns a record (with the fresh id)
    whose source, destination, protocol and connected fields are the
    inputs and whose port is the decimal text of the input port. *)
Theorem from_metric_to_metric (uid : string) (now : Z)
  (s d proto : string) (p : Z) (c : bool) (success : Py.value) :
  mentions ":" s = false ->
  mentions ":" d = false ->
  mentions ":" proto = false ->
  TrafficRecord.from_metric uid now
    (TrafficRecord.to_metric (Py.Str s) (Py.Str d) (Py.Int p) (Py.Str proto)
       (Py.Bool c) success)
  = Py.Ok {| TrafficRecord.id := uid;
             TrafficRecord.source := s;
             TrafficRecord.destination := d;
             TrafficRecord.port := Py.str_int p;
             TrafficRecord.protocol := proto;
             TrafficRecord.success_count := 0;
             TrafficRecord.failure_count := 0;
             TrafficRecord.connected := c;
             TrafficRecord.created := now |}.
Proof.
  intros Hs Hd Hp.
  unfold TrafficRecord.from_metric, TrafficRecord.to_metric. simpl Py.str.
  destruct (Py.truth success);
    rewrite (split_metric s d proto p c) by (assumption || reflexivity);
    destruct c; reflexivity.
Qed.

Lemma from_metric_to_metric_example :
  mentions ":" "10.0.0.1" = false
  /\ mentions ":" "10.0.0.2" = false
  /\ mentions ":" "TCP" = false
  /\ TrafficRecord.from_metric "id0" 7
       (TrafficRecord.to_metric (Py.Str "10.0.0.1") (Py.Str "10.0.0.2")
          (Py.Int 8080) (Py.Str "TCP") (Py.Bool false) (Py.Bool true))
     = Py.Ok {| TrafficRecord.id := "id0";
                TrafficRecord.source := "10.0.0.1";
                TrafficRecord.destination := "10.0.0.2";
                TrafficRecord.port := Py.str_int 8080;
                TrafficRecord.protocol := "TCP";
                TrafficRecord.success_count := 0;
                TrafficRecord.failure_count := 0;
                TrafficRecord.connected := false;
                TrafficRecord.created := 7 |}.
Proof.
  split; [reflexivity|]. split; [reflexivity|]. split; [reflexivity|].
  apply (from_metric_to_metric "id0" 7 "10.0.0.1" "10.0.0.2" "TCP" 8080
           false (Py.Bool true)); reflexivity.
Defined.

(** ** The rule collection: deletion *)

Lemma deque_remove_foreign (d : list TrafficRule.t) (v : Py.value) :
  TrafficRuleCollection.deque_remove d (TrafficRule.Foreign v) = None.
Proof.
  induction d as [|e d IH]; simpl; [reflexivity | now rewrite IH].
Qed.

(** C4.  [delete_rule] never removes anything: for a rule that is
    present the value looked up in [_rules_map] (an integer) is what gets
    passed to [remove], which raises [ValueError]; for an absent rule the
    lookup raises [KeyError].  The collection is the same afterwards in
    both cases. *)
Theorem delete_rule_always_raises `{Py.StrHash}
  (self : TrafficRuleCollection.t) (rule : TrafficRule.t) :
  TrafficRuleCollection.delete_rule self rule
  = (Py.Raise (if TrafficRuleCollection.__contains__ self rule
               then Py.ValueError else Py.KeyError),
     self).
Proof.
  unfold TrafficRuleCollection.delete_rule, TrafficRuleCollection.__delete_rule,
    TrafficRuleCollection.__contains__, PyDict.mem.
  destruct (PyDict.get TrafficRule.same_key
              (TrafficRuleCollection._rules_map self) rule); [|reflexivity].
  now rewrite deque_remove_foreign.
Qed.

(** An instance: a collection holding one rule still holds it, with the
    same count, after the attempt to delete it. *)
Lemma delete_rule_present_example :
  @TrafficRuleCollection.__contains__ length_hash sample_collection
    (tcp_rule "r1" 80) = true
  /\ @TrafficRuleCollection.delete_rule length_hash sample_collection
       (tcp_rule "r1" 80)
     = (Py.Raise Py.ValueError, sample_collection)
  /\ @TrafficRuleCollection.delete_rule length_hash sample_collection
       (tcp_rule "r9" 99)
     = (Py.Raise Py.KeyError, sample_collection)
  /\ TrafficRuleCollection.get_rule_count sample_collection = 3.
Proof. repeat split; vm_compute; reflexivity. Qed.

(** ** The record-store subscriber *)

Lemma contains_append (sub a s : string) :
  Py.contains sub s = true -> Py.contains sub (a ++ s) = true.
Proof.
  intros C. induction a as [|ch a IH]; [exact C|].
  cbn [append Py.contains]. rewrite IH. apply orb_true_r.
Qed.

Lemma last_cons {A : Type} (x d : A) (l : list A) :
  last (x :: l) d = last l x.
Proof.
  revert x d. induction l as [|y l IH]; intros x d; [reflexivity|].
  change (last (x :: y :: l) d) with (last (y :: l) d).
  now rewrite (IH y d), (IH y x).
Qed.

(** C9.  When the same success key arrives in several messages of one
    batch, [handle] hands the record store a single row for it, and the
    row carries the value of the last of those messages: each value is
    assigned over the previous one, none is added.  (The total over the
    batch would be the sum of the values.) *)
Theorem handle_keeps_last_value (fresh : nat -> string * Z)
  (s d proto : string) (p : Z) (c : bool) (v : Z) (vs : list Z) :
  mentions ":" s = false ->
  mentions ":" d = false ->
  mentions ":" proto = false ->
  SQLRecorder.handle fresh
    (map (fun value =>
            [(TrafficRecord.to_metric (Py.Str s) (Py.Str d) (Py.Int p)
                (Py.Str proto) (Py.Bool c) (Py.Bool true), value)])
       (v :: vs))
  = Py.Ok [{| TrafficRecord.id := fst (fresh 0%nat);
              TrafficRecord.source := s;
              TrafficRecord.destination := d;
              TrafficRecord.port := Py.str_int p;
              TrafficRecord.protocol := proto;
              TrafficRecord.success_count := last vs v;
              TrafficRecord.failure_count := 0;
              TrafficRecord.connected := c;
              TrafficRecord.created := snd (fresh 0%nat) |}].
Proof.
  intros Hs Hd Hp.
  set (key := TrafficRecord.to_metric (Py.Str s) (Py.Str d) (Py.Int p)
                (Py.Str proto) (Py.Bool c) (Py.Bool true)).
  set (row := fun (n : nat) (count : Z) =>
                {| TrafficRecord.id := fst (fresh n);
                   TrafficRecord.source := s;
                   TrafficRecord.destination := d;
                   TrafficRecord.port := Py.str_int p;
                   TrafficRecord.protocol := proto;
                   TrafficRecord.success_count := count;
                   TrafficRecord.failure_count := 0;
                   TrafficRecord.connected := c;
                   TrafficRecord.created := snd (fresh n) |}).
  set (K := TrafficRecord.__str__ (row 0%nat 0)).
  assert (Parse : forall n,
             TrafficRecord.from_metric (fst (fresh n)) (snd (fresh n)) key
             = Py.Ok (row n 0)).
  { intros n. unfold key, TrafficRecord.from_metric, TrafficRecord.to_metric.
    cbn [Py.str Py.truth].
    rewrite (split_metric s d proto p c) by (assumption || reflexivity).
    unfold row. now destruct c. }
  assert (Success : TrafficRecord.is_success key = true).
  { unfold key, TrafficRecord.is_success, TrafficRecord.to_metric.
    cbn [Py.truth]. now apply contains_append. }
  assert (First : SQLRecorder.handle_item fresh [] 0%nat (key, v)
                  = Py.Ok [(K, row 0%nat v)]).
  { unfold SQLRecorder.handle_item. now rewrite Parse, Success. }
  assert (Step : forall n count value,
             SQLRecorder.handle_item fresh [(K, row 0%nat count)] n
               (key, value)
             = Py.Ok [(K, row 0%nat value)]).
  { intros n count value. unfold SQLRecorder.handle_item.
    rewrite Parse, Success.
    change (TrafficRecord.__str__ (row n 0)) with K.
    cbn [PyDict.get]. rewrite String.eqb_refl.
    change (TrafficRecord.__str__
              (TrafficRecord.with_success_count (row 0%nat count) value))
      with K.
    cbn [PyDict.set]. now rewrite String.eqb_refl. }
  assert (Rest : forall l n count,
             SQLRecorder.handle_messages fresh [(K, row 0%nat count)] n
               (map (fun value => [(key, value)]) l)
             = Py.Ok [(K, row 0%nat (last l count))]).
  { induction l as [|value l IH]; intros n count; [reflexivity|].
    cbn [map SQLRecorder.handle_messages SQLRecorder.handle_items].
    rewrite Step, IH. now rewrite last_cons. }
  unfold SQLRecorder.handle.
  cbn [map SQLRecorder.handle_messages SQLRecorder.handle_items].
  rewrite First, Rest. reflexivity.
Qed.

Lemma handle_keeps_last_value_example :
  mentions ":" "10.0.0.1" = false
  /\ mentions ":" "10.0.0.2" = false
  /\ mentions ":" "TCP" = false
  /\ SQLRecorder.handle sample_fresh
       (map (fun value =>
               [(TrafficRecord.to_metric (Py.Str "10.0.0.1")
                   (Py.Str "10.0.0.2") (Py.Int 80) (Py.Str "TCP")
                   (Py.Bool true) (Py.Bool true), value)])
          [3; 4])
     = Py.Ok [{| TrafficRecord.id := fst (sample_fresh 0%nat);
                 TrafficRecord.source := "10.0.0.1";
                 TrafficRecord.destination := "10.0.0.2";
                 TrafficRecord.port := Py.str_int 80;
                 TrafficRecord.protocol := "TCP";
                 TrafficRecord.success_count := last [4] 3;
                 TrafficRecord.failure_count := 0;
                 TrafficRecord.connected := true;
                 TrafficRecord.created := snd (sample_fresh 0%nat) |}].
Proof.
  split; [reflexivity|]. split; [reflexivity|]. split; [reflexivity|].
  apply (handle_keeps_last_value sample_fresh "10.0.0.1" "10.0.0.2" "TCP"
           80 true 3 [4]); reflexivity.
Defined.

(** The same batch written out as the dictionaries received: the row
    says 4 where the batch total is 7. *)
Lemma handle_two_messages_run :
  exists r,
    SQLRecorder.handle sample_fresh
      [[("10.0.0.1:10.0.0.2:80:TCP:True:success", 3)];
       [("10.0.0.1:10.0.0.2:80:TCP:True:success", 4)]]
    = Py.Ok [r]
    /\ TrafficRecord.success_count r = 4
    /\ TrafficRecord.success_count r <> 3 + 4.
Proof.
  eexists. split; [vm_compute; reflexivity|].
  split; [reflexivity | discriminate].
Qed.

(** ** The server worker *)

Lemma TrafficServer_eq_identity (a b : TrafficServer.t) :
  TrafficServer.__eq__ a (TrafficServer.Instance b) = true <->
  server_identity a = server_identity b.
Proof. apply TrafficServer_eq_iff. Qed.

Lemma TrafficServer_eq_false (a b : TrafficServer.t) :
  server_identity a <> server_identity b ->
  TrafficServer.__eq__ a (TrafficServer.Instance b) = false.
Proof.
  intros N. destruct (TrafficServer.__eq__ a (TrafficServer.Instance b)) eqn:E;
    [|reflexivity].
  now apply TrafficServer_eq_identity in E.
Qed.

Lemma TrafficServer_same_key_split `{Py.StrHash} (k x z : TrafficServer.t) :
  server_identity x <> server_identity z ->
  TrafficServer.same_key k x = true -> TrafficServer.same_key k z = false.
Proof.
  unfold TrafficServer.same_key. intros N Ex.
  apply andb_true_iff in Ex as [_ Ex].
  apply TrafficServer_eq_identity in Ex.
  rewrite TrafficServer_eq_false; [apply andb_false_r | congruence].
Qed.

Lemma list_remove_middle (kept rest : list TrafficServer.t)
  (x : TrafficServer.t) :
  ~ In (server_identity x) (map server_identity kept) ->
  TrafficServerWorker.list_remove (kept ++ x :: rest)%list x
  = Some (kept ++ rest)%list.
Proof.
  induction kept as [|e kept IH]; simpl; intros N.
  - assert (E : TrafficServer.__eq__ x (TrafficServer.Instance x) = true)
      by now apply TrafficServer_eq_identity.
    simpl in E. now rewrite E.
  - pose proof (TrafficServer_eq_false e x) as F. simpl in F.
    rewrite F by (intros E; apply N; left; exact E).
    rewrite IH; [reflexivity|]. intros I. apply N. now right.
Qed.

Lemma odds_length {A : Type} (l : list A) :
  List.length (odds l) = Nat.div2 (List.length l).
Proof.
  assert (G : forall n (l : list A), (List.length l <= n)%nat ->
                List.length (odds l) = Nat.div2 (List.length l)).
  { induction n as [|n IH]; intros [|x [|y r]] L; simpl in *;
      try reflexivity; try lia.
    f_equal. apply IH. lia. }
  now apply (G (List.length l)).
Qed.

Section ServerWorkerFacts.
Context `{Py.StrHash}.

(** One pass of the loop body on the server at position [length kept]. *)
Lemma stop_and_remove_middle (self : TrafficServerWorker.t)
  (kept rest : list TrafficServer.t) (x : TrafficServer.t) :
  TrafficServerWorker._servers self = (kept ++ x :: rest)%list ->
  NoDup (map server_identity (kept ++ x :: rest)%list) ->
  Forall (fun s => listening self s = true) (x :: rest) ->
  exists self',
    TrafficServerWorker.stop_and_remove self x = (Py.Ok tt, self')
    /\ TrafficServerWorker._servers self' = (kept ++ rest)%list
    /\ Forall (fun s => listening self' s = true) rest.
Proof.
  intros Es Nd L.
  rewrite map_app in Nd. simpl in Nd.
  pose proof (NoDup_remove_2 _ _ _ Nd) as Nx.
  inversion L as [|? ? Lx Lr]; subst.
  unfold listening in Lx.
  destruct (PyDict.get TrafficServer.same_key
              (TrafficServerWorker._running_servers self) x)
    as [[host port tls|]|] eqn:G; try discriminate.
  destruct (del_of_get _ _ _ _ G) as [d D].
  unfold TrafficServerWorker.stop_and_remove, TrafficServerWorker._stop_server.
  rewrite G, D. simpl. rewrite Es.
  rewrite list_remove_middle
    by (intros I; apply Nx, in_or_app; now left).
  eexists. split; [reflexivity|]. split; [reflexivity|].
  rewrite Forall_forall in *. intros z Iz.
  unfold listening. simpl.
  rewrite (get_del_other TrafficServer.same_key
             (TrafficServerWorker._running_servers self) d x z);
    [now apply Lr| |exact D].
  intros k. apply TrafficServer_same_key_split.
  intros E. apply Nx, in_or_app. right. rewrite E. now apply in_map.
Qed.

Lemma delete_all_loop_done (fuel i : nat) (self : TrafficServerWorker.t) :
  (List.length (TrafficServerWorker._servers self) <= i)%nat ->
  TrafficServerWorker.delete_all_loop fuel i self = (Py.Ok tt, self).
Proof.
  intros L. apply nth_error_None in L. destruct fuel; simpl; now rewrite L.
Qed.

Lemma delete_all_loop_skips (fuel : nat) :
  forall (self : TrafficServerWorker.t) (kept rest : list TrafficServer.t),
  (List.length rest <= fuel)%nat ->
  TrafficServerWorker._servers self = (kept ++ rest)%list ->
  NoDup (map server_identity (kept ++ rest)%list) ->
  Forall (fun s => listening self s = true) rest ->
  exists self',
    TrafficServerWorker.delete_all_loop fuel (List.length kept) self
    = (Py.Ok tt, self')
    /\ TrafficServerWorker._servers self' = (kept ++ odds rest)%list.
Proof.
  induction fuel as [|fuel IH]; intros self kept rest Lf Es Nd L.
  - destruct rest; [|simpl in Lf; lia].
    exists self. rewrite delete_all_loop_done by (rewrite Es, length_app; simpl; lia).
    now rewrite Es.
  - destruct rest as [|x rest].
    + exists self.
      rewrite delete_all_loop_done by (rewrite Es, length_app; simpl; lia).
      now rewrite Es.
    + destruct (stop_and_remove_middle self kept rest x Es Nd L)
        as (self1 & R & Es1 & L1).
      cbn [TrafficServerWorker.delete_all_loop].
      rewrite Es, nth_error_app2, Nat.sub_diag by lia. simpl nth_error.
      cbv iota beta. rewrite R.
      destruct rest as [|y rest].
      * exists self1. rewrite app_nil_r in Es1.
        rewrite delete_all_loop_done by (rewrite Es1; lia).
        now rewrite Es1, app_nil_r.
      * destruct (IH self1 (kept ++ [y])%list rest) as (self2 & R2 & Es2).
        -- simpl in Lf. lia.
        -- now rewrite <- app_assoc.
        -- rewrite <- app_assoc. simpl.
           rewrite map_app in Nd |- *. simpl in Nd |- *.
           now apply NoDup_remove_1 in Nd.
        -- now inversion L1.
        -- exists self2. rewrite length_app in R2. simpl in R2.
           rewrite Nat.add_1_r in R2. rewrite R2. split; [reflexivity|].
           rewrite Es2, <- app_assoc. reflexivity.
Qed.

End ServerWorkerFacts.

(** C10.  On a worker whose servers are pairwise distinct and all
    listening, [delete_all_servers] returns normally but stops and
    removes only the servers at positions 0, 2, 4, ...: the loop removes
    from the list it is iterating, so each removal makes the iterator
    step over the next server.  The servers at the odd positions stay:
    the count afterwards is half the count before (rounded down) and
    [has_server] still holds for each of them. *)
Theorem delete_all_servers_skips_every_other `{Py.StrHash}
  (self : TrafficServerWorker.t) :
  NoDup (map server_identity (TrafficServerWorker._servers self)) ->
  Forall (fun s => listening self s = true)
    (TrafficServerWorker._servers self) ->
  exists self',
    TrafficServerWorker.delete_all_servers self = (Py.Ok tt, self')
    /\ TrafficServerWorker._servers self'
       = odds (TrafficServerWorker._servers self)
    /\ TrafficServerWorker.get_server_count self'
       = Z.of_nat (Nat.div2 (List.length (TrafficServerWorker._servers self)))
    /\ (forall s, In s (odds (TrafficServerWorker._servers self)) ->
          TrafficServerWorker.has_server self' s = true).
Proof.
  intros Nd L.
  destruct (delete_all_loop_skips
              (List.length (TrafficServerWorker._servers self))
              self [] (TrafficServerWorker._servers self))
    as (self' & R & Es); auto.
  exists self'. simpl in R, Es. split; [exact R|]. split; [exact Es|].
  split.
  - unfold TrafficServerWorker.get_server_count.
    now rewrite Es, odds_length.
  - intros s I. unfold TrafficServerWorker.has_server,
      TrafficServerWorker.list_contains.
    rewrite Es. apply existsb_exists. exists s. split; [exact I|].
    now apply TrafficServer_eq_identity.
Qed.

Lemma delete_all_servers_skips_example :
  NoDup (map server_identity
           (TrafficServerWorker._servers sample_server_worker))
  /\ Forall (fun s => @listening length_hash sample_server_worker s = true)
       (TrafficServerWorker._servers sample_server_worker)
  /\ exists self',
       @TrafficServerWorker.delete_all_servers length_hash
         sample_server_worker = (Py.Ok tt, self')
       /\ TrafficServerWorker._servers self'
          = odds (TrafficServerWorker._servers sample_server_worker)
       /\ TrafficServerWorker.get_server_count self'
          = Z.of_nat
              (Nat.div2
                 (List.length
                    (TrafficServerWorker._servers sample_server_worker)))
       /\ (forall s,
             In s (odds (TrafficServerWorker._servers sample_server_worker)) ->
             TrafficServerWorker.has_server self' s = true).
Proof.
  assert (N : NoDup (map server_identity
                       (TrafficServerWorker._servers sample_server_worker))).
  { vm_compute. repeat constructor; simpl; intuition discriminate. }
  assert (L : Forall
                (fun s => @listening length_hash sample_server_worker s = true)
                (TrafficServerWorker._servers sample_server_worker)).
  { vm_compute. repeat constructor. }
  split; [exact N|]. split; [exact L|].
  exact (@delete_all_servers_skips_every_other length_hash
           sample_server_worker N L).
Defined.

(** The two-server instance spelled out: one server is left. *)
Lemma delete_all_servers_two_servers :
  exists self',
    @TrafficServerWorker.delete_all_servers length_hash sample_server_worker
    = (Py.Ok tt, self')
    /\ TrafficServerWorker.get_server_count self' = 1
    /\ TrafficServerWorker.has_server self' (tcp_server "s2" 81 true) = true.
Proof. eexists. split; [vm_compute; reflexivity|]. split; reflexivity. Qed.

(** The fuel given to the loop is never what ends it. *)
Lemma list_remove_length (l l' : list TrafficServer.t) (x : TrafficServer.t) :
  TrafficServerWorker.list_remove l x = Some l' ->
  List.length l = S (List.length l').
Proof.
  revert l'. induction l as [|e l IH]; intros l' E; [discriminate|].
  cbn [TrafficServerWorker.list_remove] in E.
  destruct (TrafficServer.__eq__ e (TrafficServer.Instance x)).
  - now injection E as <-.
  - destruct (TrafficServerWorker.list_remove l x) as [l''|]; [|discriminate].
    injection E as <-. simpl. now rewrite (IH _ eq_refl).
Qed.

Lemma stop_and_remove_length `{Py.StrHash} (self self' : TrafficServerWorker.t)
  (x : TrafficServer.t) :
  TrafficServerWorker.stop_and_remove self x = (Py.Ok tt, self') ->
  List.length (TrafficServerWorker._servers self)
  = S (List.length (TrafficServerWorker._servers self')).
Proof.
  unfold TrafficServerWorker.stop_and_remove, TrafficServerWorker._stop_server.
  destruct (PyDict.get TrafficServer.same_key
              (TrafficServerWorker._running_servers self) x)
    as [[host port tls|]|]; try discriminate.
  destruct (PyDict.del TrafficServer.same_key
              (TrafficServerWorker._running_servers self) x);
    try discriminate.
  simpl.
  destruct (TrafficServerWorker.list_remove
              (TrafficServerWorker._servers self) x) as [rest|] eqn:R;
    try discriminate.
  intros E. injection E as <-. simpl. now apply list_remove_length in R.
Qed.

Lemma delete_all_loop_fuel `{Py.StrHash} (fuel : nat) :
  forall (i : nat) (self : TrafficServerWorker.t),
  (List.length (TrafficServerWorker._servers self) <= fuel + i)%nat ->
  fst (TrafficServerWorker.delete_all_loop fuel i self)
  <> Py.Raise Py.IndexError.
Proof.
  induction fuel as [|fuel IH]; intros i self L.
  - rewrite delete_all_loop_done by lia. discriminate.
  - simpl.
    destruct (nth_error (TrafficServerWorker._servers self) i) as [x|] eqn:E;
      [|discriminate].
    destruct (TrafficServerWorker.stop_and_remove self x) as [[[]|e] self']
      eqn:R.
    + apply stop_and_remove_length in R. apply IH. lia.
    + simpl. intros Ee. injection Ee as ->. revert R.
      unfold TrafficServerWorker.stop_and_remove,
        TrafficServerWorker._stop_server.
      destruct (PyDict.get TrafficServer.same_key
                  (TrafficServerWorker._running_servers self) x)
        as [[host port tls|]|]; simpl; try congruence.
      destruct (PyDict.del TrafficServer.same_key
                  (TrafficServerWorker._running_servers self) x);
        simpl; try congruence.
      destruct (TrafficServerWorker.list_remove
                  (TrafficServerWorker._servers self) x);
        simpl; congruence.
Qed.

(** ** The rule collection: round robin *)

Lemma TrafficRule_eq_identity (a b : TrafficRule.t) :
  TrafficRule.__eq__ a (TrafficRule.Instance b) = true <->
  rule_identity a = rule_identity b.
Proof. apply TrafficRule_eq_iff. Qed.

Lemma TrafficRule_eq_false (a b : TrafficRule.t) :
  rule_identity a <> rule_identity b ->
  TrafficRule.__eq__ a (TrafficRule.Instance b) = false.
Proof.
  intros N. destruct (TrafficRule.__eq__ a (TrafficRule.Instance b)) eqn:E;
    [|reflexivity].
  now apply TrafficRule_eq_identity in E.
Qed.

Lemma TrafficRule_eq_respects (k a b : TrafficRule.t) :
  rule_identity a = rule_identity b ->
  TrafficRule.__eq__ k (TrafficRule.Instance a)
  = TrafficRule.__eq__ k (TrafficRule.Instance b).
Proof.
  intros E.
  destruct (TrafficRule.__eq__ k (TrafficRule.Instance b)) eqn:B.
  - apply TrafficRule_eq_identity. apply TrafficRule_eq_identity in B.
    congruence.
  - apply TrafficRule_eq_false. intros A.
    assert (T : TrafficRule.__eq__ k (TrafficRule.Instance b) = true)
      by (apply TrafficRule_eq_identity; congruence).
    congruence.
Qed.

Lemma occurrences_none (r : TrafficRule.t) (l : list TrafficRule.t) :
  ~ In (rule_identity r) (map rule_identity l) -> occurrences r l = 0%nat.
Proof.
  unfold occurrences. induction l as [|e l IH]; intros N; [reflexivity|].
  cbn [filter]. rewrite TrafficRule_eq_false.
  - apply IH. intros I. apply N. now right.
  - intros E. apply N. left. exact E.
Qed.

Lemma occurrences_once (r : TrafficRule.t) (l : list TrafficRule.t) :
  NoDup (map rule_identity l) -> In r l -> occurrences r l = 1%nat.
Proof.
  induction l as [|e l IH]; intros Nd I; [destruct I|].
  simpl in Nd. inversion Nd as [|? ? Ne Nl]; subst.
  unfold occurrences. cbn [filter]. destruct I as [-> | I].
  - rewrite TrafficRule_eq_refl. cbn [List.length]. f_equal.
    now apply occurrences_none.
  - rewrite TrafficRule_eq_false.
    + now apply IH.
    + intros E. apply Ne. rewrite E. now apply in_map.
Qed.

Lemma occurrences_app (r : TrafficRule.t) (a b : list TrafficRule.t) :
  occurrences r (a ++ b)%list = (occurrences r a + occurrences r b)%nat.
Proof. unfold occurrences. now rewrite filter_app, length_app. Qed.

Lemma occurrences_cycles (r : TrafficRule.t) (l : list TrafficRule.t)
  (k : nat) :
  occurrences r (concat (repeat l k)) = (k * occurrences r l)%nat.
Proof.
  induction k as [|k IH]; [reflexivity|].
  cbn [repeat concat]. rewrite occurrences_app, IH. lia.
Qed.

Section CollectionFacts.
Context `{Py.StrHash}.

Lemma get_identity (m : list (TrafficRule.t * Z)) (a b : TrafficRule.t) :
  rule_identity a = rule_identity b ->
  PyDict.get TrafficRule.same_key m a = PyDict.get TrafficRule.same_key m b.
Proof.
  intros E. induction m as [|[k v] m IH]; [reflexivity|].
  cbn [PyDict.get]. rewrite !TrafficRule_same_key_eq.
  now rewrite (TrafficRule_eq_respects k a b E), IH.
Qed.

Lemma get_set_absent (m : list (TrafficRule.t * Z)) (k k0 : TrafficRule.t)
  (v : Z) :
  PyDict.get TrafficRule.same_key m k = None ->
  PyDict.get TrafficRule.same_key (PyDict.set TrafficRule.same_key m k v) k0
  = match PyDict.get TrafficRule.same_key m k0 with
    | Some v0 => Some v0
    | None => if TrafficRule.same_key k k0 then Some v else None
    end.
Proof.
  induction m as [|[k' v'] m IH]; cbn [PyDict.get PyDict.set]; intros G.
  - reflexivity.
  - destruct (TrafficRule.same_key k' k) eqn:S; [discriminate|].
    cbn [PyDict.get]. destruct (TrafficRule.same_key k' k0); [reflexivity|].
    now apply IH.
Qed.

Lemma set_length_absent (m : list (TrafficRule.t * Z)) (k : TrafficRule.t)
  (v : Z) :
  PyDict.get TrafficRule.same_key m k = None ->
  List.length (PyDict.set TrafficRule.same_key m k v) = S (List.length m).
Proof.
  induction m as [|[k' v'] m IH]; cbn [PyDict.get PyDict.set]; intros G.
  - reflexivity.
  - destruct (TrafficRule.same_key k' k); [discriminate|].
    cbn [List.length]. now rewrite IH.
Qed.

Lemma init_well_formed : well_formed TrafficRuleCollection.__init__.
Proof. repeat split; constructor. Qed.

Lemma add_rule_well_formed (self : TrafficRuleCollection.t)
  (rule : TrafficRule.t) :
  well_formed self -> well_formed (TrafficRuleCollection.add_rule self rule).
Proof.
  intros (I & Nd & L).
  unfold TrafficRuleCollection.add_rule, TrafficRuleCollection.__add_rule,
    PyDict.mem.
  destruct (PyDict.get TrafficRule.same_key
              (TrafficRuleCollection._rules_map self) rule) eqn:G;
    cbn [negb]; [now repeat split|].
  repeat split; cbn [TrafficRuleCollection._rules_map
                       TrafficRuleCollection._rules].
  - unfold indexed, PyDict.mem in *. apply Forall_app. split.
    + rewrite Forall_forall in *. intros e Ie. specialize (I e Ie).
      rewrite get_set_absent by exact G.
      destruct (PyDict.get TrafficRule.same_key
                  (TrafficRuleCollection._rules_map self) e);
        [reflexivity | discriminate].
    + constructor; [|constructor].
      rewrite get_set_absent, G by exact G.
      now rewrite TrafficRule_same_key_eq, TrafficRule_eq_refl.
  - rewrite map_app. cbn [map].
    apply (NoDup_Add (a := rule_identity rule)
             (l := map rule_identity (TrafficRuleCollection._rules self))).
    + rewrite <- (app_nil_r (map rule_identity _)) at 1. apply Add_app.
    + split; [exact Nd|]. intros In_.
      apply in_map_iff in In_ as (e & Ee & Ie).
      unfold indexed, PyDict.mem in I. rewrite Forall_forall in I.
      specialize (I e Ie). rewrite (get_identity _ e rule Ee), G in I.
      discriminate.
  - rewrite set_length_absent by exact G. rewrite length_app, L.
    cbn [List.length]. lia.
Qed.

Lemma add_rules_well_formed (rules : list TrafficRule.t) :
  forall self : TrafficRuleCollection.t,
  well_formed self -> well_formed (TrafficRuleCollection.add_rules self rules).
Proof.
  unfold TrafficRuleCollection.add_rules.
  induction rules as [|r rules IH]; intros self W; [exact W|].
  cbn [fold_left]. apply IH. now apply add_rule_well_formed.
Qed.

Lemma settle_map (g : TrafficRuleCollection.generator)
  (self : TrafficRuleCollection.t) :
  TrafficRuleCollection._rules_map (settle g self)
  = TrafficRuleCollection._rules_map self.
Proof.
  destruct g; try reflexivity. unfold settle, TrafficRuleCollection.rr_finally.
  now destruct (PyDict.mem _ _ _).
Qed.

(** A resumption with a non-empty settled deque yields its head. *)
Lemma next_yields_head (g : TrafficRuleCollection.generator)
  (self : TrafficRuleCollection.t) (x : TrafficRule.t)
  (l : list TrafficRule.t) :
  g <> TrafficRuleCollection.Finished ->
  TrafficRuleCollection._rules (settle g self) = x :: l ->
  PyDict.mem TrafficRule.same_key (TrafficRuleCollection._rules_map self) x
  = true ->
  TrafficRuleCollection.next g self
  = (Py.Ok (Some x), TrafficRuleCollection.Suspended x, settle g self)
  /\ TrafficRuleCollection._rules
       (settle (TrafficRuleCollection.Suspended x) (settle g self))
     = (l ++ [x])%list.
Proof.
  intros Ng Es M.
  assert (Mx : TrafficRuleCollection._rules_map (settle g self) <> []).
  { rewrite settle_map. intros E. rewrite E in M. discriminate. }
  split.
  - destruct g as [|item|]; [| |congruence];
      cbn [TrafficRuleCollection.next settle] in *.
    + unfold TrafficRuleCollection.rr_loop.
      destruct (TrafficRuleCollection._rules_map self); [congruence|].
      now rewrite Es.
    + remember (TrafficRuleCollection.rr_finally item self) as c.
      unfold TrafficRuleCollection.rr_loop.
      destruct (TrafficRuleCollection._rules_map c); [congruence|].
      now rewrite Es.
  - cbn [settle]. unfold TrafficRuleCollection.rr_finally at 1.
    rewrite settle_map, M. cbn [TrafficRuleCollection._rules].
    now rewrite Es.
Qed.

(** Yielding a prefix [a] of the settled deque moves it to the back. *)
Lemma take_prefix (a : list TrafficRule.t) :
  forall (b : list TrafficRule.t) (m : nat)
         (g : TrafficRuleCollection.generator)
         (self : TrafficRuleCollection.t),
  g <> TrafficRuleCollection.Finished ->
  TrafficRuleCollection._rules (settle g self) = (a ++ b)%list ->
  indexed (TrafficRuleCollection._rules_map self) (a ++ b)%list ->
  exists g' self',
    g' <> TrafficRuleCollection.Finished
    /\ TrafficRuleCollection._rules_map self'
       = TrafficRuleCollection._rules_map self
    /\ TrafficRuleCollection._rules (settle g' self') = (b ++ a)%list
    /\ TrafficRuleCollection.take (List.length a + m) g self
       = (a ++ TrafficRuleCollection.take m g' self')%list.
Proof.
  induction a as [|x a IH]; intros b m g self Ng Es I.
  - exists g, self. rewrite app_nil_r. auto.
  - cbn [app] in Es, I. inversion I as [|? ? Mx Ir]; subst.
    destruct (next_yields_head g self x (a ++ b) Ng Es Mx) as [Nx Rx].
    destruct (IH (b ++ [x])%list m (TrafficRuleCollection.Suspended x)
                (settle g self)) as (g' & self' & Ng' & Em & Es' & T).
    + discriminate.
    + now rewrite Rx, app_assoc.
    + rewrite settle_map. unfold indexed. rewrite app_assoc.
      apply Forall_app. split; [exact Ir | now constructor].
    + exists g', self'. split; [exact Ng'|].
      split; [now rewrite Em, settle_map|].
      split; [now rewrite Es', <- app_assoc|].
      cbn [List.length Nat.add TrafficRuleCollection.take app].
      now rewrite Nx, T.
Qed.

Lemma take_cycles (l : list TrafficRule.t) (k : nat) :
  forall (g : TrafficRuleCollection.generator)
         (self : TrafficRuleCollection.t),
  g <> TrafficRuleCollection.Finished ->
  TrafficRuleCollection._rules (settle g self) = l ->
  indexed (TrafficRuleCollection._rules_map self) l ->
  TrafficRuleCollection.take (List.length l * k) g self
  = concat (repeat l k).
Proof.
  induction k as [|k IH]; intros g self Ng Es I.
  - now rewrite Nat.mul_0_r.
  - rewrite Nat.mul_succ_r, Nat.add_comm.
    destruct (take_prefix l [] (List.length l * k)%nat g self Ng)
      as (g' & self' & Ng' & Em & Es' & T).
    + now rewrite app_nil_r.
    + now rewrite app_nil_r.
    + rewrite T. cbn [repeat concat]. f_equal.
      apply IH; [exact Ng' | exact Es' | now rewrite Em].
Qed.

End CollectionFacts.

(** C6.  On a collection in the state its methods maintain, holding N
    rules, the first N*k rules produced by [round_robin_rule_generator]
    are k passes over the deque in order, so each of the N rules occurs
    exactly k times among them; each resumption yields the head of the
    deque and the [finally] clause then rotates it by one; and with an
    empty collection the next resumption ends the sequence. *)
Theorem round_robin_fair `{Py.StrHash} (self : TrafficRuleCollection.t)
  (k : nat) :
  well_formed self ->
  TrafficRuleCollection.round_robin_rule_generator self
    (Z.to_nat (TrafficRuleCollection.get_rule_count self) * k)
  = concat (repeat (TrafficRuleCollection._rules self) k)
  /\ (forall r, In r (TrafficRuleCollection._rules self) ->
        occurrences r
          (TrafficRuleCollection.round_robin_rule_generator self
             (Z.to_nat (TrafficRuleCollection.get_rule_count self) * k))
        = k)
  /\ (forall x l, TrafficRuleCollection._rules self = x :: l ->
        TrafficRuleCollection.next TrafficRuleCollection.Created self
        = (Py.Ok (Some x), TrafficRuleCollection.Suspended x, self)
        /\ TrafficRuleCollection._rules
             (TrafficRuleCollection.rr_finally x self) = (l ++ [x])%list)
  /\ (forall g,
        TrafficRuleCollection.next g (TrafficRuleCollection.clear_rules self)
        = (Py.Ok None, TrafficRuleCollection.Finished,
           TrafficRuleCollection.clear_rules self)).
Proof.
  intros (I & Nd & L).
  assert (T : TrafficRuleCollection.round_robin_rule_generator self
                (Z.to_nat (TrafficRuleCollection.get_rule_count self) * k)
              = concat (repeat (TrafficRuleCollection._rules self) k)).
  { unfold TrafficRuleCollection.round_robin_rule_generator,
      TrafficRuleCollection.get_rule_count.
    rewrite Nat2Z.id, L.
    apply take_cycles; [discriminate | reflexivity | exact I]. }
  split; [exact T|]. split; [|split].
  - intros r Ir. rewrite T, occurrences_cycles, occurrences_once by assumption.
    lia.
  - intros x l E.
    assert (Mx : PyDict.mem TrafficRule.same_key
                   (TrafficRuleCollection._rules_map self) x = true).
    { unfold indexed in I. rewrite Forall_forall in I. apply I.
      rewrite E. now left. }
    apply (next_yields_head TrafficRuleCollection.Created self x l);
      [discriminate | exact E | exact Mx].
  - intros g. destruct g; reflexivity.
Qed.

Lemma round_robin_fair_example :
  @well_formed length_hash sample_collection
  /\ (@TrafficRuleCollection.round_robin_rule_generator length_hash
        sample_collection
        (Z.to_nat (TrafficRuleCollection.get_rule_count sample_collection) * 2)
      = concat (repeat (TrafficRuleCollection._rules sample_collection) 2)
      /\ (forall r, In r (TrafficRuleCollection._rules sample_collection) ->
            occurrences r
              (@TrafficRuleCollection.round_robin_rule_generator length_hash
                 sample_collection
                 (Z.to_nat
                    (TrafficRuleCollection.get_rule_count sample_collection)
                  * 2))
            = 2%nat)
      /\ (forall x l,
            TrafficRuleCollection._rules sample_collection = x :: l ->
            @TrafficRuleCollection.next length_hash
              TrafficRuleCollection.Created sample_collection
            = (Py.Ok (Some x), TrafficRuleCollection.Suspended x,
               sample_collection)
            /\ TrafficRuleCollection._rules
                 (@TrafficRuleCollection.rr_finally length_hash x
                    sample_collection) = (l ++ [x])%list)
      /\ (forall g,
            @TrafficRuleCollection.next length_hash g
              (TrafficRuleCollection.clear_rules sample_collection)
            = (Py.Ok None, TrafficRuleCollection.Finished,
               TrafficRuleCollection.clear_rules sample_collection))).
Proof.
  assert (W : @well_formed length_hash sample_collection).
  { unfold well_formed, indexed. vm_compute.
    split; [repeat constructor|].
    split; [|reflexivity].
    repeat constructor; simpl; intuition discriminate. }
  split; [exact W|].
  exact (@round_robin_fair length_hash sample_collection 2 W).
Defined.

(** The six rules of the example, in order. *)
Lemma round_robin_example_run :
  @TrafficRuleCollection.round_robin_rule_generator length_hash
    sample_collection 6
  = [tcp_rule "r1" 80; tcp_rule "r2" 81; tcp_rule "r3" 82;
     tcp_rule "r1" 80; tcp_rule "r2" 81; tcp_rule "r3" 82].
Proof. vm_compute. reflexivity. Qed.

(** ** The reporter's drain *)

Section StringDictFacts.
Context {V : Type}.

Lemma get_none_keys (d : list (string * V)) (k : string) :
  PyDict.get String.eqb d k = None <-> ~ In k (PyDict.keys d).
Proof.
  unfold PyDict.keys. induction d as [|[k' v'] d IH]; cbn [PyDict.get map fst].
  - split; [intros _ [] | reflexivity].
  - destruct (String.eqb_spec k' k) as [->|N].
    + split; [discriminate | intros C; exfalso; apply C; now left].
    + rewrite IH. split.
      * intros C [E|I]; [now apply N | now apply C].
      * intros C I. apply C. now right.
Qed.

Lemma keys_set_present (d : list (string * V)) (k : string) (v : V) :
  PyDict.get String.eqb d k <> None ->
  PyDict.keys (PyDict.set String.eqb d k v) = PyDict.keys d.
Proof.
  unfold PyDict.keys.
  induction d as [|[k' v'] d IH]; cbn [PyDict.get PyDict.set map fst];
    [congruence|].
  destruct (String.eqb k' k); cbn [map fst]; [reflexivity|].
  intros G. now rewrite IH.
Qed.

Lemma keys_set_absent (d : list (string * V)) (k : string) (v : V) :
  PyDict.get String.eqb d k = None ->
  PyDict.keys (PyDict.set String.eqb d k v) = (PyDict.keys d ++ [k])%list.
Proof.
  unfold PyDict.keys.
  induction d as [|[k' v'] d IH]; cbn [PyDict.get PyDict.set map fst app];
    [reflexivity|].
  destruct (String.eqb k' k); cbn [map fst]; [discriminate|].
  intros G. now rewrite IH.
Qed.

Lemma get_set_string (d : list (string * V)) (k k0 : string) (v : V) :
  PyDict.get String.eqb (PyDict.set String.eqb d k v) k0
  = if String.eqb k k0 then Some v else PyDict.get String.eqb d k0.
Proof.
  destruct (String.eqb k k0) eqn:E.
  - apply String.eqb_eq in E. subst.
    apply get_set_same, String.eqb_refl.
  - apply get_set_other; eauto using string_same_eq.
Qed.

End StringDictFacts.

Lemma keys_update (c : MetricsCache.t) (k : string)
  (f : Counter.t -> Counter.t) :
  PyDict.keys (MetricsCache.update k f c) = PyDict.keys c.
Proof.
  unfold MetricsCache.update.
  destruct (PyDict.get String.eqb c k) eqn:G; [|reflexivity].
  apply keys_set_present. congruence.
Qed.

Lemma keys_counter (c : MetricsCache.t) (k : string) :
  (forall k0, In k0 (PyDict.keys c) ->
              In k0 (PyDict.keys (MetricsCache.counter c k)))
  /\ (NoDup (PyDict.keys c) -> NoDup (PyDict.keys (MetricsCache.counter c k))).
Proof.
  unfold MetricsCache.counter, PyDict.mem.
  destruct (PyDict.get String.eqb c k) eqn:G; [now split|].
  rewrite keys_set_absent by exact G. split.
  - intros k0 I. apply in_or_app. now left.
  - intros Nd.
    apply (NoDup_Add (a := k) (l := PyDict.keys c)).
    + rewrite <- (app_nil_r (PyDict.keys c)) at 1. apply Add_app.
    + split; [exact Nd | now apply get_none_keys].
Qed.

Lemma keys_interfere (calls : ExchangeReporter.interference) :
  forall c : MetricsCache.t,
  (forall k0, In k0 (PyDict.keys c) ->
              In k0 (PyDict.keys (ExchangeReporter.interfere calls c)))
  /\ (NoDup (PyDict.keys c) ->
      NoDup (PyDict.keys (ExchangeReporter.interfere calls c))).
Proof.
  unfold ExchangeReporter.interfere.
  induction calls as [|[k v] calls IH]; intros c; [now split|].
  cbn [fold_left fst snd].
  destruct (IH (MetricsCache.update k (Counter.inc v)
                  (MetricsCache.counter c k))) as [I N].
  rewrite keys_update in I, N. destruct (keys_counter c k) as [I0 N0].
  split; auto.
Qed.

Lemma amount_update (c : MetricsCache.t) (k k0 : string)
  (f : Counter.t -> Counter.t) :
  In k (PyDict.keys c) ->
  amount k0 (MetricsCache.update k f c)
  = if String.eqb k k0 then Counter.count (f (MetricsCache.lookup c k))
    else amount k0 c.
Proof.
  intros I. unfold amount. destruct (String.eqb k k0) eqn:E.
  - apply String.eqb_eq in E. subst k0.
    rewrite lookup_update_same; [reflexivity|].
    intros G. now apply get_none_keys in G.
  - now rewrite lookup_update_other.
Qed.

Lemma amount_interfere (calls : ExchangeReporter.interference) (k0 : string) :
  forall c : MetricsCache.t,
  amount k0 (ExchangeReporter.interfere calls c) = amount k0 c + added k0 calls.
Proof.
  unfold ExchangeReporter.interfere.
  induction calls as [|[k v] calls IH]; intros c; cbn [fold_left fold_right added].
  - lia.
  - rewrite IH. cbn [fst snd]. unfold amount at 1.
    destruct (String.eqb k k0) eqn:E.
    + apply String.eqb_eq in E. subst k0.
      rewrite lookup_update_same by apply mem_counter.
      rewrite lookup_counter. unfold amount, Counter.inc, Counter.count.
      cbn [Counter._count]. unfold added. lia.
    + rewrite lookup_update_other, lookup_counter by exact E.
      unfold amount, added. lia.
Qed.

Lemma added_app (k : string) (a b : ExchangeReporter.interference) :
  added k (a ++ b)%list = added k a + added k b.
Proof.
  unfold added. induction a as [|[k' v] a IH]; cbn [app fold_right fst snd].
  - lia.
  - rewrite IH. destruct (String.eqb k' k); lia.
Qed.

Lemma count_dec (v : Z) (c : Counter.t) :
  Counter.count (Counter.dec v c) = Counter.count c - v.
Proof. unfold Counter.dec, Counter.inc, Counter.count. cbn. lia. Qed.

(** The loop, from any point on: what each counter holds afterwards is
    what it held, plus what was added in the windows that opened, minus
    what went into the message. *)
Lemma report_loop_conserves (sched : string -> ExchangeReporter.interference)
  (keys : list string) :
  forall (cache : MetricsCache.t) (cd : list (string * Z)),
  NoDup keys ->
  (forall k, In k keys -> PyDict.get String.eqb cd k = None) ->
  (forall k, In k keys -> In k (PyDict.keys cache)) ->
  exists ws,
    PyDict.keys (snd (ExchangeReporter.report_loop sched keys cache cd))
    = (PyDict.keys cd ++ ws)%list
    /\ forall k,
         amount k (fst (ExchangeReporter.report_loop sched keys cache cd))
         = amount k cache + added k (flat_map sched ws)
           - (drained k (snd (ExchangeReporter.report_loop sched keys cache cd))
              - drained k cd).
Proof.
  induction keys as [|key rest IH]; intros cache cd Nd Fresh Present.
  - exists []. cbn. rewrite app_nil_r. split; [reflexivity|]. intros k.
    unfold added. cbn. lia.
  - inversion Nd as [|? ? Nk Nr]; subst.
    cbn [ExchangeReporter.report_loop].
    destruct (Z.eqb_spec (Counter.count (MetricsCache.lookup cache key)) 0)
      as [Z0|NZ].
    + apply IH; auto using in_cons.
    + set (count := Counter.count (MetricsCache.lookup cache key)) in *.
      set (cd1 := PyDict.set String.eqb cd key count).
      set (cache1 := ExchangeReporter.interfere (sched key) cache).
      set (cache2 := MetricsCache.update key (Counter.dec count) cache1).
      assert (P1 : forall k, In k (PyDict.keys cache) ->
                             In k (PyDict.keys cache1))
        by apply keys_interfere.
      destruct (IH cache2 cd1) as (ws & Ek & Ea).
      * exact Nr.
      * intros k Ik. unfold cd1. rewrite get_set_string.
        destruct (String.eqb_spec key k) as [->|_]; [contradiction|].
        apply Fresh. now right.
      * intros k Ik. unfold cache2. rewrite keys_update.
        apply P1, Present. now right.
      * exists (key :: ws). split.
        -- rewrite Ek. unfold cd1.
           rewrite keys_set_absent by (apply Fresh; now left).
           now rewrite <- app_assoc.
        -- intros k. rewrite Ea. cbn [flat_map]. rewrite added_app.
           assert (D1 : drained k cd1
                        = if String.eqb key k then count else drained k cd).
           { unfold drained, cd1. rewrite get_set_string.
             now destruct (String.eqb key k). }
           assert (D0 : drained key cd = 0).
           { unfold drained. now rewrite Fresh by now left. }
           rewrite D1. unfold cache2.
           rewrite amount_update by (apply P1, Present; now left).
           rewrite count_dec. fold (amount key cache1). unfold cache1.
           rewrite !amount_interfere.
           destruct (String.eqb_spec key k) as [->|Nkk].
           ++ rewrite D0. unfold count, amount. lia.
           ++ lia.
Qed.

(** With nobody else running, the loop empties every counter it visits
    and the message holds what the counters held. *)
Lemma report_loop_quiet (keys : list string) :
  forall (cache : MetricsCache.t) (cd : list (string * Z)),
  NoDup keys ->
  (forall k, In k keys -> PyDict.get String.eqb cd k = None) ->
  (forall k, In k keys -> In k (PyDict.keys cache)) ->
  forall k,
    (In k keys ->
     amount k (fst (ExchangeReporter.report_loop quiet keys cache cd)) = 0
     /\ drained k (snd (ExchangeReporter.report_loop quiet keys cache cd))
        = amount k cache)
    /\ (~ In k keys ->
        amount k (fst (ExchangeReporter.report_loop quiet keys cache cd))
        = amount k cache
        /\ drained k (snd (ExchangeReporter.report_loop quiet keys cache cd))
           = drained k cd).
Proof.
  induction keys as [|key rest IH]; intros cache cd Nd Fresh Present k.
  - cbn. split; [intros [] | auto].
  - inversion Nd as [|? ? Nk Nr]; subst.
    cbn [ExchangeReporter.report_loop].
    destruct (Z.eqb_spec (Counter.count (MetricsCache.lookup cache key)) 0)
      as [Z0|NZ].
    + destruct (IH cache cd Nr) with (k := k) as [A B];
        auto using in_cons.
      split.
      * intros [->|I]; [|now apply A].
        destruct (B Nk) as [B1 B2]. rewrite B1, B2. split; [exact Z0|].
        unfold drained. rewrite Fresh by now left. symmetry. exact Z0.
      * intros N. apply B. intros I. apply N. now right.
    + set (count := Counter.count (MetricsCache.lookup cache key)) in *.
      cbn [quiet ExchangeReporter.interfere fold_left].
      set (cd1 := PyDict.set String.eqb cd key count).
      set (cache2 := MetricsCache.update key (Counter.dec count) cache).
      assert (A2 : forall k0, amount k0 cache2
                   = if String.eqb key k0 then 0 else amount k0 cache).
      { intros k0. unfold cache2. rewrite amount_update
          by (apply Present; now left).
        destruct (String.eqb key k0); [|reflexivity].
        unfold Counter.dec, Counter.inc, Counter.count, count.
        cbn [Counter._count]. unfold Counter.count. lia. }
      assert (D1 : forall k0, drained k0 cd1
                   = if String.eqb key k0 then count else drained k0 cd).
      { intros k0. unfold drained, cd1. rewrite get_set_string.
        now destruct (String.eqb key k0). }
      destruct (IH cache2 cd1 Nr) with (k := k) as [A B].
      * intros k0 I0. unfold cd1. rewrite get_set_string.
        destruct (String.eqb_spec key k0) as [->|_]; [contradiction|].
        apply Fresh. now right.
      * intros k0 I0. unfold cache2. rewrite keys_update.
        apply Present. now right.
      * split.
        -- intros [->|I].
           ++ destruct (B Nk) as [B1 B2]. rewrite B1, B2, A2, D1.
              rewrite String.eqb_refl. now split.
           ++ destruct (A I) as [A1 A3]. rewrite A1, A3, A2.
              destruct (String.eqb_spec key k) as [->|_]; [contradiction|].
              now split.
        -- intros N.
           assert (Nr' : ~ In k rest) by (intros I; apply N; now right).
           destruct (B Nr') as [B1 B2]. rewrite B1, B2, A2, D1.
           destruct (String.eqb_spec key k) as [->|_];
             [exfalso; apply N; now left | now split].
Qed.

Lemma report_fst_snd (sched : string -> ExchangeReporter.interference)
  (cache : MetricsCache.t) :
  fst (ExchangeReporter.report sched cache)
  = fst (ExchangeReporter.report_loop sched
           (MetricsCache.dump_metrics cache) cache [])
  /\ sent (snd (ExchangeReporter.report sched cache))
     = snd (ExchangeReporter.report_loop sched
              (MetricsCache.dump_metrics cache) cache []).
Proof.
  unfold ExchangeReporter.report.
  destruct (ExchangeReporter.report_loop sched
              (MetricsCache.dump_metrics cache) cache []) as [c [|x cd]];
    now split.
Qed.

Lemma report_loop_keys (sched : string -> ExchangeReporter.interference)
  (keys : list string) :
  forall (cache : MetricsCache.t) (cd : list (string * Z)),
  (forall k, In k keys -> In k (PyDict.keys cache)) ->
  NoDup (PyDict.keys cache) ->
  NoDup (PyDict.keys
           (fst (ExchangeReporter.report_loop sched keys cache cd))).
Proof.
  induction keys as [|key rest IH]; intros cache cd Present Nd; [exact Nd|].
  cbn [ExchangeReporter.report_loop].
  destruct (Z.eqb (Counter.count (MetricsCache.lookup cache key)) 0).
  - apply IH; auto using in_cons.
  - apply IH.
    + intros k I. rewrite keys_update. apply keys_interfere, Present.
      now right.
    + rewrite keys_update. now apply keys_interfere.
Qed.

Lemma amount_absent (c : MetricsCache.t) (k : string) :
  ~ In k (PyDict.keys c) -> amount k c = 0.
Proof.
  intros N. apply get_none_keys in N. unfold amount, MetricsCache.lookup.
  now rewrite N.
Qed.

(** C5.  For every counter, one run of [report] with arbitrary [inc]
    calls arriving between its reads and its decrements leaves
    (count before) + (everything added meanwhile) - (value put in the
    message): the drain subtracts exactly what it reported, so what
    arrived after the read stays in the counter.  The next run then
    reports exactly that remainder, which contains nothing of what the
    first message carried, and leaves the counter at zero. *)
Theorem report_drains_by_decrement
  (sched : string -> ExchangeReporter.interference) (cache : MetricsCache.t) :
  NoDup (PyDict.keys cache) ->
  forall key : string,
    amount key (fst (ExchangeReporter.report sched cache))
    = amount key cache
      + added key
          (flat_map sched
             (PyDict.keys (sent (snd (ExchangeReporter.report sched cache)))))
      - drained key (sent (snd (ExchangeReporter.report sched cache)))
    /\ drained key
         (sent (snd (ExchangeReporter.report quiet
                       (fst (ExchangeReporter.report sched cache)))))
       = amount key (fst (ExchangeReporter.report sched cache))
    /\ amount key
         (fst (ExchangeReporter.report quiet
                 (fst (ExchangeReporter.report sched cache))))
       = 0.
Proof.
  intros Nd key.
  destruct (report_fst_snd sched cache) as [F S_].
  set (cache1 := fst (ExchangeReporter.report sched cache)) in *.
  destruct (report_fst_snd quiet cache1) as [F2 S2].
  rewrite S2, F2, S_.
  assert (Nd1 : NoDup (PyDict.keys cache1)).
  { rewrite F. apply report_loop_keys; [auto | exact Nd]. }
  split.
  - destruct (report_loop_conserves sched (MetricsCache.dump_metrics cache)
                cache [] Nd) as (ws & Ek & Ea); [reflexivity | auto |].
    cbn [PyDict.keys map app] in Ek. fold (@PyDict.keys string Z) in Ek.
    rewrite Ek, F, Ea.
    change (drained key []) with 0. lia.
  - pose proof (report_loop_quiet (MetricsCache.dump_metrics cache1) cache1 []
                  Nd1 (fun _ _ => eq_refl) (fun _ I => I) key) as [A B].
    destruct (in_dec string_dec key (MetricsCache.dump_metrics cache1))
      as [I|N].
    + destruct (A I) as [A1 A2]. now rewrite A1, A2.
    + destruct (B N) as [B1 B2]. rewrite B1, B2.
      rewrite amount_absent by exact N. now split.
Qed.

Lemma report_drains_by_decrement_example :
  NoDup (PyDict.keys sample_cache)
  /\ forall key : string,
       amount key (fst (ExchangeReporter.report sample_sched sample_cache))
       = amount key sample_cache
         + added key
             (flat_map sample_sched
                (PyDict.keys
                   (sent (snd (ExchangeReporter.report sample_sched
                                 sample_cache)))))
         - drained key
             (sent (snd (ExchangeReporter.report sample_sched sample_cache)))
       /\ drained key
            (sent (snd (ExchangeReporter.report quiet
                          (fst (ExchangeReporter.report sample_sched
                                  sample_cache)))))
          = amount key
              (fst (ExchangeReporter.report sample_sched sample_cache))
       /\ amount key
            (fst (ExchangeReporter.report quiet
                    (fst (ExchangeReporter.report sample_sched
                            sample_cache))))
          = 0.
Proof.
  assert (N : NoDup (PyDict.keys sample_cache)).
  { vm_compute. repeat constructor; simpl; intuition discriminate. }
  split; [exact N|].
  exact (report_drains_by_decrement sample_sched sample_cache N).
Defined.

(** The example run: the first message carries 3 and 5; the two counts
    that arrived during the drain of the first counter are what the
    second message carries. *)
Lemma report_example_run :
  snd (ExchangeReporter.report sample_sched sample_cache)
  = Some [("10.0.0.1:10.0.0.2:80:TCP:True:success", 3);
          ("10.0.0.1:10.0.0.2:81:TCP:True:success", 5)]
  /\ snd (ExchangeReporter.report quiet
            (fst (ExchangeReporter.report sample_sched sample_cache)))
     = Some [("10.0.0.1:10.0.0.2:80:TCP:True:success", 2);
             ("10.0.0.1:10.0.0.2:82:TCP:True:success", 1)].
Proof. split; vm_compute; reflexivity. Qed.

(** ** The controller *)

Section ControllerFacts.
Context `{Py.StrHash} `{TrafficController.Host}.

(** The first pass of the loop over the existing workers already fails:
    [rules_per_worker * index] repeats the registry key and adding an
    integer to that string is a [TypeError]. *)
Lemma add_existing_loop_raises (wt : TrafficController.worker_type)
  (new_rules : list (TrafficController.rule wt)) (rules_per_worker : Z)
  (position : Z) (key : string) (rest : list (Z * string))
  (self : TrafficController.t) :
  TrafficController.add_existing_loop wt new_rules rules_per_worker
    ((position, key) :: rest) self
  = (Py.Raise Py.TypeError, self).
Proof. reflexivity. Qed.

Lemma _add_rules_to_existing_workers_raises
  (wt : TrafficController.worker_type)
  (new_rules : list (TrafficController.rule wt)) (rules_per_worker : Z)
  (self : TrafficController.t) :
  live_workers (TrafficController.type_name wt) self <> [] ->
  TrafficController._add_rules_to_existing_workers wt new_rules
    rules_per_worker self
  = (Py.Raise Py.TypeError, self).
Proof.
  intros N.
  unfold TrafficController._add_rules_to_existing_workers,
    TrafficController.bind, TrafficController._get_all_workers.
  fold (live_workers (TrafficController.type_name wt) self).
  destruct (live_workers (TrafficController.type_name wt) self) as [|w ws];
    [congruence|].
  reflexivity.
Qed.

End ControllerFacts.

(** C3.  With a full pool (the live worker count of the type is non-zero
    and equals the target count), [start_servers] and [start_clients]
    distribute nothing: the loop header unpacks [enumerate] as
    [worker, index], so the slice bound is computed from the registry
    key, and the call raises [TypeError] before any RPC is made or any
    registry entry is written; the controller is left as it was. *)
Theorem start_with_full_pool_raises `{Py.StrHash} `{TrafficController.Host}
  (self : TrafficController.t)
  (server_rules : list TrafficServer.t) (rules : list TrafficRule.t) :
  (live_workers "server" self <> [] ->
   Z.of_nat (List.length (live_workers "server" self))
   = TrafficController.SERVER_WORKER_COUNT ->
   TrafficController.start_servers server_rules self
   = (Py.Raise Py.TypeError, self))
  /\ (live_workers "client" self <> [] ->
      Z.of_nat (List.length (live_workers "client" self))
      = TrafficController.CLIENT_WORKER_COUNT ->
      TrafficController.start_clients rules self
      = (Py.Raise Py.TypeError, self)).
Proof.
  split; intros N E.
  - unfold TrafficController.start_servers, TrafficController.bind,
      TrafficController._get_all_rules, TrafficController._get_all_workers.
    change (filter
              (fun worker =>
                 Py.startswith worker
                   (TrafficController.type_name TrafficController.server))
              (MemCache.get_all_keys
                 (TrafficController._workers_registry self)))
      with (live_workers "server" self).
    rewrite E, Z.eqb_refl.
    assert (NZ : Z.eqb TrafficController.SERVER_WORKER_COUNT 0 = false).
    { apply Z.eqb_neq. rewrite <- E.
      destruct (live_workers "server" self); [congruence | cbn; lia]. }
    rewrite NZ. cbn [negb andb].
    now apply (_add_rules_to_existing_workers_raises TrafficController.server).
  - unfold TrafficController.start_clients, TrafficController.bind,
      TrafficController._get_all_rules, TrafficController._get_all_workers.
    change (filter
              (fun worker =>
                 Py.startswith worker
                   (TrafficController.type_name TrafficController.client))
              (MemCache.get_all_keys
                 (TrafficController._workers_registry self)))
      with (live_workers "client" self).
    rewrite E, Z.eqb_refl.
    assert (NZ : Z.eqb TrafficController.CLIENT_WORKER_COUNT 0 = false).
    { apply Z.eqb_neq. rewrite <- E.
      destruct (live_workers "client" self); [congruence | cbn; lia]. }
    rewrite NZ. cbn [negb andb].
    now apply (_add_rules_to_existing_workers_raises TrafficController.client).
Qed.

(** An instance: two client workers are live after the first
    [start_clients]; a further [start_clients] with a new rule raises and
    [client_r4] is not registered. *)
Lemma start_with_full_pool_example :
  live_workers "client" sample_started <> []
  /\ Z.of_nat (List.length (live_workers "client" sample_started))
     = @TrafficController.CLIENT_WORKER_COUNT sample_host
  /\ @TrafficController.start_clients length_hash sample_host
       [tcp_rule "r4" 83] sample_started
     = (Py.Raise Py.TypeError, sample_started)
  /\ MemCache.get (TrafficController._rules_registry sample_started)
       (Py.Str "client_r4") = None.
Proof.
  assert (N : live_workers "client" sample_started <> [])
    by (vm_compute; discriminate).
  assert (E : Z.of_nat (List.length (live_workers "client" sample_started))
              = @TrafficController.CLIENT_WORKER_COUNT sample_host)
    by (vm_compute; reflexivity).
  split; [exact N|]. split; [exact E|]. split; [|vm_compute; reflexivity].
  exact (proj2 (@start_with_full_pool_raises length_hash sample_host
                  sample_started [] [tcp_rule "r4" 83]) N E).
Defined.

Lemma get_in {V : Type} (d : list (string * V)) (k : string) (v : V) :
  PyDict.get String.eqb d k = Some v -> In (k, v) d.
Proof.
  induction d as [|[k' v'] d IH]; cbn [PyDict.get]; [discriminate|].
  destruct (String.eqb_spec k' k) as [->|N].
  - intros E. injection E as ->. now left.
  - intros E. right. now apply IH.
Qed.

Lemma keys_set_incl {V : Type} (d : list (string * V)) (k k0 : string)
  (v : V) :
  In k0 (PyDict.keys (PyDict.set String.eqb d k v)) ->
  k0 = k \/ In k0 (PyDict.keys d).
Proof.
  destruct (PyDict.get String.eqb d k) eqn:G.
  - rewrite keys_set_present by congruence. auto.
  - rewrite keys_set_absent by exact G. intros I.
    apply in_app_or in I as [I|[<-|[]]]; auto.
Qed.

Lemma set_not_nil {V : Type} (d : list (string * V)) (k : string) (v : V) :
  PyDict.set String.eqb d k v <> [].
Proof.
  destruct d as [|[k' v'] d]; cbn [PyDict.set]; [discriminate|].
  destruct (String.eqb k' k); discriminate.
Qed.

Section StopFacts.
Context `{Py.StrHash} `{TrafficController.Host}.

Lemma group_by_owner_grows (wt : TrafficController.worker_type)
  (registry : MemCache.t TrafficController.context)
  (rules : list (TrafficController.rule wt)) :
  forall m : list (string * list (TrafficController.rule wt)),
  m <> [] -> TrafficController.group_by_owner wt registry rules m <> [].
Proof.
  induction rules as [|r rules IH]; intros m N; [exact N|].
  cbn [TrafficController.group_by_owner].
  destruct (MemCache.get registry _); [|now apply IH].
  apply IH, set_not_nil.
Qed.

Lemma group_by_owner_nonempty (wt : TrafficController.worker_type)
  (registry : MemCache.t TrafficController.context)
  (rules : list (TrafficController.rule wt)) :
  forall m : list (string * list (TrafficController.rule wt)),
  (exists r, In r rules
             /\ MemCache.get registry
                  (Py.Str (TrafficController.type_name wt ++ "_"
                             ++ TrafficController.rule_id r)) <> None) ->
  TrafficController.group_by_owner wt registry rules m <> [].
Proof.
  induction rules as [|r rules IH]; intros m (r0 & I & G); [destruct I|].
  cbn [TrafficController.group_by_owner].
  destruct I as [->|I].
  - destruct (MemCache.get registry _); [|congruence].
    apply group_by_owner_grows, set_not_nil.
  - destruct (MemCache.get registry
                (Py.Str (TrafficController.type_name wt ++ "_"
                           ++ TrafficController.rule_id r)));
      apply IH; eauto.
Qed.

Lemma group_by_owner_keys (wt : TrafficController.worker_type)
  (registry : MemCache.t TrafficController.context)
  (P : string -> Prop)
  (rules : list (TrafficController.rule wt)) :
  (forall k ctx, In (k, ctx) registry -> P (TrafficController.uid ctx)) ->
  forall m : list (string * list (TrafficController.rule wt)),
  (forall k, In k (PyDict.keys m) -> P k) ->
  forall k,
    In k (PyDict.keys (TrafficController.group_by_owner wt registry rules m)) ->
    P k.
Proof.
  intros R. induction rules as [|r rules IH]; intros m Pm; [exact Pm|].
  cbn [TrafficController.group_by_owner].
  destruct (MemCache.get registry _) as [ctx|] eqn:G; [|now apply IH].
  apply IH. intros k I. apply keys_set_incl in I as [->|I]; [|now apply Pm].
  cbn [MemCache.get] in G. apply get_in in G. now apply (R _ _ G).
Qed.

Lemma underscore_separates (k u : string) :
  mentions "_" k = true -> mentions "_" u = false -> k <> u.
Proof. intros A B E. subst. congruence. Qed.

(** With registries of the shape the controller builds, the probe of
    [workers_registry] with a bare uid finds nothing, and
    [_delete_rule_from_worker] raises on the first owner. *)
Lemma _delete_rule_from_worker_raises (wt : TrafficController.worker_type)
  (rules : list (TrafficController.rule wt)) (self : TrafficController.t) :
  registries_shaped self ->
  (exists r, In r rules
             /\ MemCache.get (TrafficController._rules_registry self)
                  (Py.Str (TrafficController.type_name wt ++ "_"
                             ++ TrafficController.rule_id r)) <> None) ->
  TrafficController._delete_rule_from_worker wt rules self
  = (Py.Raise Py.AttributeError, self).
Proof.
  intros [Sw Sr] E.
  unfold TrafficController._delete_rule_from_worker.
  pose proof (group_by_owner_nonempty wt
                (TrafficController._rules_registry self) rules [] E) as N.
  pose proof (group_by_owner_keys wt
                (TrafficController._rules_registry self)
                (fun k => mentions "_" k = false) rules Sr []
                (fun k (I : In k []) => match I with end)) as K.
  destruct (TrafficController.group_by_owner wt
              (TrafficController._rules_registry self) rules [])
    as [|[worker rs] rest]; [congruence|].
  cbn [TrafficController.delete_loop MemCache.get].
  assert (G : PyDict.get String.eqb
                (TrafficController._workers_registry self) worker = None).
  { apply get_none_keys. intros I.
    apply (underscore_separates worker worker); [now apply Sw | | reflexivity].
    apply K. now left. }
  now rewrite G.
Qed.

End StopFacts.

(** On a controller whose registries have the shape [start_clients]
    gives them, [stop_clients] with a list containing at least one
    registered rule raises [AttributeError]: the rules are grouped by the
    uid of their owner, but [workers_registry] is keyed by
    ["client_<uid>"], so the lookup of the owner returns [None].  No
    delete RPC is sent and [rules_registry] keeps every entry. *)
Lemma stop_clients_raises `{Py.StrHash} `{TrafficController.Host}
  (rules : list TrafficRule.t) (self : TrafficController.t) :
  registries_shaped self ->
  (exists r, In r rules
             /\ MemCache.get (TrafficController._rules_registry self)
                  (Py.Str ("client_" ++ TrafficRule.id r)) <> None) ->
  TrafficController.stop_clients rules self
  = (Py.Raise Py.AttributeError, self)
  /\ TrafficController._rules_registry
       (snd (TrafficController.stop_clients rules self))
     = TrafficController._rules_registry self
  /\ TrafficController.processes
       (snd (TrafficController.stop_clients rules self))
     = TrafficController.processes self.
Proof.
  intros S_ E.
  assert (R : TrafficController.stop_clients rules self
              = (Py.Raise Py.AttributeError, self))
    by now apply (_delete_rule_from_worker_raises TrafficController.client).
  rewrite R. auto.
Qed.

(** [start_clients] of three rules on a fresh controller followed by
    [stop_clients] of the same rules: every rule is still registered. *)
Lemma stop_clients_raises_example :
  registries_shaped sample_started
  /\ (exists r,
        In r [tcp_rule "r1" 80; tcp_rule "r2" 81; tcp_rule "r3" 82]
        /\ MemCache.get (TrafficController._rules_registry sample_started)
             (Py.Str ("client_" ++ TrafficRule.id r)) <> None)
  /\ (@TrafficController.stop_clients length_hash
        [tcp_rule "r1" 80; tcp_rule "r2" 81; tcp_rule "r3" 82] sample_started
      = (Py.Raise Py.AttributeError, sample_started)
      /\ TrafficController._rules_registry
           (snd (@TrafficController.stop_clients length_hash
                   [tcp_rule "r1" 80; tcp_rule "r2" 81; tcp_rule "r3" 82]
                   sample_started))
         = TrafficController._rules_registry sample_started
      /\ TrafficController.processes
           (snd (@TrafficController.stop_clients length_hash
                   [tcp_rule "r1" 80; tcp_rule "r2" 81; tcp_rule "r3" 82]
                   sample_started))
         = TrafficController.processes sample_started).
Proof.
  assert (S_ : registries_shaped sample_started).
  { split.
    - vm_compute. intros k [<-|[<-|[]]]; reflexivity.
    - vm_compute. intros k ctx [E|[E|[E|[]]]]; injection E as <- <-;
        reflexivity. }
  assert (E : exists r,
             In r [tcp_rule "r1" 80; tcp_rule "r2" 81; tcp_rule "r3" 82]
             /\ MemCache.get (TrafficController._rules_registry sample_started)
                  (Py.Str ("client_" ++ TrafficRule.id r)) <> None).
  { exists (tcp_rule "r1" 80). split; [now left|]. vm_compute. discriminate. }
  split; [exact S_|]. split; [exact E|].
  exact (@stop_clients_raises length_hash sample_host
           [tcp_rule "r1" 80; tcp_rule "r2" 81; tcp_rule "r3" 82]
           sample_started S_ E).
Defined.

(** The registry after the failed stop, spelled out. *)
Lemma stop_clients_example_registry :
  map fst
    (TrafficController._rules_registry
       (snd (@TrafficController.stop_clients length_hash
               [tcp_rule "r1" 80; tcp_rule "r2" 81; tcp_rule "r3" 82]
               sample_started)))
  = ["client_r1"; "client_r2"; "client_r3"]
  /\ map fst (TrafficController._workers_registry sample_started)
     = ["client_w0"; "client_w1"].
Proof. split; vm_compute; reflexivity. Qed.

(** *** The shape of the registries is an invariant

    Every entry point keeps [registries_shaped], provided the uuids drawn
    are hexadecimal text (no underscore). *)

Lemma mentions_app (c : ascii) (a b : string) :
  mentions c (a ++ b) = mentions c a || mentions c b.
Proof.
  induction a as [|x a IH]; cbn [append mentions]; [reflexivity|].
  now rewrite IH, orb_assoc.
Qed.

Lemma in_set_value {V : Type} (d : list (string * V)) (k k0 : string)
  (v v0 : V) :
  In (k, v) (PyDict.set String.eqb d k0 v0) -> v = v0 \/ In (k, v) d.
Proof.
  induction d as [|[k' v'] d IH]; cbn [PyDict.set].
  - intros [E|[]]. injection E as _ <-. now left.
  - destruct (String.eqb k' k0).
    + intros [E|I]; [injection E as _ <-; now left | right; now right].
    + intros [E|I]; [right; now left|].
      destruct (IH I) as [->|I']; [now left | right; now right].
Qed.

Section ShapeFacts.
Context `{Py.StrHash} `{TrafficController.Host}.
Hypothesis uuid_is_hex :
  forall n, mentions "_" (TrafficController.uuid4_hex n) = false.

Lemma bind_keeps {A B : Type} (P : TrafficController.t -> Prop)
  (m : TrafficController.M A) (k : A -> TrafficController.M B)
  (self : TrafficController.t) :
  P (snd (m self)) ->
  (forall a s, P s -> P (snd (k a s))) ->
  P (snd (TrafficController.bind m k self)).
Proof.
  intros Pm Pk. unfold TrafficController.bind.
  destruct (m self) as [[a|e] s]; cbn [snd] in *; auto.
Qed.

Lemma rpc_shaped (addr : option string)
  (method : TrafficController.handler ->
            option (Py.result unit * TrafficController.handler))
  (self : TrafficController.t) :
  registries_shaped self ->
  registries_shaped (snd (TrafficController.rpc addr method self)).
Proof.
  intros S_. unfold TrafficController.rpc.
  destruct addr as [a|]; [|exact S_].
  destruct (PyDict.get String.eqb (TrafficController.processes self) a)
    as [h|]; [|exact S_].
  destruct (method h) as [[r h']|]; exact S_.
Qed.

Lemma register_rules_shaped (wt : TrafficController.worker_type)
  (rules : list (TrafficController.rule wt))
  (ctx : TrafficController.context) (self : TrafficController.t) :
  mentions "_" (TrafficController.uid ctx) = false ->
  registries_shaped self ->
  registries_shaped
    (snd (TrafficController.register_rules wt rules ctx self)).
Proof.
  intros U [Sw Sr]. split; [exact Sw|].
  cbn [TrafficController.register_rules snd
         TrafficController.with_rules_registry
         TrafficController._rules_registry].
  revert Sr. generalize (TrafficController._rules_registry self).
  induction rules as [|r rules IH]; intros reg Sr; [exact Sr|].
  cbn [fold_left]. apply IH. intros k c I.
  apply in_set_value in I as [->|I]; [exact U | now apply (Sr k)].
Qed.

Lemma create_one_shaped (wt : TrafficController.worker_type)
  (rules : list (TrafficController.rule wt))
  (ctx : TrafficController.context) (self : TrafficController.t) :
  mentions "_" (TrafficController.uid ctx) = false ->
  registries_shaped self ->
  registries_shaped (snd (TrafficController.create_one wt rules ctx self)).
Proof.
  intros U S_. unfold TrafficController.create_one.
  apply bind_keeps; [exact S_|]. intros worker s1 S1.
  apply bind_keeps.
  - destruct S1 as [Sw Sr]. split; [|exact Sr].
    intros k I. cbn in I. apply keys_set_incl in I as [->|I];
      [|now apply Sw].
    rewrite !mentions_app. cbn. apply orb_true_r.
  - intros _ s2 S2. apply bind_keeps; [now apply rpc_shaped|].
    intros _ s3 S3. now apply register_rules_shaped.
Qed.

Lemma create_loop_shaped (wt : TrafficController.worker_type)
  (new_rules : list (TrafficController.rule wt)) (rules_per_worker : Z)
  (todo : nat) :
  forall (i : Z) (self : TrafficController.t),
  registries_shaped self ->
  registries_shaped
    (snd (TrafficController.create_loop wt new_rules rules_per_worker i todo
            self)).
Proof.
  induction todo as [|todo IH]; intros i self S_; [exact S_|].
  cbn [TrafficController.create_loop TrafficController._get_worker_context].
  destruct (Py.slice new_rules (rules_per_worker * i)
              (rules_per_worker * i + rules_per_worker)) as [|r rs];
    [exact S_|].
  apply bind_keeps.
  - unfold TrafficController.try_print.
    match goal with
    | |- context [TrafficController.create_one ?w ?l ?c ?s] =>
        pose proof (create_one_shaped w l c s (uuid_is_hex _) S_) as C;
        destruct (TrafficController.create_one w l c s) as [[a|e] s']
    end; exact C.
  - intros _ s S1. now apply IH.
Qed.

Lemma _add_rules_to_existing_workers_state
  (wt : TrafficController.worker_type)
  (new_rules : list (TrafficController.rule wt)) (rules_per_worker : Z)
  (self : TrafficController.t) :
  snd (TrafficController._add_rules_to_existing_workers wt new_rules
         rules_per_worker self) = self.
Proof.
  destruct (live_workers (TrafficController.type_name wt) self) eqn:L.
  - unfold TrafficController._add_rules_to_existing_workers,
      TrafficController.bind, TrafficController._get_all_workers.
    fold (live_workers (TrafficController.type_name wt) self).
    now rewrite L.
  - rewrite _add_rules_to_existing_workers_raises; [reflexivity|].
    rewrite L. discriminate.
Qed.

Lemma start_clients_shaped (rules : list TrafficRule.t)
  (self : TrafficController.t) :
  registries_shaped self ->
  registries_shaped (snd (TrafficController.start_clients rules self)).
Proof.
  intros S_.
  unfold TrafficController.start_clients, TrafficController.bind,
    TrafficController._get_all_rules, TrafficController._get_all_workers.
  match goal with |- context [if ?b then _ else _] => destruct b end.
  - now rewrite _add_rules_to_existing_workers_state.
  - now apply create_loop_shaped.
Qed.

Lemma start_servers_shaped (server_rules : list TrafficServer.t)
  (self : TrafficController.t) :
  registries_shaped self ->
  registries_shaped
    (snd (TrafficController.start_servers server_rules self)).
Proof.
  intros S_.
  unfold TrafficController.start_servers, TrafficController.bind,
    TrafficController._get_all_rules, TrafficController._get_all_workers.
  match goal with |- context [if ?b then _ else _] => destruct b end.
  - now rewrite _add_rules_to_existing_workers_state.
  - now apply create_loop_shaped.
Qed.

Lemma init_shaped : registries_shaped TrafficController.__init__.
Proof. split; [intros k [] | intros k ctx []]. Qed.

End ShapeFacts.

(** *** A fresh controller: start, then stop *)

Section FreshFacts.
Context `{Py.StrHash} `{TrafficController.Host}.

Lemma rpc_registered (k : string) (addr : option string)
  (method : TrafficController.handler ->
            option (Py.result unit * TrafficController.handler))
  (self : TrafficController.t) :
  registered k self ->
  registered k (snd (TrafficController.rpc addr method self)).
Proof.
  intros R. unfold TrafficController.rpc.
  destruct addr as [a|]; [|exact R].
  destruct (PyDict.get String.eqb (TrafficController.processes self) a)
    as [h|]; [|exact R].
  destruct (method h) as [[r h']|]; exact R.
Qed.

Lemma register_rules_keeps (k : string) (wt : TrafficController.worker_type)
  (rules : list (TrafficController.rule wt))
  (ctx : TrafficController.context) (self : TrafficController.t) :
  registered k self ->
  registered k (snd (TrafficController.register_rules wt rules ctx self)).
Proof.
  unfold registered.
  cbn [TrafficController.register_rules snd
         TrafficController.with_rules_registry
         TrafficController._rules_registry].
  generalize (TrafficController._rules_registry self).
  induction rules as [|r rules IH]; intros reg R; [exact R|].
  cbn [fold_left]. apply IH. unfold MemCache.add. rewrite get_set_string.
  now destruct (String.eqb _ k).
Qed.

Lemma register_rules_first (wt : TrafficController.worker_type)
  (r : TrafficController.rule wt) (rules : list (TrafficController.rule wt))
  (ctx : TrafficController.context) (self : TrafficController.t) :
  registered (TrafficController.rule_key wt r)
    (snd (TrafficController.register_rules wt (r :: rules) ctx self)).
Proof.
  pose proof (register_rules_keeps (TrafficController.rule_key wt r) wt rules
                ctx
                (TrafficController.with_rules_registry self
                   (MemCache.add (TrafficController._rules_registry self)
                      (TrafficController.rule_key wt r) ctx))) as K.
  apply K. unfold registered.
  cbn [TrafficController.with_rules_registry
         TrafficController._rules_registry].
  unfold MemCache.add. now rewrite get_set_string, String.eqb_refl.
Qed.

Lemma create_one_keeps (k : string) (wt : TrafficController.worker_type)
  (rules : list (TrafficController.rule wt))
  (ctx : TrafficController.context) (self : TrafficController.t) :
  registered k self ->
  registered k (snd (TrafficController.create_one wt rules ctx self)).
Proof.
  intros R. unfold TrafficController.create_one.
  apply bind_keeps; [exact R|]. intros worker s1 R1.
  apply bind_keeps; [exact R1|].
  intros _ s2 R2. apply bind_keeps; [now apply rpc_registered|].
  intros _ s3 R3. now apply register_rules_keeps.
Qed.

Lemma create_loop_keeps (k : string) (wt : TrafficController.worker_type)
  (new_rules : list (TrafficController.rule wt)) (rules_per_worker : Z)
  (todo : nat) :
  forall (i : Z) (self : TrafficController.t),
  registered k self ->
  registered k
    (snd (TrafficController.create_loop wt new_rules rules_per_worker i todo
            self)).
Proof.
  induction todo as [|todo IH]; intros i self R; [exact R|].
  cbn [TrafficController.create_loop TrafficController._get_worker_context].
  destruct (Py.slice new_rules (rules_per_worker * i)
              (rules_per_worker * i + rules_per_worker)) as [|r rs];
    [exact R|].
  apply bind_keeps.
  - unfold TrafficController.try_print.
    match goal with
    | |- context [TrafficController.create_one ?w ?l ?c ?s] =>
        pose proof (create_one_keeps k w l c s R) as C;
        destruct (TrafficController.create_one w l c s) as [[a|e] s']
    end; exact C.
  - intros _ s R1. now apply IH.
Qed.

(** A new client worker accepts its slice and the slice is registered. *)
Lemma create_one_client_registers (r : TrafficRule.t)
  (rules : list TrafficRule.t) (ctx : TrafficController.context)
  (self : TrafficController.t) :
  registered ("client_" ++ TrafficRule.id r)
    (snd (TrafficController.create_one TrafficController.client (r :: rules)
            ctx self)).
Proof.
  unfold TrafficController.create_one, TrafficController.bind,
    TrafficController._create_worker, TrafficController.rpc.
  cbn [TrafficController.address TrafficController.processes fst snd
         TrafficController.with_processes
         TrafficController.with_workers_registry].
  rewrite get_set_string, String.eqb_refl.
  cbn [TrafficController.new_handler TrafficController.add_method].
  apply (register_rules_first TrafficController.client).
Qed.

Lemma slice_head {A : Type} (x : A) (l : list A) (n : Z) :
  1 <= n -> exists tl, Py.slice (x :: l) (n * 0) (n * 0 + n) = x :: tl.
Proof.
  intros L. unfold Py.slice, Py.clamp. rewrite Z.mul_0_r, Z.add_0_l.
  cbn [Z.ltb Z.compare]. destruct (Z.ltb_spec n 0) as [C|_]; [lia|].
  set (len := Z.of_nat (List.length (x :: l))).
  assert (Ll : 1 <= len) by (unfold len; cbn [List.length]; lia).
  replace (Z.max 0 (Z.min len 0)) with 0 by lia.
  cbn [Z.to_nat skipn].
  destruct (Z.to_nat (Z.max 0 (Z.min len n) - 0)) eqn:E; [lia|].
  cbn [firstn]. eauto.
Qed.

Lemma filter_all {A : Type} (f : A -> bool) (l : list A) :
  (forall x, f x = true) -> filter f l = l.
Proof.
  intros F. induction l as [|x l IH]; cbn [filter]; [reflexivity|].
  now rewrite F, IH.
Qed.

(** On a fresh controller [start_clients] registers the first rule of
    a non-empty list. *)
Lemma start_clients_registers_first (r : TrafficRule.t)
  (rules : list TrafficRule.t) :
  0 <= TrafficController.cpu_count ->
  registered ("client_" ++ TrafficRule.id r)
    (snd (TrafficController.start_clients (r :: rules)
            TrafficController.__init__)).
Proof.
  intros Cpu.
  unfold TrafficController.start_clients, TrafficController.bind,
    TrafficController._get_all_rules, TrafficController._get_all_workers.
  rewrite (filter_all _ (r :: rules)) by reflexivity.
  cbn [TrafficController.__init__ TrafficController._rules_registry
         TrafficController._workers_registry MemCache.__init__
         MemCache.get_all_keys PyDict.keys map filter fst snd].
  change (Z.of_nat (List.length (@nil string))) with 0.
  cbn [Z.eqb negb andb].
  unfold TrafficController._create_workers_and_add_rules.
  set (W := TrafficController.CLIENT_WORKER_COUNT).
  assert (HW : 1 <= W <= 2).
  { unfold W, TrafficController.CLIENT_WORKER_COUNT.
    destruct (Z.eqb_spec TrafficController.cpu_count 0); lia. }
  set (rpw := Py.ceil_div (Z.of_nat (List.length (r :: rules))) W).
  assert (Hr : 1 <= rpw).
  { unfold rpw, Py.ceil_div. cbn [List.length].
    apply Z.div_le_lower_bound; lia. }
  clearbody rpw. clearbody W.
  destruct (Z.to_nat (W - 0)) as [|todo] eqn:T; [lia|].
  cbn [TrafficController.create_loop TrafficController._get_worker_context].
  match goal with
  | |- context [@Py.slice ?a ?b ?c ?d] =>
      destruct (slice_head r rules rpw Hr
                : exists tl, @Py.slice a b c d = r :: tl) as [tl ->]
  end.
  apply bind_keeps.
  - unfold TrafficController.try_print.
    match goal with
    | |- context [TrafficController.create_one ?w ?l ?c ?s] =>
        pose proof (create_one_client_registers r tl c s) as C;
        destruct (TrafficController.create_one w l c s) as [[a|e] s']
    end; exact C.
  - intros _ s R. now apply create_loop_keeps.
Qed.

End FreshFacts.

Lemma underscore_uint (d : Decimal.uint) :
  mentions "_" (NilEmpty.string_of_uint d) = false.
Proof. induction d; simpl; auto. Qed.

Lemma underscore_str_int (z : Z) : mentions "_" (Py.str_int z) = false.
Proof.
  unfold Py.str_int, NilZero.string_of_int, NilZero.string_of_uint.
  destruct (Z.to_int z) as [d|d]; destruct d; simpl;
    auto using underscore_uint.
Qed.

Lemma sample_host_uuid_is_hex (n : nat) :
  mentions "_" (@TrafficController.uuid4_hex sample_host n) = false.
Proof. cbn. apply underscore_str_int. Qed.

(** C2, end to end.  On a fresh controller, for every non-empty list of
    client rules, [start_clients] followed by [stop_clients] of the same
    list ends in [AttributeError]: no delete RPC reaches a worker (the
    worker processes are as [start_clients] left them), no entry is
    removed, and the first rule (at least) is still in [rules_registry]
    afterwards. *)
Theorem start_then_stop_clients_keeps_registry
  `{Py.StrHash} `{TrafficController.Host}
  (r : TrafficRule.t) (rules : list TrafficRule.t) :
  0 <= TrafficController.cpu_count ->
  (forall n, mentions "_" (TrafficController.uuid4_hex n) = false) ->
  TrafficController.stop_clients (r :: rules)
    (snd (TrafficController.start_clients (r :: rules)
            TrafficController.__init__))
  = (Py.Raise Py.AttributeError,
     snd (TrafficController.start_clients (r :: rules)
            TrafficController.__init__))
  /\ registered ("client_" ++ TrafficRule.id r)
       (snd (TrafficController.stop_clients (r :: rules)
               (snd (TrafficController.start_clients (r :: rules)
                       TrafficController.__init__)))).
Proof.
  intros Cpu Hex.
  pose proof (start_clients_registers_first r rules Cpu) as R.
  pose proof (start_clients_shaped Hex (r :: rules)
                TrafficController.__init__ init_shaped) as S_.
  destruct (stop_clients_raises (r :: rules) _ S_) as (E & _ & _).
  - exists r. split; [now left | exact R].
  - rewrite E. split; [reflexivity | exact R].
Qed.

Lemma start_then_stop_clients_example :
  0 <= @TrafficController.cpu_count sample_host
  /\ (forall n, mentions "_" (@TrafficController.uuid4_hex sample_host n)
                = false)
  /\ (@TrafficController.stop_clients length_hash
        [tcp_rule "r1" 80; tcp_rule "r2" 81; tcp_rule "r3" 82]
        (snd (@TrafficController.start_clients length_hash sample_host
                [tcp_rule "r1" 80; tcp_rule "r2" 81; tcp_rule "r3" 82]
                TrafficController.__init__))
      = (Py.Raise Py.AttributeError,
         snd (@TrafficController.start_clients length_hash sample_host
                [tcp_rule "r1" 80; tcp_rule "r2" 81; tcp_rule "r3" 82]
                TrafficController.__init__))
      /\ registered ("client_" ++ TrafficRule.id (tcp_rule "r1" 80))
           (snd (@TrafficController.stop_clients length_hash
                   [tcp_rule "r1" 80; tcp_rule "r2" 81; tcp_rule "r3" 82]
                   (snd (@TrafficController.start_clients length_hash
                           sample_host
                           [tcp_rule "r1" 80; tcp_rule "r2" 81;
                            tcp_rule "r3" 82]
                           TrafficController.__init__))))).
Proof.
  assert (C : 0 <= @TrafficController.cpu_count sample_host)
    by (vm_compute; discriminate).
  split; [exact C|]. split; [exact sample_host_uuid_is_hex|].
  exact (@start_then_stop_clients_keeps_registry length_hash sample_host
           (tcp_rule "r1" 80) [tcp_rule "r2" 81; tcp_rule "r3" 82]
           C sample_host_uuid_is_hex).
Defined.

(* ================================================================= *)
(** * Further properties of the modelled code *)

(** ** The rule collection: adding and membership *)

Section CollectionMore.
Context `{Py.StrHash}.

Lemma delete_rule_state (self : TrafficRuleCollection.t)
  (rule : TrafficRule.t) :
  snd (TrafficRuleCollection.delete_rule self rule) = self.
Proof.
  unfold TrafficRuleCollection.delete_rule,
    TrafficRuleCollection.__delete_rule.
  destruct (PyDict.get TrafficRule.same_key
              (TrafficRuleCollection._rules_map self) rule); [|reflexivity].
  now rewrite deque_remove_foreign.
Qed.

Lemma delete_rules_state (rules : list TrafficRule.t)
  (self : TrafficRuleCollection.t) :
  snd (TrafficRuleCollection.delete_rules self rules) = self.
Proof.
  destruct rules as [|rule rest]; [reflexivity|].
  cbn [TrafficRuleCollection.delete_rules].
  pose proof (delete_rule_state self rule) as D.
  unfold TrafficRuleCollection.delete_rule in D.
  destruct (TrafficRuleCollection.__delete_rule self rule) as [[[]|e] s] eqn:E;
    cbn [snd] in *; [|exact D].
  exfalso. revert E. unfold TrafficRuleCollection.__delete_rule.
  destruct (PyDict.get TrafficRule.same_key
              (TrafficRuleCollection._rules_map self) rule); [|discriminate].
  now rewrite deque_remove_foreign.
Qed.

Lemma contains_identity (self : TrafficRuleCollection.t)
  (a b : TrafficRule.t) :
  rule_identity a = rule_identity b ->
  TrafficRuleCollection.__contains__ self a
  = TrafficRuleCollection.__contains__ self b.
Proof.
  intros E. unfold TrafficRuleCollection.__contains__, PyDict.mem.
  now rewrite (get_identity _ a b E).
Qed.

End CollectionMore.

(** X1.  [add_rule] and membership: after [add_rule self rule] the rule,
    and every rule with the same identity fields whatever its id, is in
    the collection; what was in it stays in it; a rule with other
    identity fields is in it exactly if it was before.  The count grows
    by one and the rule goes to the back of the deque when it was not yet
    contained; otherwise nothing changes. *)
Theorem add_rule_membership `{Py.StrHash} (self : TrafficRuleCollection.t)
  (rule : TrafficRule.t) :
  (forall r, rule_identity r = rule_identity rule ->
     TrafficRuleCollection.__contains__
       (TrafficRuleCollection.add_rule self rule) r = true)
  /\ (forall r, rule_identity r <> rule_identity rule ->
        TrafficRuleCollection.__contains__
          (TrafficRuleCollection.add_rule self rule) r
        = TrafficRuleCollection.__contains__ self r)
  /\ TrafficRuleCollection.get_rule_count
       (TrafficRuleCollection.add_rule self rule)
     = TrafficRuleCollection.get_rule_count self
       + (if TrafficRuleCollection.__contains__ self rule then 0 else 1)
  /\ TrafficRuleCollection._rules (TrafficRuleCollection.add_rule self rule)
     = (if TrafficRuleCollection.__contains__ self rule
        then TrafficRuleCollection._rules self
        else (TrafficRuleCollection._rules self ++ [rule])%list).
Proof.
  unfold TrafficRuleCollection.add_rule, TrafficRuleCollection.__add_rule.
  fold (TrafficRuleCollection.__contains__ self rule).
  destruct (TrafficRuleCollection.__contains__ self rule) eqn:C; cbn [negb].
  - split; [|split; [|split]]; try reflexivity; [|lia].
    intros r E. now rewrite (contains_identity self r rule E).
  - assert (G : PyDict.get TrafficRule.same_key
                  (TrafficRuleCollection._rules_map self) rule = None).
    { unfold TrafficRuleCollection.__contains__, PyDict.mem in C.
      now destruct (PyDict.get _ _ _). }
    split; [|split; [|split]]; try reflexivity.
    + intros r E. unfold TrafficRuleCollection.__contains__, PyDict.mem.
      cbn [TrafficRuleCollection._rules_map].
      rewrite (get_identity _ r rule E), get_set_absent, G by exact G.
      now rewrite TrafficRule_same_key_eq, TrafficRule_eq_refl.
    + intros r N. unfold TrafficRuleCollection.__contains__, PyDict.mem.
      cbn [TrafficRuleCollection._rules_map].
      rewrite get_set_absent by exact G.
      destruct (PyDict.get TrafficRule.same_key
                  (TrafficRuleCollection._rules_map self) r); [reflexivity|].
      rewrite TrafficRule_same_key_eq, TrafficRule_eq_false; [reflexivity|].
      congruence.
    + unfold TrafficRuleCollection.get_rule_count.
      cbn [TrafficRuleCollection._rules_map].
      rewrite set_length_absent by exact G. lia.
Qed.

(** X2.  Whatever sequence of [add_rule], [add_rules], [clear_rules],
    [delete_rule] and [delete_rules] calls is made on a new collection,
    the index and the deque stay in step: every rule of the deque is a
    key of the index, no two rules of the deque are equal, and
    [get_rule_count] is the length of the deque. *)
Theorem collection_stays_well_formed `{Py.StrHash}
  (calls : list collection_call) :
  well_formed (collection_after calls)
  /\ TrafficRuleCollection.get_rule_count (collection_after calls)
     = Z.of_nat
         (List.length (TrafficRuleCollection._rules (collection_after calls))).
Proof.
  assert (W : well_formed (collection_after calls)).
  { unfold collection_after.
    assert (G : forall self, well_formed self ->
                  well_formed (fold_left collection_step calls self)).
    { induction calls as [|call calls IH]; intros self Ws; [exact Ws|].
      cbn [fold_left]. apply IH. destruct call; cbn [collection_step].
      - now apply add_rule_well_formed.
      - now apply add_rules_well_formed.
      - apply init_well_formed.
      - now rewrite delete_rule_state.
      - now rewrite delete_rules_state. }
    apply G, init_well_formed. }
  split; [exact W|].
  destruct W as (_ & _ & L). unfold TrafficRuleCollection.get_rule_count.
  now rewrite L.
Qed.

Lemma take_after_finally_created `{Py.StrHash} (n : nat) (x y : TrafficRule.t)
  (rest : list TrafficRule.t)
  (between : TrafficRuleCollection.t -> TrafficRuleCollection.t)
  (self : TrafficRuleCollection.t) :
  TrafficRuleCollection._rules
    (between (TrafficRuleCollection.rr_finally x self)) = y :: rest ->
  take_after_finally n x between self
  = TrafficRuleCollection.take n TrafficRuleCollection.Created
      (between (TrafficRuleCollection.rr_finally x self)).
Proof.
  intros E. destruct n as [|n]; [reflexivity|].
  cbn [take_after_finally TrafficRuleCollection.take TrafficRuleCollection.next].
  unfold TrafficRuleCollection.rr_loop. rewrite E.
  now destruct (TrafficRuleCollection._rules_map
                  (between (TrafficRuleCollection.rr_finally x self))).
Qed.

(** X3.  A rule added while the traffic loop is running joins the
    current round and no rule is skipped or served twice.  The generator
    has yielded [x] with the rules [l] waiting behind it, and a rule not
    yet contained is added.  If the call runs before the generator's
    [finally] clause, the next yields are [l], the new rule, then [x];
    if it runs after the [finally] clause, they are [l], [x], then the
    new rule. *)
Theorem round_robin_serves_added_rule `{Py.StrHash}
  (self : TrafficRuleCollection.t) (x rule : TrafficRule.t)
  (l : list TrafficRule.t) :
  well_formed self ->
  TrafficRuleCollection._rules self = x :: l ->
  TrafficRuleCollection.__contains__ self rule = false ->
  TrafficRuleCollection.take (List.length l + 2)
    (TrafficRuleCollection.Suspended x)
    (TrafficRuleCollection.add_rule self rule)
  = (l ++ [rule; x])%list
  /\ take_after_finally (List.length l + 2) x
       (fun c => TrafficRuleCollection.add_rule c rule) self
     = (l ++ [x; rule])%list.
Proof.
  intros W E C.
  pose proof (add_rule_well_formed self rule W) as (I' & _ & _).
  assert (R' : TrafficRuleCollection._rules
                 (TrafficRuleCollection.add_rule self rule)
               = (x :: l ++ [rule])%list).
  { unfold TrafficRuleCollection.add_rule, TrafficRuleCollection.__add_rule.
    fold (TrafficRuleCollection.__contains__ self rule).
    rewrite C. cbn [negb TrafficRuleCollection._rules]. now rewrite E. }
  rewrite R' in I'. unfold indexed in I'.
  inversion I' as [|? ? Mx Ml]; subst.
  apply Forall_app in Ml as [Ml Mr].
  assert (Mr' : PyDict.mem TrafficRule.same_key
                  (TrafficRuleCollection._rules_map
                     (TrafficRuleCollection.add_rule self rule)) rule = true)
    by now inversion Mr.
  split.
  - destruct (take_prefix (l ++ [rule; x])%list [] 0%nat
                (TrafficRuleCollection.Suspended x)
                (TrafficRuleCollection.add_rule self rule))
      as (g' & self' & _ & _ & _ & T).
    + discriminate.
    + rewrite app_nil_r. cbn [settle].
      unfold TrafficRuleCollection.rr_finally. rewrite Mx.
      cbn [TrafficRuleCollection._rules]. rewrite R'.
      cbn [TrafficRuleCollection.rotate_left]. now rewrite <- app_assoc.
    + rewrite app_nil_r. unfold indexed. apply Forall_app. split; [exact Ml|].
      repeat constructor; assumption.
    + rewrite length_app, Nat.add_0_r in T. cbn [List.length] in T.
      rewrite T. cbn [TrafficRuleCollection.take]. now rewrite app_nil_r.
  - destruct W as (I0 & _ & _). rewrite E in I0. unfold indexed in I0.
    inversion I0 as [|? ? Mx0 _]; subst.
    assert (F : TrafficRuleCollection.rr_finally x self
                = {| TrafficRuleCollection._rules_map :=
                       TrafficRuleCollection._rules_map self;
                     TrafficRuleCollection._rules := (l ++ [x])%list |}).
    { unfold TrafficRuleCollection.rr_finally. rewrite Mx0, E. reflexivity. }
    assert (A : TrafficRuleCollection.add_rule
                  (TrafficRuleCollection.rr_finally x self) rule
                = {| TrafficRuleCollection._rules_map :=
                       TrafficRuleCollection._rules_map
                         (TrafficRuleCollection.add_rule self rule);
                     TrafficRuleCollection._rules :=
                       (l ++ [x; rule])%list |}).
    { rewrite F.
      unfold TrafficRuleCollection.add_rule, TrafficRuleCollection.__add_rule.
      cbn [TrafficRuleCollection._rules_map TrafficRuleCollection._rules].
      fold (TrafficRuleCollection.__contains__ self rule). rewrite C.
      cbn [negb TrafficRuleCollection._rules_map]. now rewrite <- app_assoc. }
    assert (Hd : exists y rest, (l ++ [x; rule])%list = y :: rest).
    { destruct l; cbn; eauto. }
    destruct Hd as (y & rest & Hd).
    rewrite (take_after_finally_created _ x y rest)
      by (cbv beta; rewrite A; exact Hd).
    cbv beta. rewrite A.
    match goal with |- TrafficRuleCollection.take _ _ ?c = _ =>
      destruct (take_prefix (l ++ [x; rule])%list [] 0%nat
                  TrafficRuleCollection.Created c)
        as (g' & self' & _ & _ & _ & T)
    end.
    + discriminate.
    + now rewrite app_nil_r.
    + rewrite app_nil_r. unfold indexed.
      cbn [TrafficRuleCollection._rules_map]. apply Forall_app.
      split; [exact Ml|]. repeat constructor; assumption.
    + rewrite length_app, Nat.add_0_r in T. cbn [List.length] in T.
      rewrite T. cbn [TrafficRuleCollection.take]. now rewrite app_nil_r.
Qed.

Lemma round_robin_serves_added_rule_example :
  @well_formed length_hash sample_collection
  /\ TrafficRuleCollection._rules sample_collection
     = tcp_rule "r1" 80 :: [tcp_rule "r2" 81; tcp_rule "r3" 82]
  /\ @TrafficRuleCollection.__contains__ length_hash sample_collection
       (tcp_rule "r4" 83) = false
  /\ @TrafficRuleCollection.take length_hash
       (List.length [tcp_rule "r2" 81; tcp_rule "r3" 82] + 2)
       (TrafficRuleCollection.Suspended (tcp_rule "r1" 80))
       (@TrafficRuleCollection.add_rule length_hash sample_collection
          (tcp_rule "r4" 83))
     = ([tcp_rule "r2" 81; tcp_rule "r3" 82]
          ++ [tcp_rule "r4" 83; tcp_rule "r1" 80])%list
  /\ @take_after_finally length_hash
       (List.length [tcp_rule "r2" 81; tcp_rule "r3" 82] + 2)
       (tcp_rule "r1" 80)
       (fun c => @TrafficRuleCollection.add_rule length_hash c
                   (tcp_rule "r4" 83))
       sample_collection
     = ([tcp_rule "r2" 81; tcp_rule "r3" 82]
          ++ [tcp_rule "r1" 80; tcp_rule "r4" 83])%list.
Proof.
  assert (W : @well_formed length_hash sample_collection).
  { unfold well_formed, indexed. vm_compute.
    split; [repeat constructor|].
    split; [|reflexivity].
    repeat constructor; simpl; intuition discriminate. }
  split; [exact W|]. split; [reflexivity|]. split; [reflexivity|].
  exact (@round_robin_serves_added_rule length_hash sample_collection
           (tcp_rule "r1" 80) (tcp_rule "r4" 83)
           [tcp_rule "r2" 81; tcp_rule "r3" 82] W eq_refl eq_refl).
Defined.

(** ** The metric key: parsing and classification *)

Lemma split_length (sep : ascii) (s : string) :
  List.length (Py.split sep s) = S (count_char sep s).
Proof.
  induction s as [|c s IH]; [reflexivity|].
  cbn [Py.split count_char]. destruct (Ascii.eqb c sep).
  - cbn [List.length]. now rewrite IH.
  - destruct (Py.split sep s) as [|hd tl]; [discriminate IH | exact IH].
Qed.

(** X4.  [from_metric] returns a record exactly for the strings that
    contain five [:]; for any other string the six-way unpacking raises
    [ValueError].  When it returns, the first four pieces of the string
    are the record's source, destination, port and protocol, [connected]
    says whether the fifth piece is the text [True], and both counts are
    zero. *)
Theorem from_metric_needs_five_colons (uid : string) (now : Z)
  (metric : string) :
  (count_char ":" metric = 5%nat ->
   exists source destination port protocol connected result,
     Py.split ":" metric
     = [source; destination; port; protocol; connected; result]
     /\ TrafficRecord.from_metric uid now metric
        = Py.Ok {| TrafficRecord.id := uid;
                   TrafficRecord.source := source;
                   TrafficRecord.destination := destination;
                   TrafficRecord.port := port;
                   TrafficRecord.protocol := protocol;
                   TrafficRecord.success_count := 0;
                   TrafficRecord.failure_count := 0;
                   TrafficRecord.connected := String.eqb connected "True";
                   TrafficRecord.created := now |})
  /\ (count_char ":" metric <> 5%nat ->
      TrafficRecord.from_metric uid now metric = Py.Raise Py.ValueError).
Proof.
  pose proof (split_length ":" metric) as L.
  unfold TrafficRecord.from_metric. split; intros C.
  - rewrite C in L.
    destruct (Py.split ":" metric) as [|a [|b [|c [|d [|e [|f [|g tl]]]]]]];
      try discriminate L.
    now exists a, b, c, d, e, f.
  - destruct (Py.split ":" metric) as [|a [|b [|c [|d [|e [|f [|g tl]]]]]]];
      try reflexivity.
    exfalso. apply C. cbn in L. congruence.
Qed.

Lemma prefix_before_separator (c : ascii) (sub a b : string) :
  mentions c sub = false ->
  String.prefix sub (a ++ String c b) = String.prefix sub a.
Proof.
  revert a. induction sub as [|x sub IH]; intros a M.
  - now destruct a.
  - cbn [mentions] in M. apply orb_false_iff in M as [Mx Ms].
    destruct a as [|y a]; cbn [append String.prefix].
    + destruct (Ascii.ascii_dec x c) as [->|N].
      * now rewrite Ascii.eqb_refl in Mx.
      * reflexivity.
    + destruct (Ascii.ascii_dec x y); [now apply IH | reflexivity].
Qed.

Lemma contains_across_separator (c : ascii) (x : ascii) (sub a b : string) :
  mentions c (String x sub) = false ->
  Py.contains (String x sub) (a ++ String c b)
  = Py.contains (String x sub) a || Py.contains (String x sub) b.
Proof.
  intros M. induction a as [|y a IH].
  - cbn [append Py.contains String.prefix].
    cbn [mentions] in M. apply orb_false_iff in M as [Mx _].
    destruct (Ascii.ascii_dec x c) as [->|N];
      [now rewrite Ascii.eqb_refl in Mx | reflexivity].
  - cbn [append].
    change (Py.contains (String x sub) (String y (a ++ String c b)))
      with (String.prefix (String x sub) (String y a ++ String c b)
            || Py.contains (String x sub) (a ++ String c b)).
    rewrite (prefix_before_separator c (String x sub) (String y a) b M), IH.
    change (Py.contains (String x sub) (String y a))
      with (String.prefix (String x sub) (String y a)
            || Py.contains (String x sub) a).
    now rewrite orb_assoc.
Qed.

Lemma contains_needs_first (x : ascii) (sub s : string) :
  mentions x s = false -> Py.contains (String x sub) s = false.
Proof.
  induction s as [|y s IH]; intros M; [reflexivity|].
  cbn [mentions] in M. apply orb_false_iff in M as [My Ms].
  cbn [Py.contains String.prefix].
  destruct (Ascii.ascii_dec x y) as [->|N];
    [now rewrite Ascii.eqb_refl in My|].
  now rewrite IH.
Qed.

Lemma no_s_in_uint (d : Decimal.uint) :
  mentions "s" (NilEmpty.string_of_uint d) = false.
Proof. induction d; simpl; auto. Qed.

Lemma no_s_in_str_int (z : Z) : mentions "s" (Py.str_int z) = false.
Proof.
  unfold Py.str_int, NilZero.string_of_int, NilZero.string_of_uint.
  destruct (Z.to_int z) as [d|d]; destruct d; simpl; auto using no_s_in_uint.
Qed.

Lemma contains_success_in_key (s d proto : string) (p : Z) (c : bool)
  (tail : string) :
  Py.contains "success"
  ((s ++ ":" ++ d ++ ":" ++ Py.str_int p ++ ":" ++ proto ++ ":"
      ++ Py.str_bool c) ++ ":" ++ tail)
  = Py.contains "success" s || Py.contains "success" d
  || Py.contains "success" proto
  || Py.contains "success" tail.
Proof.
  rewrite !append_assoc.
  change (":" ++ ?x) with (String ":" x).
  repeat match goal with
         | |- context [?a ++ String ":" ?b] =>
             rewrite (contains_across_separator ":" "s" "uccess" a b)
               by reflexivity
         end.
  cbn [append].
  repeat rewrite (contains_across_separator ":" "s" "uccess") by reflexivity.
  rewrite (contains_needs_first "s" "uccess" (Py.str_int p))
    by apply no_s_in_str_int.
  assert (B : Py.contains "success" (Py.str_bool c) = false)
    by (destruct c; reflexivity).
  rewrite B. cbn [orb]. now rewrite !orb_assoc.
Qed.

(** X5.  [is_success] looks for the text [success] anywhere in the key.
    On the key built by [to_metric] it therefore answers true for every
    success key, and for a failure key it answers true exactly when the
    source, the destination or the protocol contains [success]: such a
    rule has its failures read as successes by both subscribers. *)
Theorem is_success_of_to_metric (s d proto : string) (p : Z) (c : bool)
  (success : Py.value) :
  TrafficRecord.is_success
    (TrafficRecord.to_metric (Py.Str s) (Py.Str d) (Py.Int p) (Py.Str proto)
       (Py.Bool c) success)
  = Py.truth success
    || Py.contains "success" s
    || Py.contains "success" d
    || Py.contains "success" proto.
Proof.
  unfold TrafficRecord.is_success, TrafficRecord.to_metric. cbn [Py.str].
  destruct (Py.truth success); rewrite contains_success_in_key.
  - change (Py.contains "success" "success") with true.
    now rewrite !orb_true_r.
  - change (Py.contains "success" "failure") with false.
    now rewrite orb_false_r.
Qed.

(** ** The metric cache: what a report sends, what a probe adds *)

Lemma set_absent_app {V : Type} (d : list (string * V)) (k : string) (v : V) :
  PyDict.get String.eqb d k = None ->
  PyDict.set String.eqb d k v = (d ++ [(k, v)])%list.
Proof.
  induction d as [|[k' v'] d IH]; cbn [PyDict.get PyDict.set app];
    [reflexivity|].
  destruct (String.eqb k' k); [discriminate|].
  intros G. now rewrite IH.
Qed.

Lemma lookup_first (cache : MetricsCache.t) (k : string) (c : Counter.t) :
  NoDup (PyDict.keys cache) -> In (k, c) cache ->
  MetricsCache.lookup cache k = c.
Proof.
  unfold MetricsCache.lookup, PyDict.keys.
  induction cache as [|[k' c'] cache IH]; intros Nd I; [destruct I|].
  cbn [map fst] in Nd. inversion Nd as [|? ? Nk Nr]; subst.
  cbn [PyDict.get]. destruct I as [E|I].
  - injection E as -> ->. now rewrite String.eqb_refl.
  - destruct (String.eqb_spec k' k) as [->|_]; [|now apply IH].
    exfalso. apply Nk. change k with (fst (k, c)). now apply in_map.
Qed.

(** The loop with nobody else running, as a list computation. *)
Lemma report_loop_quiet_items (keys : list string) :
  forall (cache : MetricsCache.t) (cd : list (string * Z)),
  NoDup keys ->
  (forall k, In k keys -> PyDict.get String.eqb cd k = None) ->
  (forall k, In k keys -> In k (PyDict.keys cache)) ->
  snd (ExchangeReporter.report_loop quiet keys cache cd)
  = (cd ++ filter (fun item => negb (Z.eqb (snd item) 0))
             (map (fun k => (k, amount k cache)) keys))%list.
Proof.
  induction keys as [|key rest IH]; intros cache cd Nd Fresh Present.
  - cbn. now rewrite app_nil_r.
  - inversion Nd as [|? ? Nk Nr]; subst.
    cbn [ExchangeReporter.report_loop map filter snd].
    fold (amount key cache).
    destruct (Z.eqb (amount key cache) 0) eqn:Z0; cbn [negb].
    + apply IH; auto using in_cons.
    + cbn [quiet ExchangeReporter.interfere fold_left].
      rewrite IH.
      * rewrite set_absent_app by (apply Fresh; now left).
        rewrite <- app_assoc. cbn [app]. do 3 f_equal.
        apply map_ext_in. intros k Ik. f_equal.
        rewrite amount_update by (apply Present; now left).
        destruct (String.eqb_spec key k) as [->|_]; [contradiction|].
        reflexivity.
      * exact Nr.
      * intros k Ik. rewrite get_set_string.
        destruct (String.eqb_spec key k) as [->|_]; [contradiction|].
        apply Fresh. now right.
      * intros k Ik. rewrite keys_update. apply Present. now right.
Qed.

(** X6.  A report during which no probe records sends exactly the
    counters that are not at zero, with their counts, in the order in
    which the counters were created; when every counter is at zero it
    sends nothing.  Afterwards every counter is at zero. *)
Theorem quiet_report_sends_nonzero_counts (cache : MetricsCache.t) :
  NoDup (PyDict.keys cache) ->
  snd (ExchangeReporter.report quiet cache)
  = match nonzero_counts cache with
    | [] => None
    | item :: items => Some (item :: items)
    end
  /\ forall key, amount key (fst (ExchangeReporter.report quiet cache)) = 0.
Proof.
  intros Nd. split.
  - unfold ExchangeReporter.report.
    pose proof (report_loop_quiet_items (MetricsCache.dump_metrics cache)
                  cache [] Nd (fun _ _ => eq_refl) (fun _ I => I)) as E.
    destruct (ExchangeReporter.report_loop quiet
                (MetricsCache.dump_metrics cache) cache []) as [c cd].
    cbn [snd app] in E. subst cd.
    assert (F : filter (fun item => negb (Z.eqb (snd item) 0))
                  (map (fun k => (k, amount k cache))
                     (MetricsCache.dump_metrics cache))
                = nonzero_counts cache).
    { unfold nonzero_counts, MetricsCache.dump_metrics, PyDict.keys.
      rewrite map_map. f_equal. apply map_ext_in. intros [k x] I.
      cbn [fst snd]. unfold amount. now rewrite (lookup_first cache k x Nd I). }
    rewrite F. now destruct (nonzero_counts cache).
  - intros key. destruct (report_fst_snd quiet cache) as [F _]. rewrite F.
    pose proof (report_loop_quiet (MetricsCache.dump_metrics cache) cache []
                  Nd (fun _ _ => eq_refl) (fun _ I => I) key) as [A B].
    destruct (in_dec string_dec key (MetricsCache.dump_metrics cache))
      as [I|N].
    + now destruct (A I).
    + destruct (B N) as [B1 _]. rewrite B1. now apply amount_absent.
Qed.

Lemma quiet_report_sends_nonzero_counts_example :
  NoDup (PyDict.keys sample_cache)
  /\ (snd (ExchangeReporter.report quiet sample_cache)
      = match nonzero_counts sample_cache with
        | [] => None
        | item :: items => Some (item :: items)
        end
      /\ forall key,
           amount key (fst (ExchangeReporter.report quiet sample_cache)) = 0).
Proof.
  assert (N : NoDup (PyDict.keys sample_cache)).
  { vm_compute. repeat constructor; simpl; intuition discriminate. }
  split; [exact N|].
  exact (quiet_report_sends_nonzero_counts sample_cache N).
Defined.

Lemma total_set (c : MetricsCache.t) (k : string) (x y : Counter.t) :
  PyDict.get String.eqb c k = Some x ->
  total (PyDict.set String.eqb c k y)
  = total c - Counter.count x + Counter.count y.
Proof.
  unfold total.
  induction c as [|[k' v'] c IH]; cbn [PyDict.get PyDict.set];
    [discriminate|].
  destruct (String.eqb k' k).
  - intros E. injection E as ->. simpl. lia.
  - intros G. simpl. rewrite (IH G). lia.
Qed.

Lemma total_counter (c : MetricsCache.t) (k : string) :
  total (MetricsCache.counter c k) = total c.
Proof.
  unfold MetricsCache.counter, PyDict.mem.
  destruct (PyDict.get String.eqb c k) eqn:G; [reflexivity|].
  rewrite set_absent_app by exact G. unfold total.
  rewrite fold_right_app. cbn. reflexivity.
Qed.

Lemma total_record (self : TCPClient.t) (S : Py.value)
  (cache : MetricsCache.t) :
  total (TCPClient.record self S cache) = total cache + 1.
Proof.
  unfold TCPClient.record, MetricsCache.update.
  pose proof (mem_counter cache (TCPClient.record_metric self S)) as M.
  destruct (PyDict.get String.eqb
              (MetricsCache.counter cache (TCPClient.record_metric self S))
              (TCPClient.record_metric self S)) as [x|] eqn:G; [|congruence].
  rewrite (total_set _ _ x _ G), total_counter.
  unfold Counter.inc, Counter.count. cbn. lia.
Qed.

Lemma keys_record (self : TCPClient.t) (S : Py.value)
  (cache : MetricsCache.t) :
  NoDup (PyDict.keys cache) ->
  NoDup (PyDict.keys (TCPClient.record self S cache)).
Proof.
  intros Nd. unfold TCPClient.record. rewrite keys_update.
  now apply keys_counter.
Qed.


(** ** The record-store subscriber: merging and malformed keys *)

Lemma from_metric_ok (uid : string) (now : Z) (metric : string) :
  count_char ":" metric = 5%nat ->
  exists r, TrafficRecord.from_metric uid now metric = Py.Ok r.
Proof.
  intros C. pose proof (split_length ":" metric) as L. rewrite C in L.
  unfold TrafficRecord.from_metric.
  destruct (Py.split ":" metric) as [|a [|b [|c [|d [|e [|f [|g tl]]]]]]];
    try discriminate L.
  eauto.
Qed.

Lemma from_metric_raises (uid : string) (now : Z) (metric : string) :
  count_char ":" metric <> 5%nat ->
  TrafficRecord.from_metric uid now metric = Py.Raise Py.ValueError.
Proof.
  intros C. pose proof (split_length ":" metric) as L.
  unfold TrafficRecord.from_metric.
  destruct (Py.split ":" metric) as [|a [|b [|c [|d [|e [|f [|g tl]]]]]]];
    try reflexivity.
  exfalso. apply C. cbn in L. congruence.
Qed.

(** X8.  A success key and a failure key of the same tuple are merged
    into one row carrying both counts, whether they arrive in one message
    or in two (the fields being free of [:] and of the text [success]). *)
Theorem handle_merges_success_and_failure (fresh : nat -> string * Z)
  (s d proto : string) (p : Z) (c : bool) (v1 v2 : Z) :
  mentions ":" s = false ->
  mentions ":" d = false ->
  mentions ":" proto = false ->
  Py.contains "success" s = false ->
  Py.contains "success" d = false ->
  Py.contains "success" proto = false ->
  SQLRecorder.handle fresh
    [[(TrafficRecord.to_metric (Py.Str s) (Py.Str d) (Py.Int p)
         (Py.Str proto) (Py.Bool c) (Py.Bool true), v1);
      (TrafficRecord.to_metric (Py.Str s) (Py.Str d) (Py.Int p)
         (Py.Str proto) (Py.Bool c) (Py.Bool false), v2)]]
  = Py.Ok [{| TrafficRecord.id := fst (fresh 0%nat);
              TrafficRecord.source := s;
              TrafficRecord.destination := d;
              TrafficRecord.port := Py.str_int p;
              TrafficRecord.protocol := proto;
              TrafficRecord.success_count := v1;
              TrafficRecord.failure_count := v2;
              TrafficRecord.connected := c;
              TrafficRecord.created := snd (fresh 0%nat) |}]
  /\ SQLRecorder.handle fresh
       [[(TrafficRecord.to_metric (Py.Str s) (Py.Str d) (Py.Int p)
            (Py.Str proto) (Py.Bool c) (Py.Bool false), v2)];
        [(TrafficRecord.to_metric (Py.Str s) (Py.Str d) (Py.Int p)
            (Py.Str proto) (Py.Bool c) (Py.Bool true), v1)]]
     = Py.Ok [{| TrafficRecord.id := fst (fresh 0%nat);
                 TrafficRecord.source := s;
                 TrafficRecord.destination := d;
                 TrafficRecord.port := Py.str_int p;
                 TrafficRecord.protocol := proto;
                 TrafficRecord.success_count := v1;
                 TrafficRecord.failure_count := v2;
                 TrafficRecord.connected := c;
                 TrafficRecord.created := snd (fresh 0%nat) |}].
Proof.
  intros Hs Hd Hp Ss Sd Sp.
  set (key := fun b : bool =>
                TrafficRecord.to_metric (Py.Str s) (Py.Str d) (Py.Int p)
                  (Py.Str proto) (Py.Bool c) (Py.Bool b)).
  set (row := fun (n : nat) (sc fc : Z) =>
                {| TrafficRecord.id := fst (fresh n);
                   TrafficRecord.source := s;
                   TrafficRecord.destination := d;
                   TrafficRecord.port := Py.str_int p;
                   TrafficRecord.protocol := proto;
                   TrafficRecord.success_count := sc;
                   TrafficRecord.failure_count := fc;
                   TrafficRecord.connected := c;
                   TrafficRecord.created := snd (fresh n) |}).
  set (K := TrafficRecord.__str__ (row 0%nat 0 0)).
  assert (Parse : forall n b,
             TrafficRecord.from_metric (fst (fresh n)) (snd (fresh n)) (key b)
             = Py.Ok (row n 0 0)).
  { intros n b. unfold key, TrafficRecord.from_metric, TrafficRecord.to_metric.
    cbn [Py.str Py.truth].
    destruct b; rewrite (split_metric s d proto p c)
      by (assumption || reflexivity); unfold row; now destruct c. }
  assert (Class : forall b, TrafficRecord.is_success (key b) = b).
  { intros b. unfold key, TrafficRecord.is_success, TrafficRecord.to_metric.
    cbn [Py.str Py.truth].
    destruct b; rewrite contains_success_in_key, Ss, Sd, Sp; reflexivity. }
  assert (First : forall b v,
             SQLRecorder.handle_item fresh [] 0%nat (key b, v)
             = Py.Ok [(K, if b then row 0%nat v 0 else row 0%nat 0 v)]).
  { intros b v. unfold SQLRecorder.handle_item. rewrite Parse, Class.
    now destruct b. }
  assert (Next : forall n b sc fc v,
             SQLRecorder.handle_item fresh [(K, row 0%nat sc fc)] n (key b, v)
             = Py.Ok [(K, if b then row 0%nat v fc else row 0%nat sc v)]).
  { intros n b sc fc v. unfold SQLRecorder.handle_item.
    rewrite Parse, Class.
    change (TrafficRecord.__str__ (row n 0 0)) with K.
    cbn [PyDict.get]. rewrite String.eqb_refl.
    destruct b;
      [change (TrafficRecord.__str__
                 (TrafficRecord.with_success_count (row 0%nat sc fc) v))
         with K
      |change (TrafficRecord.__str__
                 (TrafficRecord.with_failure_count (row 0%nat sc fc) v))
         with K];
      cbn [PyDict.set]; now rewrite String.eqb_refl. }
  split; unfold SQLRecorder.handle;
    cbn [SQLRecorder.handle_messages SQLRecorder.handle_items];
    fold (key true); fold (key false).
  - rewrite (First true), (Next 1%nat false). reflexivity.
  - rewrite (First false), (Next 1%nat true). reflexivity.
Qed.

Lemma handle_merges_success_and_failure_example :
  mentions ":" "10.0.0.1" = false
  /\ mentions ":" "10.0.0.2" = false
  /\ mentions ":" "TCP" = false
  /\ Py.contains "success" "10.0.0.1" = false
  /\ Py.contains "success" "10.0.0.2" = false
  /\ Py.contains "success" "TCP" = false
  /\ SQLRecorder.handle sample_fresh
       [[(TrafficRecord.to_metric (Py.Str "10.0.0.1") (Py.Str "10.0.0.2")
            (Py.Int 80) (Py.Str "TCP") (Py.Bool true) (Py.Bool true), 3);
         (TrafficRecord.to_metric (Py.Str "10.0.0.1") (Py.Str "10.0.0.2")
            (Py.Int 80) (Py.Str "TCP") (Py.Bool true) (Py.Bool false), 4)]]
     = Py.Ok [{| TrafficRecord.id := fst (sample_fresh 0%nat);
                 TrafficRecord.source := "10.0.0.1";
                 TrafficRecord.destination := "10.0.0.2";
                 TrafficRecord.port := Py.str_int 80;
                 TrafficRecord.protocol := "TCP";
                 TrafficRecord.success_count := 3;
                 TrafficRecord.failure_count := 4;
                 TrafficRecord.connected := true;
                 TrafficRecord.created := snd (sample_fresh 0%nat) |}].
Proof.
  do 6 (split; [reflexivity|]).
  apply (handle_merges_success_and_failure sample_fresh
           "10.0.0.1" "10.0.0.2" "TCP" 80 true 3 4); reflexivity.
Defined.

Lemma in_set_entry {V : Type} (d : list (string * V)) (k k0 : string)
  (v v0 : V) :
  In (k, v) (PyDict.set String.eqb d k0 v0) ->
  (k, v) = (k0, v0) \/ In (k, v) d.
Proof.
  induction d as [|[k' v'] d IH]; cbn [PyDict.set].
  - intros [E|[]]. now left.
  - destruct (String.eqb_spec k' k0) as [->|N].
    + intros [E|I]; [now left | right; now right].
    + intros [E|I]; [right; now left|].
      destruct (IH I) as [E|I']; [now left | right; now right].
Qed.

Lemma keys_set_nodup {V : Type} (d : list (string * V)) (k : string) (v : V) :
  NoDup (PyDict.keys d) -> NoDup (PyDict.keys (PyDict.set String.eqb d k v)).
Proof.
  intros Nd. destruct (PyDict.get String.eqb d k) eqn:G.
  - rewrite keys_set_present by congruence. exact Nd.
  - rewrite keys_set_absent by exact G.
    apply (NoDup_Add (a := k) (l := PyDict.keys d)).
    + rewrite <- (app_nil_r (PyDict.keys d)) at 1. apply Add_app.
    + split; [exact Nd | now apply get_none_keys].
Qed.

Lemma set_length_le {V : Type} (d : list (string * V)) (k : string) (v : V) :
  (List.length (PyDict.set String.eqb d k v) <= S (List.length d))%nat.
Proof.
  induction d as [|[k' v'] d IH]; cbn [PyDict.set List.length]; [lia|].
  destruct (String.eqb k' k); cbn [List.length]; lia.
Qed.

Section HandleFacts.
Variable fresh : nat -> string * Z.

Lemma handle_item_outcome (m : list (string * TrafficRecord.t)) (n : nat)
  (item : string * Z) :
  keyed_by_text m ->
  match SQLRecorder.handle_item fresh m n item with
  | Py.Ok m' =>
      count_char ":" (fst item) = 5%nat /\ keyed_by_text m'
      /\ (List.length m' <= S (List.length m))%nat
  | Py.Raise e => e = Py.ValueError /\ count_char ":" (fst item) <> 5%nat
  end.
Proof.
  intros [Nd Kt]. destruct item as [metric value].
  unfold SQLRecorder.handle_item. cbn [fst].
  destruct (Nat.eq_dec (count_char ":" metric) 5) as [C|C].
  - destruct (from_metric_ok (fst (fresh n)) (snd (fresh n)) metric C)
      as [r ->].
    set (found := match PyDict.get String.eqb m (TrafficRecord.__str__ r) with
                  | Some f => f
                  | None => r
                  end).
    set (r' := if TrafficRecord.is_success metric
               then TrafficRecord.with_success_count found value
               else TrafficRecord.with_failure_count found value).
    split; [exact C|]. split; [|apply set_length_le].
    split; [now apply keys_set_nodup|].
    intros k x I. apply in_set_entry in I as [E|I]; [|now apply Kt].
    now injection E as -> ->.
  - now rewrite from_metric_raises.
Qed.

Lemma handle_items_outcome (items : SQLRecorder.message) :
  forall (m : list (string * TrafficRecord.t)) (n : nat),
  keyed_by_text m ->
  match SQLRecorder.handle_items fresh m n items with
  | Py.Ok (m', _) =>
      forallb (fun item => Nat.eqb (count_char ":" (fst item)) 5) items = true
      /\ keyed_by_text m'
      /\ (List.length m' <= List.length m + List.length items)%nat
  | Py.Raise e =>
      e = Py.ValueError
      /\ forallb (fun item => Nat.eqb (count_char ":" (fst item)) 5) items
         = false
  end.
Proof.
  induction items as [|item items IH]; intros m n K.
  - cbn. repeat split; try apply K. lia.
  - cbn [SQLRecorder.handle_items forallb List.length].
    pose proof (handle_item_outcome m n item K) as O.
    destruct (SQLRecorder.handle_item fresh m n item) as [m1|e].
    + destruct O as (C & K1 & L1). apply Nat.eqb_eq in C. rewrite C.
      cbn [andb]. specialize (IH m1 (S n) K1).
      destruct (SQLRecorder.handle_items fresh m1 (S n) items) as [[m' n']|e].
      * destruct IH as (F & K' & L'). repeat split; try apply K'; [exact F|].
        lia.
      * exact IH.
    + destruct O as [-> C]. apply Nat.eqb_neq in C. now rewrite C.
Qed.

Lemma handle_messages_outcome (messages : list SQLRecorder.message) :
  forall (m : list (string * TrafficRecord.t)) (n : nat),
  keyed_by_text m ->
  match SQLRecorder.handle_messages fresh m n messages with
  | Py.Ok m' =>
      keys_well_formed messages = true
      /\ keyed_by_text m'
      /\ (List.length m'
          <= List.length m + List.length (concat messages))%nat
  | Py.Raise e => e = Py.ValueError /\ keys_well_formed messages = false
  end.
Proof.
  induction messages as [|message messages IH]; intros m n K.
  - cbn. repeat split; try apply K. lia.
  - cbn [SQLRecorder.handle_messages keys_well_formed forallb concat].
    pose proof (handle_items_outcome message m n K) as O.
    destruct (SQLRecorder.handle_items fresh m n message) as [[m1 n1]|e].
    + destruct O as (F & K1 & L1). rewrite F. cbn [andb].
      specialize (IH m1 n1 K1).
      fold (keys_well_formed messages).
      destruct (SQLRecorder.handle_messages fresh m1 n1 messages) as [m'|e].
      * destruct IH as (F' & K' & L'). repeat split; try apply K'; [exact F'|].
        rewrite length_app. lia.
      * exact IH.
    + destruct O as [-> F]. now rewrite F.
Qed.

End HandleFacts.

(** X9.  [handle] returns normally exactly when every key of the batch
    has five [:]; otherwise it raises [ValueError] and nothing reaches
    the record store.  When it returns, no two rows have the same
    (source, destination, port, protocol, connected) text, and there are
    at most as many rows as the batch has items. *)
Theorem handle_rows_or_value_error (fresh : nat -> string * Z)
  (messages : list SQLRecorder.message) :
  match SQLRecorder.handle fresh messages with
  | Py.Ok rows =>
      keys_well_formed messages = true
      /\ NoDup (map TrafficRecord.__str__ rows)
      /\ (List.length rows <= List.length (concat messages))%nat
  | Py.Raise e => e = Py.ValueError /\ keys_well_formed messages = false
  end.
Proof.
  unfold SQLRecorder.handle.
  pose proof (handle_messages_outcome fresh messages [] 0%nat) as O.
  destruct (SQLRecorder.handle_messages fresh [] 0%nat messages) as [m|e].
  - destruct O as (F & [Nd Kt] & L).
    + split; [constructor | intros k r []].
    + split; [exact F|]. split.
      * unfold PyDict.values. rewrite map_map.
        replace (map (fun x => TrafficRecord.__str__ (snd x)) m)
          with (PyDict.keys m); [exact Nd|].
        unfold PyDict.keys. apply map_ext_in. intros [k r] I.
        cbn [fst snd]. now apply Kt.
      * unfold PyDict.values. rewrite length_map. exact L.
  - apply O. split; [constructor | intros k r []].
Qed.

(** ** The server worker: adding and deleting servers *)

Lemma TrafficServer_same_key_refl `{Py.StrHash} (s : TrafficServer.t) :
  TrafficServer.same_key s s = true.
Proof.
  unfold TrafficServer.same_key. rewrite Z.eqb_refl.
  now apply TrafficServer_eq_identity.
Qed.

Lemma list_contains_false (l : list TrafficServer.t) (s : TrafficServer.t) :
  TrafficServerWorker.list_contains l s = false <->
  ~ In (server_identity s) (map server_identity l).
Proof.
  unfold TrafficServerWorker.list_contains. split.
  - intros E I. apply in_map_iff in I as (e & Ee & Ie).
    assert (T : existsb (fun e => TrafficServer.__eq__ e
                                    (TrafficServer.Instance s)) l = true).
    { apply existsb_exists. exists e. split; [exact Ie|].
      now apply TrafficServer_eq_identity. }
    congruence.
  - intros N.
    destruct (existsb (fun e => TrafficServer.__eq__ e
                                  (TrafficServer.Instance s)) l) eqn:E;
      [|reflexivity].
    apply existsb_exists in E as (e & Ie & Ee).
    apply TrafficServer_eq_identity in Ee. exfalso. apply N.
    rewrite <- Ee. now apply in_map.
Qed.

Lemma list_contains_true (l : list TrafficServer.t) (s : TrafficServer.t) :
  TrafficServerWorker.list_contains l s = true <->
  In (server_identity s) (map server_identity l).
Proof.
  destruct (TrafficServerWorker.list_contains l s) eqn:E.
  - split; [intros _ | reflexivity].
    destruct (in_dec
                (fun a b : string * Z * string =>
                   ltac:(repeat decide equality))
                (server_identity s) (map server_identity l)) as [I|N];
      [exact I|].
    apply list_contains_false in N. congruence.
  - split; [discriminate|]. intros I. apply list_contains_false in E.
    contradiction.
Qed.

Section ServerWorkerMore.
Context `{Py.StrHash}.

Lemma set_absent_any {V : Type} (d : list (TrafficServer.t * V))
  (k : TrafficServer.t) (v : V) :
  PyDict.get TrafficServer.same_key d k = None ->
  PyDict.set TrafficServer.same_key d k v = (d ++ [(k, v)])%list.
Proof.
  induction d as [|[k' v'] d IH]; cbn [PyDict.get PyDict.set app];
    [reflexivity|].
  destruct (TrafficServer.same_key k' k); [discriminate|].
  intros G. now rewrite IH.
Qed.

Lemma get_hosted (self : TrafficServerWorker.t) (s : TrafficServer.t)
  (inst : ServerFactory.instance) :
  worker_ok self ->
  PyDict.get TrafficServer.same_key
    (TrafficServerWorker._running_servers self) s = Some inst ->
  TrafficServerWorker.has_server self s = true.
Proof.
  intros (_ & R & _ & _) G.
  assert (E : exists k, In k (map fst (TrafficServerWorker._running_servers
                                         self))
                        /\ TrafficServer.same_key k s = true).
  { revert G. generalize (TrafficServerWorker._running_servers self).
    induction l as [|[k v] l IH]; cbn [PyDict.get map fst]; [discriminate|].
    destruct (TrafficServer.same_key k s) eqn:S.
    - intros _. exists k. split; [now left | exact S].
    - intros G. destruct (IH G) as (k0 & I0 & S0). exists k0.
      split; [now right | exact S0]. }
  destruct E as (k & I & S).
  apply in_map_iff in I as ([k0 v0] & E0 & I0). cbn [fst] in E0. subst k0.
  apply R in I0. unfold TrafficServerWorker.has_server.
  apply list_contains_true.
  unfold TrafficServer.same_key in S. apply andb_true_iff in S as [_ S].
  apply TrafficServer_eq_identity in S. rewrite <- S. now apply in_map.
Qed.

Lemma create_server_stream (s : TrafficServer.t) :
  is_stream s = true ->
  exists host port tls,
    ServerFactory.create_server s
    = Py.Ok (ServerFactory.AsyncServer host port tls).
Proof.
  unfold is_stream, ServerFactory.create_server. intros S.
  destruct (String.eqb (TrafficServer.protocol s) "TCP"); [eauto|].
  destruct (String.eqb_spec (TrafficServer.protocol s) "UDP") as [E|_].
  - rewrite E in S. discriminate.
  - destruct (String.eqb (TrafficServer.protocol s) "HTTP"); [eauto|].
    destruct (String.eqb (TrafficServer.protocol s) "HTTPS"); [eauto|].
    discriminate.
Qed.

(** Hosting one more server, as one pass of [add_servers] does. *)
Lemma add_one_ok (self : TrafficServerWorker.t) (server : TrafficServer.t) :
  worker_ok self ->
  TrafficServerWorker.list_contains (TrafficServerWorker._servers self) server
  = false ->
  match ServerFactory.create_server server with
  | Py.Raise _ =>
      worker_ok
        {| TrafficServerWorker._uid := TrafficServerWorker._uid self;
           TrafficServerWorker._servers :=
             (TrafficServerWorker._servers self ++ [server])%list;
           TrafficServerWorker._running_servers :=
             TrafficServerWorker._running_servers self |}
  | Py.Ok inst =>
      worker_ok
        {| TrafficServerWorker._uid := TrafficServerWorker._uid self;
           TrafficServerWorker._servers :=
             (TrafficServerWorker._servers self ++ [server])%list;
           TrafficServerWorker._running_servers :=
             PyDict.set TrafficServer.same_key
               (TrafficServerWorker._running_servers self) server inst |}
  end.
Proof.
  intros (Nd & R & L & Nr) C.
  assert (G0 : PyDict.get TrafficServer.same_key
                 (TrafficServerWorker._running_servers self) server = None).
  { destruct (PyDict.get TrafficServer.same_key
                (TrafficServerWorker._running_servers self) server)
      as [inst|] eqn:G; [|reflexivity].
    pose proof (get_hosted self server inst
                  (conj Nd (conj R (conj L Nr))) G) as Hs.
    unfold TrafficServerWorker.has_server in Hs. congruence. }
  apply list_contains_false in C.
  assert (Nd' : NoDup (map server_identity
                         (TrafficServerWorker._servers self ++ [server]))).
  { rewrite map_app. cbn [map].
    apply (NoDup_Add (a := server_identity server)
             (l := map server_identity (TrafficServerWorker._servers self))).
    - rewrite <- (app_nil_r (map server_identity _)) at 1. apply Add_app.
    - now split. }
  destruct (ServerFactory.create_server server) as [inst|e] eqn:Cr.
  - rewrite (set_absent_any _ _ inst G0).
    split; [exact Nd'|]. split; [|split];
      cbn [TrafficServerWorker._servers TrafficServerWorker._running_servers].
    + intros k i I. apply in_or_app.
      apply in_app_or in I as [I|[E|[]]].
      * left. now apply (R k i).
      * injection E as <- _. right. now left.
    + intros s I S. unfold listening.
      cbn [TrafficServerWorker._running_servers].
      rewrite <- (set_absent_any _ _ inst G0).
      apply in_app_or in I as [I|[<-|[]]].
      * rewrite get_set_other.
        -- now apply L.
        -- intros k. apply TrafficServer_same_key_split.
           intros E. apply C. rewrite E. now apply in_map.
        -- unfold TrafficServer.same_key. rewrite TrafficServer_eq_false;
             [apply andb_false_r|].
           intros E. apply C. rewrite E. now apply in_map.
      * rewrite get_set_same by apply TrafficServer_same_key_refl.
        destruct (create_server_stream _ S) as (h & p & t & E).
        rewrite E in Cr. now injection Cr as <-.
    + rewrite !map_app. cbn [map fst].
      apply (NoDup_Add (a := server_identity server)
               (l := map server_identity
                       (map fst (TrafficServerWorker._running_servers self)))).
      * rewrite <- (app_nil_r (map server_identity _)) at 1. apply Add_app.
      * split; [exact Nr|]. intros I. apply C.
        apply in_map_iff in I as (k & Ek & Ik). rewrite <- Ek.
        apply in_map. apply in_map_iff in Ik as ([k0 v0] & E0 & I0).
        cbn [fst] in E0. subst k0. now apply (R k v0).
  - split; [exact Nd'|]. split; [|split];
      cbn [TrafficServerWorker._servers TrafficServerWorker._running_servers].
    + intros k i I. apply in_or_app. left. now apply (R k i).
    + intros s I S. apply in_app_or in I as [I|[<-|[]]].
      * now apply L.
      * destruct (create_server_stream _ S) as (h & p & t & E).
        rewrite E in Cr. discriminate.
    + exact Nr.
Qed.

Lemma add_servers_ok (servers : list TrafficServer.t) :
  forall self : TrafficServerWorker.t,
  worker_ok self ->
  worker_ok (snd (TrafficServerWorker.add_servers self servers)).
Proof.
  induction servers as [|server rest IH]; intros self W; [exact W|].
  cbn [TrafficServerWorker.add_servers].
  destruct (TrafficServerWorker.list_contains
              (TrafficServerWorker._servers self) server) eqn:C;
    cbn [negb]; [now apply IH|].
  pose proof (add_one_ok self server W C) as A.
  cbn [TrafficServerWorker._uid TrafficServerWorker._servers
         TrafficServerWorker._running_servers].
  destruct (ServerFactory.create_server server) as [inst|e];
    [now apply IH | exact A].
Qed.

Lemma init_worker_ok (uid : string) :
  worker_ok (TrafficServerWorker.__init__ uid).
Proof.
  split; [constructor|]. split; [intros k inst []|].
  split; [intros s [] | constructor].
Qed.

Lemma worker_after_ok (uid : string) (batches : list (list TrafficServer.t)) :
  worker_ok (worker_after uid batches).
Proof.
  unfold worker_after. generalize (init_worker_ok uid).
  generalize (TrafficServerWorker.__init__ uid).
  induction batches as [|b batches IH]; intros w W; [exact W|].
  cbn [fold_left]. apply IH. now apply add_servers_ok.
Qed.

(** [add_servers] only ever adds to the list of hosted servers. *)
Lemma add_servers_keeps (servers : list TrafficServer.t) :
  forall (self : TrafficServerWorker.t) (s : TrafficServer.t),
  TrafficServerWorker.has_server self s = true ->
  TrafficServerWorker.has_server
    (snd (TrafficServerWorker.add_servers self servers)) s = true.
Proof.
  unfold TrafficServerWorker.has_server.
  induction servers as [|server rest IH]; intros self s Hs; [exact Hs|].
  cbn [TrafficServerWorker.add_servers].
  assert (Hs' : TrafficServerWorker.list_contains
                  (TrafficServerWorker._servers self ++ [server]) s = true).
  { unfold TrafficServerWorker.list_contains in *. rewrite existsb_app.
    now rewrite Hs. }
  destruct (negb (TrafficServerWorker.list_contains
                    (TrafficServerWorker._servers self) server));
    [|now apply IH].
  cbn [TrafficServerWorker._uid TrafficServerWorker._servers
         TrafficServerWorker._running_servers].
  destruct (ServerFactory.create_server server) as [inst|e];
    [now apply IH | exact Hs'].
Qed.

Lemma add_servers_hosted (servers : list TrafficServer.t) :
  forall self : TrafficServerWorker.t,
  (forall s, In s servers -> TrafficServerWorker.has_server self s = true) ->
  TrafficServerWorker.add_servers self servers = (Py.Ok tt, self).
Proof.
  induction servers as [|server rest IH]; intros self Hs; [reflexivity|].
  cbn [TrafficServerWorker.add_servers].
  unfold TrafficServerWorker.has_server in Hs.
  rewrite (Hs server) by now left. cbn [negb].
  apply IH. intros s I. apply Hs. now right.
Qed.

Lemma add_servers_hosts (servers : list TrafficServer.t) :
  forall self self' : TrafficServerWorker.t,
  TrafficServerWorker.add_servers self servers = (Py.Ok tt, self') ->
  forall s, In s servers -> TrafficServerWorker.has_server self' s = true.
Proof.
  induction servers as [|server rest IH]; intros self self' E s I;
    [destruct I|].
  cbn [TrafficServerWorker.add_servers] in E.
  destruct (TrafficServerWorker.list_contains
              (TrafficServerWorker._servers self) server) eqn:C;
    cbn [negb] in E.
  - destruct I as [<-|I]; [|now apply (IH _ _ E)].
    replace self' with (snd (TrafficServerWorker.add_servers self rest))
      by now rewrite E.
    now apply add_servers_keeps.
  - cbn [TrafficServerWorker._uid TrafficServerWorker._servers
           TrafficServerWorker._running_servers] in E.
    destruct (ServerFactory.create_server server) as [inst|e];
      [|discriminate].
    destruct I as [<-|I]; [|now apply (IH _ _ E)].
    match type of E with
    | TrafficServerWorker.add_servers ?w rest = _ =>
        replace self' with (snd (TrafficServerWorker.add_servers w rest))
          by now rewrite E
    end.
    apply add_servers_keeps. unfold TrafficServerWorker.has_server.
    cbn [TrafficServerWorker._servers].
    apply list_contains_true. rewrite map_app. apply in_or_app. right.
    now left.
Qed.

End ServerWorkerMore.


(** X11.  When [add_servers self servers] returns normally, every server
    of the list is hosted afterwards, every server hosted before still
    is, and repeating the call changes nothing: servers already hosted
    (by endpoint, port and protocol) are skipped. *)
Theorem add_servers_is_idempotent `{Py.StrHash}
  (self self' : TrafficServerWorker.t) (servers : list TrafficServer.t) :
  TrafficServerWorker.add_servers self servers = (Py.Ok tt, self') ->
  (forall s, In s servers -> TrafficServerWorker.has_server self' s = true)
  /\ (forall s, TrafficServerWorker.has_server self s = true ->
                TrafficServerWorker.has_server self' s = true)
  /\ TrafficServerWorker.add_servers self' servers = (Py.Ok tt, self').
Proof.
  intros E.
  pose proof (add_servers_hosts servers self self' E) as Hs.
  split; [exact Hs|]. split.
  - intros s Hb.
    replace self' with (snd (TrafficServerWorker.add_servers self servers))
      by now rewrite E.
    now apply add_servers_keeps.
  - now apply add_servers_hosted.
Qed.

Lemma add_servers_is_idempotent_example :
  @TrafficServerWorker.add_servers length_hash
    (TrafficServerWorker.__init__ "w0")
    [tcp_server "s1" 80 true; tcp_server "s2" 81 true]
  = (Py.Ok tt, sample_server_worker)
  /\ ((forall s, In s [tcp_server "s1" 80 true; tcp_server "s2" 81 true] ->
         TrafficServerWorker.has_server sample_server_worker s = true)
      /\ (forall s,
            TrafficServerWorker.has_server
              (TrafficServerWorker.__init__ "w0") s = true ->
            TrafficServerWorker.has_server sample_server_worker s = true)
      /\ @TrafficServerWorker.add_servers length_hash sample_server_worker
           [tcp_server "s1" 80 true; tcp_server "s2" 81 true]
         = (Py.Ok tt, sample_server_worker)).
Proof.
  assert (E : @TrafficServerWorker.add_servers length_hash
                (TrafficServerWorker.__init__ "w0")
                [tcp_server "s1" 80 true; tcp_server "s2" 81 true]
              = (Py.Ok tt, sample_server_worker))
    by (vm_compute; reflexivity).
  split; [exact E|].
  exact (@add_servers_is_idempotent length_hash _ _ _ E).
Defined.

Section ServerWorkerDelete.
Context `{Py.StrHash}.

Lemma del_split {V : Type} (d d' : list (TrafficServer.t * V))
  (k : TrafficServer.t) :
  PyDict.del TrafficServer.same_key d k = Some d' ->
  exists l1 k' v l2,
    d = (l1 ++ (k', v) :: l2)%list /\ d' = (l1 ++ l2)%list
    /\ TrafficServer.same_key k' k = true.
Proof.
  revert d'. induction d as [|[k0 v0] d IH]; cbn [PyDict.del]; intros d' E;
    [discriminate|].
  destruct (TrafficServer.same_key k0 k) eqn:S.
  - injection E as <-. now exists [], k0, v0, d.
  - destruct (PyDict.del TrafficServer.same_key d k) as [d''|];
      [|discriminate].
    injection E as <-.
    destruct (IH d'' eq_refl) as (l1 & k' & v & l2 & -> & -> & S').
    now exists ((k0, v0) :: l1), k', v, l2.
Qed.

Lemma get_none_all {V : Type} (d : list (TrafficServer.t * V))
  (k0 : TrafficServer.t) :
  (forall k, In k (map fst d) -> TrafficServer.same_key k k0 = false) ->
  PyDict.get TrafficServer.same_key d k0 = None.
Proof.
  induction d as [|[k v] d IH]; cbn [PyDict.get map fst]; intros A;
    [reflexivity|].
  rewrite (A k) by now left. apply IH. intros k' I. apply A. now right.
Qed.

Lemma delete_servers_single (self : TrafficServerWorker.t)
  (s : TrafficServer.t) :
  TrafficServerWorker.delete_servers self [s]
  = match TrafficServerWorker.stop_and_remove self s with
    | (Py.Ok _, self') => (Py.Ok tt, self')
    | (Py.Raise e, self') => (Py.Raise e, self')
    end.
Proof.
  unfold TrafficServerWorker.delete_servers.
  cbn [TrafficServerWorker.delete_servers_loop].
  assert (C : TrafficServerWorker.list_contains [s] s = true).
  { apply list_contains_true. now left. }
  rewrite C.
  now destruct (TrafficServerWorker.stop_and_remove self s) as [[[]|e] w].
Qed.

Lemma not_hosted_not_running (self : TrafficServerWorker.t)
  (s : TrafficServer.t) :
  worker_ok self ->
  TrafficServerWorker.has_server self s = false ->
  PyDict.get TrafficServer.same_key
    (TrafficServerWorker._running_servers self) s = None.
Proof.
  intros W N.
  destruct (PyDict.get TrafficServer.same_key
              (TrafficServerWorker._running_servers self) s) as [inst|] eqn:G;
    [|reflexivity].
  pose proof (get_hosted self s inst W G). congruence.
Qed.

(** Stopping and removing the hosted server at a given position. *)
Lemma stop_and_remove_at (self : TrafficServerWorker.t)
  (kept rest : list TrafficServer.t) (x : TrafficServer.t) :
  worker_ok self ->
  TrafficServerWorker._servers self = (kept ++ x :: rest)%list ->
  listening self x = true ->
  exists self',
    TrafficServerWorker.stop_and_remove self x = (Py.Ok tt, self')
    /\ TrafficServerWorker._servers self' = (kept ++ rest)%list
    /\ worker_ok self'
    /\ listening self' x = false.
Proof.
  intros (Nd & R & L & Nr) Es Lx.
  rewrite Es, map_app in Nd. cbn [map] in Nd.
  pose proof (NoDup_remove_2 _ _ _ Nd) as Nx.
  pose proof (NoDup_remove_1 _ _ _ Nd) as Nd1.
  unfold listening in Lx.
  destruct (PyDict.get TrafficServer.same_key
              (TrafficServerWorker._running_servers self) x)
    as [[host port tls|]|] eqn:G; try discriminate.
  destruct (del_of_get _ _ _ _ G) as [d D].
  destruct (del_split _ _ _ D) as (l1 & k' & v & l2 & Ed & Ed' & Sk).
  assert (Ik : server_identity k' = server_identity x).
  { unfold TrafficServer.same_key in Sk. apply andb_true_iff in Sk as [_ Sk].
    now apply TrafficServer_eq_identity. }
  rewrite Ed, !map_app in Nr. cbn [map fst] in Nr.
  pose proof (NoDup_remove_2 _ _ _ Nr) as Nk.
  pose proof (NoDup_remove_1 _ _ _ Nr) as Nr1.
  unfold TrafficServerWorker.stop_and_remove, TrafficServerWorker._stop_server.
  rewrite G, D. cbn [TrafficServerWorker._servers]. rewrite Es.
  rewrite list_remove_middle
    by (intros I; apply Nx, in_or_app; now left).
  eexists. split; [reflexivity|]. split; [reflexivity|].
  assert (Gx : PyDict.get TrafficServer.same_key d x = None).
  { apply get_none_all. intros k I. subst d.
    unfold TrafficServer.same_key. rewrite TrafficServer_eq_false;
      [apply andb_false_r|].
    intros E. apply Nk. rewrite Ik, <- E, <- !map_app. now apply in_map. }
  split; [|unfold listening; cbn; now rewrite Gx].
  split; [cbn [TrafficServerWorker._servers]; now rewrite map_app|].
  cbn [TrafficServerWorker._servers TrafficServerWorker._running_servers].
  split; [|split].
  - intros k i I.
    assert (I0 : In (k, i) (TrafficServerWorker._running_servers self)).
    { rewrite Ed. subst d. apply in_or_app.
      apply in_app_or in I as [I|I]; [now left | right; now right]. }
    apply R in I0. rewrite Es in I0.
    apply in_app_or in I0 as [I0|[E|I0]]; apply in_or_app; auto.
    subst k. exfalso. apply Nk. rewrite Ik, <- !map_app.
    apply in_map. subst d. change x with (fst (x, i)). now apply in_map.
  - intros s I S. unfold listening.
    cbn [TrafficServerWorker._running_servers].
    rewrite (get_del_other TrafficServer.same_key
               (TrafficServerWorker._running_servers self) d x s);
      [|intros k; apply TrafficServer_same_key_split|exact D].
    + apply L; [|exact S]. rewrite Es.
      apply in_app_or in I as [I|I]; apply in_or_app; auto.
      right. now right.
    + intros E. apply Nx. rewrite E, <- map_app. now apply in_map.
  - subst d. now rewrite !map_app.
Qed.

End ServerWorkerDelete.

(** X12.  A hosted stream server is stopped and removed by
    [delete_servers]: for a server [x] of the worker with a live
    listener, [delete_servers self [x]] returns normally, the other
    servers keep their order, [x] is no longer hosted nor listening, the
    count drops by one, and the worker is still in its regular state. *)
Theorem delete_servers_removes_hosted_server `{Py.StrHash}
  (self : TrafficServerWorker.t) (kept rest : list TrafficServer.t)
  (x : TrafficServer.t) :
  worker_ok self ->
  TrafficServerWorker._servers self = (kept ++ x :: rest)%list ->
  listening self x = true ->
  exists self',
    TrafficServerWorker.delete_servers self [x] = (Py.Ok tt, self')
    /\ TrafficServerWorker._servers self' = (kept ++ rest)%list
    /\ TrafficServerWorker.has_server self' x = false
    /\ listening self' x = false
    /\ TrafficServerWorker.get_server_count self'
       = TrafficServerWorker.get_server_count self - 1
    /\ worker_ok self'.
Proof.
  intros W Es Lx.
  destruct (stop_and_remove_at self kept rest x W Es Lx)
    as (self' & R & Es' & W' & Lx').
  exists self'. rewrite delete_servers_single, R.
  split; [reflexivity|]. split; [exact Es'|]. split; [|split; [exact Lx'|]].
  - apply list_contains_false. rewrite Es'.
    destruct W as (Nd & _). rewrite Es, map_app in Nd. cbn [map] in Nd.
    rewrite map_app. exact (NoDup_remove_2 _ _ _ Nd).
  - split; [|exact W'].
    unfold TrafficServerWorker.get_server_count.
    rewrite Es, Es', !length_app. cbn [List.length]. lia.
Qed.

Lemma sample_server_worker_ok : @worker_ok length_hash sample_server_worker.
Proof.
  exact (@worker_after_ok length_hash "w0"
           [[tcp_server "s1" 80 true; tcp_server "s2" 81 true]]).
Qed.

Lemma delete_servers_removes_hosted_server_example :
  @worker_ok length_hash sample_server_worker
  /\ TrafficServerWorker._servers sample_server_worker
     = ([] ++ tcp_server "s1" 80 true :: [tcp_server "s2" 81 true])%list
  /\ @listening length_hash sample_server_worker (tcp_server "s1" 80 true)
     = true
  /\ exists self',
       @TrafficServerWorker.delete_servers length_hash sample_server_worker
         [tcp_server "s1" 80 true] = (Py.Ok tt, self')
       /\ TrafficServerWorker._servers self'
          = ([] ++ [tcp_server "s2" 81 true])%list
       /\ TrafficServerWorker.has_server self' (tcp_server "s1" 80 true)
          = false
       /\ @listening length_hash self' (tcp_server "s1" 80 true) = false
       /\ TrafficServerWorker.get_server_count self'
          = TrafficServerWorker.get_server_count sample_server_worker - 1
       /\ @worker_ok length_hash self'.
Proof.
  split; [exact sample_server_worker_ok|]. split; [reflexivity|].
  split; [reflexivity|].
  exact (@delete_servers_removes_hosted_server length_hash
           sample_server_worker [] [tcp_server "s2" 81 true]
           (tcp_server "s1" 80 true) sample_server_worker_ok
           eq_refl eq_refl).
Defined.

Section ServerWorkerEdge.
Context `{Py.StrHash}.

Lemma create_server_unknown (s : TrafficServer.t) :
  is_known s = false ->
  ServerFactory.create_server s = Py.Raise Py.TypeError.
Proof.
  unfold is_known, is_stream, ServerFactory.create_server. intros K.
  apply orb_false_iff in K as [K U].
  apply orb_false_iff in K as [K S]. apply orb_false_iff in K as [T P].
  now rewrite T, U, P, S.
Qed.

Lemma nodup_map_inj {A B : Type} (f : A -> B) (l : list A) (a b : A) :
  NoDup (map f l) -> In a l -> In b l -> f a = f b -> a = b.
Proof.
  induction l as [|x l IH]; cbn [map]; intros N Ia Ib E; [contradiction|].
  inversion N as [|? ? Nx Nl]; subst.
  destruct Ia as [->|Ia], Ib as [->|Ib]; auto.
  - exfalso. apply Nx. rewrite E. now apply in_map.
  - exfalso. apply Nx. rewrite <- E. now apply in_map.
Qed.

Lemma delete_servers_key_error (self : TrafficServerWorker.t)
  (s : TrafficServer.t) (more : list TrafficServer.t) :
  PyDict.get TrafficServer.same_key
    (TrafficServerWorker._running_servers self) s = None ->
  TrafficServerWorker.delete_servers self (s :: more)
  = (Py.Raise Py.KeyError, self).
Proof.
  intros G. unfold TrafficServerWorker.delete_servers.
  cbn [TrafficServerWorker.delete_servers_loop].
  assert (C : TrafficServerWorker.list_contains (s :: more) s = true).
  { apply list_contains_true. now left. }
  rewrite C.
  unfold TrafficServerWorker.stop_and_remove, TrafficServerWorker._stop_server.
  now rewrite G.
Qed.

End ServerWorkerEdge.

(** X13.  A server whose protocol the factory does not know (none of
    TCP, UDP, HTTP, HTTPS) makes [add_servers] raise [TypeError] after
    the server has been appended to the list: it is then hosted and
    counted but has no running instance, the rest of the batch is not
    looked at, adding it again does nothing, and deleting it raises
    [KeyError] leaving it listed. *)
Theorem add_servers_unknown_protocol `{Py.StrHash}
  (self : TrafficServerWorker.t) (s : TrafficServer.t)
  (rest : list TrafficServer.t) :
  worker_ok self ->
  is_known s = false ->
  TrafficServerWorker.has_server self s = false ->
  let self' :=
    {| TrafficServerWorker._uid := TrafficServerWorker._uid self;
       TrafficServerWorker._servers :=
         (TrafficServerWorker._servers self ++ [s])%list;
       TrafficServerWorker._running_servers :=
         TrafficServerWorker._running_servers self |} in
  TrafficServerWorker.add_servers self (s :: rest)
  = (Py.Raise Py.TypeError, self')
  /\ TrafficServerWorker.has_server self' s = true
  /\ TrafficServerWorker.get_server_count self'
     = TrafficServerWorker.get_server_count self + 1
  /\ TrafficServerWorker.add_servers self' [s] = (Py.Ok tt, self')
  /\ TrafficServerWorker.delete_servers self' [s]
     = (Py.Raise Py.KeyError, self').
Proof.
  intros W K N self'.
  assert (Hs : TrafficServerWorker.has_server self' s = true).
  { apply list_contains_true. subst self'.
    cbn [TrafficServerWorker._servers]. rewrite map_app.
    apply in_or_app. right. now left. }
  split; [|split; [exact Hs|split; [|split]]].
  - cbn [TrafficServerWorker.add_servers].
    unfold TrafficServerWorker.has_server in N. rewrite N.
    cbn [negb]. now rewrite (create_server_unknown s K).
  - unfold TrafficServerWorker.get_server_count. subst self'.
    cbn [TrafficServerWorker._servers]. rewrite length_app.
    cbn [List.length]. lia.
  - apply add_servers_hosted. intros s0 [<-|[]]. exact Hs.
  - apply delete_servers_key_error.
    exact (not_hosted_not_running self s W N).
Qed.

Lemma add_servers_unknown_protocol_example :
  @worker_ok length_hash sample_server_worker
  /\ is_known (proto_server "SCTP" 90) = false
  /\ TrafficServerWorker.has_server sample_server_worker
       (proto_server "SCTP" 90) = false
  /\ let self' :=
       {| TrafficServerWorker._uid :=
            TrafficServerWorker._uid sample_server_worker;
          TrafficServerWorker._servers :=
            (TrafficServerWorker._servers sample_server_worker
             ++ [proto_server "SCTP" 90])%list;
          TrafficServerWorker._running_servers :=
            TrafficServerWorker._running_servers sample_server_worker |} in
     @TrafficServerWorker.add_servers length_hash sample_server_worker
       [proto_server "SCTP" 90; tcp_server "s3" 82 true]
     = (Py.Raise Py.TypeError, self')
     /\ TrafficServerWorker.has_server self' (proto_server "SCTP" 90) = true
     /\ TrafficServerWorker.get_server_count self'
        = TrafficServerWorker.get_server_count sample_server_worker + 1
     /\ @TrafficServerWorker.add_servers length_hash self'
          [proto_server "SCTP" 90] = (Py.Ok tt, self')
     /\ @TrafficServerWorker.delete_servers length_hash self'
          [proto_server "SCTP" 90] = (Py.Raise Py.KeyError, self').
Proof.
  split; [exact sample_server_worker_ok|]. split; [reflexivity|].
  split; [reflexivity|].
  exact (@add_servers_unknown_protocol length_hash sample_server_worker
           (proto_server "SCTP" 90) [tcp_server "s3" 82 true]
           sample_server_worker_ok eq_refl eq_refl).
Defined.

(** X14.  A UDP server can be added but not deleted: [add_servers]
    stores the datagram endpoint, and [delete_servers] on it raises
    [AttributeError] (the endpoint pair has no [close]) before anything
    is removed, so the server stays hosted with its endpoint. *)
Theorem udp_server_cannot_be_deleted `{Py.StrHash}
  (self : TrafficServerWorker.t) (s : TrafficServer.t)
  (more : list TrafficServer.t) :
  TrafficServer.protocol s = "UDP" ->
  TrafficServerWorker.has_server self s = false ->
  exists self',
    TrafficServerWorker.add_servers self [s] = (Py.Ok tt, self')
    /\ TrafficServerWorker.has_server self' s = true
    /\ PyDict.get TrafficServer.same_key
         (TrafficServerWorker._running_servers self') s
       = Some (ServerFactory.DatagramEndpoint (TrafficServer.endpoint s)
                 (TrafficServer.port s))
    /\ TrafficServerWorker.delete_servers self' (s :: more)
       = (Py.Raise Py.AttributeError, self').
Proof.
  intros P N.
  cbn [TrafficServerWorker.add_servers].
  unfold TrafficServerWorker.has_server in N. rewrite N. cbn [negb].
  unfold ServerFactory.create_server. rewrite P.
  cbn [String.eqb Ascii.eqb Bool.eqb andb].
  cbn [TrafficServerWorker._uid TrafficServerWorker._servers
       TrafficServerWorker._running_servers].
  eexists. split; [reflexivity|].
  assert (G : PyDict.get TrafficServer.same_key
                (PyDict.set TrafficServer.same_key
                   (TrafficServerWorker._running_servers self) s
                   (ServerFactory.DatagramEndpoint (TrafficServer.endpoint s)
                      (TrafficServer.port s))) s
              = Some (ServerFactory.DatagramEndpoint (TrafficServer.endpoint s)
                        (TrafficServer.port s))).
  { apply get_set_same, TrafficServer_same_key_refl. }
  split; [|split; [exact G|]].
  - apply list_contains_true. cbn [TrafficServerWorker._servers].
    rewrite map_app. apply in_or_app. right. now left.
  - unfold TrafficServerWorker.delete_servers.
    cbn [TrafficServerWorker.delete_servers_loop].
    assert (C : TrafficServerWorker.list_contains (s :: more) s = true).
    { apply list_contains_true. now left. }
    rewrite C.
    unfold TrafficServerWorker.stop_and_remove,
      TrafficServerWorker._stop_server.
    cbn [TrafficServerWorker._running_servers]. now rewrite G.
Qed.

Lemma udp_server_cannot_be_deleted_example :
  TrafficServer.protocol (proto_server "UDP" 53) = "UDP"
  /\ TrafficServerWorker.has_server sample_server_worker
       (proto_server "UDP" 53) = false
  /\ exists self',
       @TrafficServerWorker.add_servers length_hash sample_server_worker
         [proto_server "UDP" 53] = (Py.Ok tt, self')
       /\ TrafficServerWorker.has_server self' (proto_server "UDP" 53) = true
       /\ PyDict.get (@TrafficServer.same_key length_hash)
            (TrafficServerWorker._running_servers self')
            (proto_server "UDP" 53)
          = Some (ServerFactory.DatagramEndpoint
                    (TrafficServer.endpoint (proto_server "UDP" 53))
                    (TrafficServer.port (proto_server "UDP" 53)))
       /\ @TrafficServerWorker.delete_servers length_hash self'
            (proto_server "UDP" 53 :: [])
          = (Py.Raise Py.AttributeError, self').
Proof.
  split; [reflexivity|]. split; [reflexivity|].
  exact (@udp_server_cannot_be_deleted length_hash sample_server_worker
           (proto_server "UDP" 53) [] eq_refl eq_refl).
Defined.

(** X15.  Deleting a server the worker does not host raises [KeyError]
    at the first such server and changes nothing, whatever follows it
    in the argument. *)
Theorem delete_servers_not_hosted_raises `{Py.StrHash}
  (self : TrafficServerWorker.t) (s : TrafficServer.t)
  (more : list TrafficServer.t) :
  worker_ok self ->
  TrafficServerWorker.has_server self s = false ->
  TrafficServerWorker.delete_servers self (s :: more)
  = (Py.Raise Py.KeyError, self).
Proof.
  intros W N. apply delete_servers_key_error.
  exact (not_hosted_not_running self s W N).
Qed.

Lemma delete_servers_not_hosted_raises_example :
  @worker_ok length_hash sample_server_worker
  /\ TrafficServerWorker.has_server sample_server_worker
       (tcp_server "s9" 99 true) = false
  /\ @TrafficServerWorker.delete_servers length_hash sample_server_worker
       (tcp_server "s9" 99 true :: [tcp_server "s1" 80 true])
     = (Py.Raise Py.KeyError, sample_server_worker).
Proof.
  split; [exact sample_server_worker_ok|]. split; [reflexivity|].
  exact (@delete_servers_not_hosted_raises length_hash sample_server_worker
           (tcp_server "s9" 99 true) [tcp_server "s1" 80 true]
           sample_server_worker_ok eq_refl).
Defined.

(** X16.  Membership and the running-server dictionary disagree on a
    server that equals a hosted one but hashes differently (its text,
    which carries [enabled], differs): [has_server] answers [True] for
    it, yet [delete_servers] raises [KeyError] and removes nothing. *)
Theorem delete_servers_misses_rehashed_server `{Py.StrHash}
  (self : TrafficServerWorker.t) (x s : TrafficServer.t)
  (more : list TrafficServer.t) :
  worker_ok self ->
  In x (TrafficServerWorker._servers self) ->
  TrafficServer.__eq__ x (TrafficServer.Instance s) = true ->
  TrafficServer.__hash__ x <> TrafficServer.__hash__ s ->
  TrafficServerWorker.has_server self s = true
  /\ TrafficServerWorker.delete_servers self (s :: more)
     = (Py.Raise Py.KeyError, self).
Proof.
  intros (Nd & R & _ & _) Ix E Nh.
  apply TrafficServer_eq_identity in E.
  split.
  - apply list_contains_true. rewrite <- E. now apply in_map.
  - apply delete_servers_key_error, get_none_all. intros k Ik.
    apply in_map_iff in Ik as [[k0 inst] [<- Ik]]. cbn [fst].
    apply R in Ik. unfold TrafficServer.same_key.
    destruct (TrafficServer.__eq__ k0 (TrafficServer.Instance s)) eqn:Ek;
      [|apply andb_false_r].
    apply TrafficServer_eq_identity in Ek.
    assert (k0 = x) as ->.
    { apply (nodup_map_inj server_identity _ _ _ Nd Ik Ix). congruence. }
    rewrite andb_true_r. now apply Z.eqb_neq.
Qed.

Lemma delete_servers_misses_rehashed_server_example :
  @worker_ok length_hash sample_server_worker
  /\ In (tcp_server "s1" 80 true)
       (TrafficServerWorker._servers sample_server_worker)
  /\ TrafficServer.__eq__ (tcp_server "s1" 80 true)
       (TrafficServer.Instance (tcp_server "s1" 80 false)) = true
  /\ @TrafficServer.__hash__ length_hash (tcp_server "s1" 80 true)
     <> @TrafficServer.__hash__ length_hash (tcp_server "s1" 80 false)
  /\ TrafficServerWorker.has_server sample_server_worker
       (tcp_server "s1" 80 false) = true
  /\ @TrafficServerWorker.delete_servers length_hash sample_server_worker
       (tcp_server "s1" 80 false :: [])
     = (Py.Raise Py.KeyError, sample_server_worker).
Proof.
  assert (I : In (tcp_server "s1" 80 true)
                (TrafficServerWorker._servers sample_server_worker))
    by (now left).
  assert (N : @TrafficServer.__hash__ length_hash (tcp_server "s1" 80 true)
              <> @TrafficServer.__hash__ length_hash
                   (tcp_server "s1" 80 false))
    by (vm_compute; discriminate).
  split; [exact sample_server_worker_ok|]. split; [exact I|].
  split; [reflexivity|]. split; [exact N|].
  exact (@delete_servers_misses_rehashed_server length_hash
           sample_server_worker (tcp_server "s1" 80 true)
           (tcp_server "s1" 80 false) [] sample_server_worker_ok I
           eq_refl N).
Defined.

Section ServerWorkerDeleteMany.
Context `{Py.StrHash}.

Lemma delete_servers_loop_all (servers : list TrafficServer.t) :
  forall (todo : list TrafficServer.t) (self : TrafficServerWorker.t),
  worker_ok self ->
  incl todo servers ->
  NoDup todo ->
  (forall s, In s todo ->
     In s (TrafficServerWorker._servers self) /\ is_stream s = true) ->
  exists self',
    TrafficServerWorker.delete_servers_loop self servers todo
    = (Py.Ok tt, self')
    /\ worker_ok self'
    /\ (forall s, In s (TrafficServerWorker._servers self') <->
          In s (TrafficServerWorker._servers self) /\ ~ In s todo)
    /\ (List.length (TrafficServerWorker._servers self')
        + List.length todo
        = List.length (TrafficServerWorker._servers self))%nat.
Proof.
  induction todo as [|x todo IH]; intros self W Inc Nd A.
  - exists self. split; [reflexivity|]. split; [exact W|]. split.
    + intros s. cbn [In]. tauto.
    + cbn [List.length]. lia.
  - cbn [TrafficServerWorker.delete_servers_loop].
    assert (C : TrafficServerWorker.list_contains servers x = true).
    { apply list_contains_true, in_map, Inc. now left. }
    rewrite C.
    destruct (A x (or_introl eq_refl)) as [Ix Sx].
    destruct (in_split _ _ Ix) as (kept & rest & Es).
    assert (Lx : listening self x = true).
    { destruct W as (_ & _ & L & _). now apply L. }
    destruct (stop_and_remove_at self kept rest x W Es Lx)
      as (self1 & R1 & Es1 & W1 & _).
    rewrite R1.
    inversion Nd as [|? ? Nx Nt]; subst.
    assert (Keep : forall s, s <> x ->
              (In s (kept ++ rest) <-> In s (kept ++ x :: rest))).
    { intros s D. rewrite !in_app_iff. cbn [In]. intuition congruence. }
    assert (Out : ~ In x (kept ++ rest)).
    { destruct W as (N0 & _). rewrite Es, map_app in N0. cbn [map] in N0.
      intros I. apply (NoDup_remove_2 _ _ _ N0). rewrite <- map_app.
      now apply in_map. }
    destruct (IH self1 W1) as (self' & R & W' & M & Len).
    + intros s I. apply Inc. now right.
    + exact Nt.
    + intros s I. destruct (A s (or_intror I)) as [Is Ss]. split; [|exact Ss].
      rewrite Es1. apply Keep; [intros ->; contradiction|]. now rewrite <- Es.
    + exists self'. split; [exact R|]. split; [exact W'|]. split.
      * intros s. rewrite M, Es1, Es. cbn [In]. split.
        -- intros [I Ns]. split.
           ++ apply Keep; [intros ->; contradiction | exact I].
           ++ intros [<-|I']; contradiction.
        -- intros [I Ns]. split; [|tauto].
           apply Keep; [intros ->; apply Ns; now left | exact I].
      * rewrite Es1 in Len. rewrite Es. rewrite length_app in *.
        cbn [List.length]. lia.
Qed.

End ServerWorkerDeleteMany.

(** X17.  [delete_servers] given distinct hosted servers with stream
    protocols removes exactly those: it returns normally, a server is
    hosted afterwards just when it was hosted before and was not in the
    argument, the count drops by the length of the argument, and the
    worker stays in its regular state.  In particular a copy of the
    whole list empties the worker, which [delete_all_servers] does not. *)
Theorem delete_servers_removes_exactly `{Py.StrHash}
  (self : TrafficServerWorker.t) (servers : list TrafficServer.t) :
  worker_ok self ->
  NoDup servers ->
  (forall s, In s servers ->
     In s (TrafficServerWorker._servers self) /\ is_stream s = true) ->
  exists self',
    TrafficServerWorker.delete_servers self servers = (Py.Ok tt, self')
    /\ worker_ok self'
    /\ (forall s, In s (TrafficServerWorker._servers self') <->
          In s (TrafficServerWorker._servers self) /\ ~ In s servers)
    /\ TrafficServerWorker.get_server_count self'
       = TrafficServerWorker.get_server_count self
         - Z.of_nat (List.length servers).
Proof.
  intros W Nd A.
  destruct (delete_servers_loop_all servers servers self W
              (incl_refl _) Nd A) as (self' & R & W' & M & Len).
  exists self'. split; [exact R|]. split; [exact W'|]. split; [exact M|].
  unfold TrafficServerWorker.get_server_count. lia.
Qed.

Lemma delete_servers_removes_exactly_example :
  @worker_ok length_hash sample_server_worker
  /\ NoDup (TrafficServerWorker._servers sample_server_worker)
  /\ (forall s, In s (TrafficServerWorker._servers sample_server_worker) ->
        In s (TrafficServerWorker._servers sample_server_worker)
        /\ is_stream s = true)
  /\ exists self',
       @TrafficServerWorker.delete_servers length_hash sample_server_worker
         (TrafficServerWorker._servers sample_server_worker)
       = (Py.Ok tt, self')
       /\ @worker_ok length_hash self'
       /\ (forall s, In s (TrafficServerWorker._servers self') <->
             In s (TrafficServerWorker._servers sample_server_worker)
             /\ ~ In s (TrafficServerWorker._servers sample_server_worker))
       /\ TrafficServerWorker.get_server_count self'
          = TrafficServerWorker.get_server_count sample_server_worker
            - Z.of_nat (List.length
                          (TrafficServerWorker._servers sample_server_worker)).
Proof.
  assert (Nd : NoDup (TrafficServerWorker._servers sample_server_worker)).
  { apply (NoDup_map_inv server_identity).
    exact (proj1 sample_server_worker_ok). }
  assert (A : forall s,
            In s (TrafficServerWorker._servers sample_server_worker) ->
            In s (TrafficServerWorker._servers sample_server_worker)
            /\ is_stream s = true).
  { intros s I. split; [exact I|].
    destruct I as [<-|[<-|[]]]; reflexivity. }
  split; [exact sample_server_worker_ok|]. split; [exact Nd|].
  split; [exact A|].
  exact (@delete_servers_removes_exactly length_hash sample_server_worker
           (TrafficServerWorker._servers sample_server_worker)
           sample_server_worker_ok Nd A).
Defined.

(** ** The traffic thread of a client worker *)

Section TrafficThreadFacts.
Context `{Py.StrHash}.

Lemma close_is_settle (g : TrafficRuleCollection.generator)
  (c : TrafficRuleCollection.t) :
  TrafficGenThread.close g c = settle g c.
Proof. reflexivity. Qed.

(** On a collection in its regular state the generator never lets an
    exception through, and what it hands back keeps the index. *)
Lemma next_regular (g : TrafficRuleCollection.generator)
  (c : TrafficRuleCollection.t) :
  List.length (TrafficRuleCollection._rules_map c)
  = List.length (TrafficRuleCollection._rules c) ->
  exists r g' c',
    TrafficRuleCollection.next g c = (Py.Ok r, g', c')
    /\ TrafficRuleCollection._rules_map c'
       = TrafficRuleCollection._rules_map c
    /\ TrafficRuleCollection._rules_map (TrafficGenThread.close g' c')
       = TrafficRuleCollection._rules_map c.
Proof.
  intros L.
  assert (F : forall item,
            List.length (TrafficRuleCollection._rules_map
                           (TrafficRuleCollection.rr_finally item c))
            = List.length (TrafficRuleCollection._rules
                             (TrafficRuleCollection.rr_finally item c))
            /\ TrafficRuleCollection._rules_map
                 (TrafficRuleCollection.rr_finally item c)
               = TrafficRuleCollection._rules_map c).
  { intros item. unfold TrafficRuleCollection.rr_finally.
    destruct (PyDict.mem _ _ item); [|auto].
    cbn [TrafficRuleCollection._rules_map TrafficRuleCollection._rules].
    split; [|reflexivity]. rewrite L.
    destruct (TrafficRuleCollection._rules c); [reflexivity|].
    cbn [TrafficRuleCollection.rotate_left]. rewrite length_app.
    cbn [List.length]. lia. }
  assert (R : forall last c0,
            List.length (TrafficRuleCollection._rules_map c0)
            = List.length (TrafficRuleCollection._rules c0) ->
            exists r g' c',
              TrafficRuleCollection.rr_loop last c0 = (Py.Ok r, g', c')
              /\ TrafficRuleCollection._rules_map c'
                 = TrafficRuleCollection._rules_map c0
              /\ TrafficRuleCollection._rules_map
                   (TrafficGenThread.close g' c')
                 = TrafficRuleCollection._rules_map c0).
  { intros last c0 L0. unfold TrafficRuleCollection.rr_loop.
    destruct (TrafficRuleCollection._rules_map c0) as [|e m] eqn:Em.
    - exists None, TrafficRuleCollection.Finished, c0. auto.
    - destruct (TrafficRuleCollection._rules c0) as [|item l] eqn:El;
        [discriminate L0|].
      exists (Some item), (TrafficRuleCollection.Suspended item), c0.
      split; [reflexivity|]. split; [exact Em|].
      rewrite close_is_settle, settle_map. exact Em. }
  destruct g as [|item|]; cbn [TrafficRuleCollection.next].
  - now apply R.
  - destruct (F item) as [Lf Mf].
    destruct (R (Some item) _ Lf) as (r & g' & c' & E & M1 & M2).
    exists r, g', c'. rewrite E, M1, M2. auto.
  - exists None, TrafficRuleCollection.Finished, c. auto.
Qed.

Lemma add_rule_contains (self : TrafficRuleCollection.t)
  (rule r : TrafficRule.t) :
  r = rule \/ TrafficRuleCollection.__contains__ self r = true ->
  TrafficRuleCollection.__contains__
    (TrafficRuleCollection.add_rule self rule) r = true.
Proof.
  intros D.
  unfold TrafficRuleCollection.add_rule, TrafficRuleCollection.__add_rule.
  fold (TrafficRuleCollection.__contains__ self rule).
  destruct (TrafficRuleCollection.__contains__ self rule) eqn:C; cbn [negb].
  - destruct D as [->|D]; assumption.
  - assert (G : PyDict.get TrafficRule.same_key
                  (TrafficRuleCollection._rules_map self) rule = None).
    { unfold TrafficRuleCollection.__contains__, PyDict.mem in C.
      now destruct (PyDict.get _ _ _). }
    unfold TrafficRuleCollection.__contains__, PyDict.mem in *.
    cbn [TrafficRuleCollection._rules_map].
    rewrite get_set_absent by exact G.
    destruct D as [->|D].
    + rewrite G, TrafficRule_same_key_eq, TrafficRule_eq_refl. reflexivity.
    + destruct (PyDict.get TrafficRule.same_key
                  (TrafficRuleCollection._rules_map self) r);
        [reflexivity | discriminate].
Qed.

Lemma add_rules_contains (rules : list TrafficRule.t) :
  forall (self : TrafficRuleCollection.t) (r : TrafficRule.t),
  In r rules \/ TrafficRuleCollection.__contains__ self r = true ->
  TrafficRuleCollection.__contains__
    (TrafficRuleCollection.add_rules self rules) r = true.
Proof.
  unfold TrafficRuleCollection.add_rules.
  induction rules as [|x rules IH]; intros self r D; cbn [fold_left].
  - destruct D as [[]|D]. exact D.
  - apply IH. destruct D as [[<-|I]|D]; auto.
    + right. apply add_rule_contains. now left.
    + right. apply add_rule_contains. now right.
Qed.

(** With the stop event set the loop hands nothing to the pool and is
    left at its first pass. *)
Lemma stopped_loop (fuel : nat) (g : TrafficRuleCollection.generator)
  (self : TrafficGenWorker.t) :
  TrafficGenWorker._stop_event self = true ->
  List.length (TrafficRuleCollection._rules_map
                 (TrafficGenWorker._rule_collections self))
  = List.length (TrafficRuleCollection._rules
                   (TrafficGenWorker._rule_collections self)) ->
  exists self',
    TrafficGenThread._generate_traffic (S fuel) g self
    = ([], TrafficGenThread.Returned self')
    /\ TrafficGenWorker._run_event self' = false
    /\ TrafficGenWorker._stop_event self' = true
    /\ TrafficGenWorker.get_rule_count self'
       = TrafficGenWorker.get_rule_count self.
Proof.
  intros S L.
  destruct (next_regular g _ L) as (r & g' & c' & E & M1 & M2).
  cbn [TrafficGenThread._generate_traffic]. rewrite E.
  destruct r as [rule|].
  - cbn [TrafficGenThread.with_rules TrafficGenWorker._stop_event].
    rewrite S. eexists. split; [reflexivity|].
    unfold TrafficGenWorker.get_rule_count,
      TrafficRuleCollection.get_rule_count. cbn. now rewrite M2.
  - eexists. split; [reflexivity|].
    unfold TrafficGenWorker.get_rule_count,
      TrafficRuleCollection.get_rule_count. cbn. now rewrite M1.
Qed.

(** One pass over a prefix [a] of the settled deque hands its senders
    to the pool and moves it to the back. *)
Lemma loop_prefix (a : list TrafficRule.t) :
  forall (b : list TrafficRule.t) (m : nat)
         (g : TrafficRuleCollection.generator)
         (self : TrafficGenWorker.t),
  g <> TrafficRuleCollection.Finished ->
  TrafficGenWorker._stop_event self = false ->
  TrafficRuleCollection._rules
    (settle g (TrafficGenWorker._rule_collections self)) = (a ++ b)%list ->
  indexed (TrafficRuleCollection._rules_map
             (TrafficGenWorker._rule_collections self)) (a ++ b)%list ->
  exists g' self',
    g' <> TrafficRuleCollection.Finished
    /\ TrafficGenWorker._stop_event self' = false
    /\ TrafficRuleCollection._rules_map
         (TrafficGenWorker._rule_collections self')
       = TrafficRuleCollection._rules_map
           (TrafficGenWorker._rule_collections self)
    /\ TrafficRuleCollection._rules
         (settle g' (TrafficGenWorker._rule_collections self'))
       = (b ++ a)%list
    /\ TrafficGenThread._generate_traffic (List.length a + m) g self
       = (senders a
            ++ fst (TrafficGenThread._generate_traffic m g' self'),
          snd (TrafficGenThread._generate_traffic m g' self'))%list.
Proof.
  induction a as [|x a IH]; intros b m g self Ng S Es I.
  - exists g, self. rewrite app_nil_r. cbn [senders flat_map app List.length].
    repeat split; auto.
    cbn [Nat.add]. now destruct (TrafficGenThread._generate_traffic m g self).
  - cbn [app] in Es, I. inversion I as [|? ? Mx Ir]; subst.
    destruct (next_yields_head g _ x (a ++ b) Ng Es Mx) as [Nx Rx].
    destruct (IH (b ++ [x])%list m (TrafficRuleCollection.Suspended x)
                (TrafficGenThread.with_rules self
                   (settle g (TrafficGenWorker._rule_collections self))))
      as (g' & self' & Ng' & S' & Em & Es' & T).
    + discriminate.
    + exact S.
    + cbn [TrafficGenThread.with_rules TrafficGenWorker._rule_collections].
      now rewrite Rx, app_assoc.
    + cbn [TrafficGenThread.with_rules TrafficGenWorker._rule_collections].
      rewrite settle_map. unfold indexed. rewrite app_assoc.
      apply Forall_app. split; [exact Ir | now constructor].
    + exists g', self'. split; [exact Ng'|]. split; [exact S'|].
      split.
      { rewrite Em.
        cbn [TrafficGenThread.with_rules TrafficGenWorker._rule_collections].
        now rewrite settle_map. }
      split; [now rewrite Es', <- app_assoc|].
      cbn [List.length Nat.add TrafficGenThread._generate_traffic].
      rewrite Nx.
      cbn [TrafficGenThread.with_rules TrafficGenWorker._stop_event]
        in T |- *.
      rewrite S.
      change (TrafficGenThread.with_rules ?w ?c) with
        (TrafficGenThread.with_rules w c) in T.
      unfold TrafficGenThread.with_rules in T |- *.
      cbn [senders flat_map].
      destruct (TrafficGenThread.sender x) as [s|].
      * rewrite T. reflexivity.
      * rewrite T. reflexivity.
Qed.

Lemma loop_rounds (l : list TrafficRule.t) (k : nat) :
  forall (g : TrafficRuleCollection.generator) (self : TrafficGenWorker.t),
  g <> TrafficRuleCollection.Finished ->
  TrafficGenWorker._stop_event self = false ->
  TrafficRuleCollection._rules
    (settle g (TrafficGenWorker._rule_collections self)) = l ->
  indexed (TrafficRuleCollection._rules_map
             (TrafficGenWorker._rule_collections self)) l ->
  exists g' self',
    TrafficGenThread._generate_traffic (List.length l * k) g self
    = (concat (repeat (senders l) k), TrafficGenThread.Running g' self')
    /\ TrafficGenWorker._stop_event self' = false
    /\ TrafficRuleCollection._rules_map
         (TrafficGenWorker._rule_collections self')
       = TrafficRuleCollection._rules_map
           (TrafficGenWorker._rule_collections self)
    /\ TrafficRuleCollection._rules
         (settle g' (TrafficGenWorker._rule_collections self')) = l.
Proof.
  induction k as [|k IH]; intros g self Ng S Es I.
  - rewrite Nat.mul_0_r. exists g, self. auto.
  - rewrite Nat.mul_succ_r, Nat.add_comm.
    destruct (loop_prefix l [] (List.length l * k)%nat g self Ng S)
      as (g1 & self1 & Ng1 & S1 & Em1 & Es1 & T).
    + now rewrite app_nil_r.
    + now rewrite app_nil_r.
    + destruct (IH g1 self1 Ng1 S1 Es1) as (g' & self' & R & S' & Em & Es').
      { now rewrite Em1. }
      exists g', self'. rewrite T, R. cbn [fst snd repeat concat].
      split; [reflexivity|]. split; [exact S'|].
      split; [now rewrite Em, Em1 | exact Es'].
Qed.

End TrafficThreadFacts.

(** X18.  While the stop event is clear the traffic loop does not end
    by itself and serves the rules in rounds: on a worker whose
    collection is in its regular state with the rules [l] in the deque,
    after [length l * k] passes the senders handed to the
    pool are [k] repetitions of one sender per rule of [l] with protocol
    TCP, UDP or HTTP, in deque order; rules with any other protocol are
    skipped; the thread is still in the loop and the rule count is
    unchanged. *)
Theorem traffic_loop_serves_rounds `{Py.StrHash} (self : TrafficGenWorker.t)
  (k : nat) :
  TrafficGenWorker._stop_event self = false ->
  well_formed (TrafficGenWorker._rule_collections self) ->
  exists g' self',
    TrafficGenThread._generate_traffic
      (List.length (TrafficRuleCollection._rules
                      (TrafficGenWorker._rule_collections self)) * k)
      TrafficRuleCollection.Created self
    = (concat
         (repeat
            (senders (TrafficRuleCollection._rules
                        (TrafficGenWorker._rule_collections self))) k),
       TrafficGenThread.Running g' self')
    /\ TrafficGenWorker._stop_event self' = false
    /\ TrafficGenWorker.get_rule_count self'
       = TrafficGenWorker.get_rule_count self.
Proof.
  intros S (I & _ & _).
  destruct (loop_rounds
              (TrafficRuleCollection._rules
                 (TrafficGenWorker._rule_collections self))
              k TrafficRuleCollection.Created self)
    as (g' & self' & R & S' & Em & _);
    [discriminate | exact S | reflexivity | exact I |].
  exists g', self'. split; [exact R|]. split; [exact S'|].
  unfold TrafficGenWorker.get_rule_count, TrafficRuleCollection.get_rule_count.
  now rewrite Em.
Qed.

Lemma sample_gen_worker_well_formed :
  @well_formed length_hash
    (TrafficGenWorker._rule_collections sample_gen_worker).
Proof.
  exact (@add_rules_well_formed length_hash _ _ (@init_well_formed length_hash)).
Qed.

Lemma traffic_loop_serves_rounds_example :
  TrafficGenWorker._stop_event sample_gen_worker = false
  /\ @well_formed length_hash
       (TrafficGenWorker._rule_collections sample_gen_worker)
  /\ exists g' self',
       @TrafficGenThread._generate_traffic length_hash
         (List.length (TrafficRuleCollection._rules
                         (TrafficGenWorker._rule_collections
                            sample_gen_worker)) * 2)
         TrafficRuleCollection.Created sample_gen_worker
       = (concat
            (repeat
               (senders (TrafficRuleCollection._rules
                           (TrafficGenWorker._rule_collections
                              sample_gen_worker))) 2),
          TrafficGenThread.Running g' self')
       /\ TrafficGenWorker._stop_event self' = false
       /\ TrafficGenWorker.get_rule_count self'
          = TrafficGenWorker.get_rule_count sample_gen_worker.
Proof.
  split; [reflexivity|]. split; [exact sample_gen_worker_well_formed|].
  exact (@traffic_loop_serves_rounds length_hash sample_gen_worker 2
           eq_refl sample_gen_worker_well_formed).
Defined.

(** X19.  The stop event is never cleared, so a client worker cannot be
    started again: after [delete_all_clients], a later [add_clients]
    stores the rules and marks traffic as running, but the traffic
    thread it starts leaves the loop at its first pass without handing
    anything to the pool, and its callback clears the run event
    again. *)
Theorem stopped_worker_never_sends_again `{Py.StrHash}
  (self : TrafficGenWorker.t) (rules : list TrafficRule.t) (fuel : nat) :
  let restarted :=
    TrafficGenWorker.add_clients (TrafficGenWorker.delete_all_clients self)
      rules in
  TrafficGenWorker._run_event restarted = true
  /\ (forall rule, In rule rules ->
        TrafficGenWorker.has_rule restarted rule = true)
  /\ exists self',
       TrafficGenThread._generate_traffic (S fuel)
         TrafficRuleCollection.Created restarted
       = ([], TrafficGenThread.Returned self')
       /\ TrafficGenWorker._run_event self' = false
       /\ TrafficGenWorker._stop_event self' = true
       /\ TrafficGenWorker.get_rule_count self'
          = TrafficGenWorker.get_rule_count restarted.
Proof.
  intros restarted.
  assert (W : well_formed (TrafficGenWorker._rule_collections restarted)).
  { exact (add_rules_well_formed _ _ init_well_formed). }
  split; [reflexivity|]. split.
  - intros rule I. unfold TrafficGenWorker.has_rule. subst restarted.
    cbn [TrafficGenWorker.add_clients TrafficGenWorker._rule_collections].
    apply add_rules_contains. now left.
  - apply stopped_loop; [reflexivity|]. now destruct W as (_ & _ & L).
Qed.

(** X20.  [delete_all_clients] ends a running traffic thread at its
    next pass: whatever rule the generator is suspended at, the loop is
    left without another sender being handed to the pool, the callback
    clears the run event, and no rule is left. *)
Theorem delete_all_clients_ends_loop `{Py.StrHash}
  (self : TrafficGenWorker.t) (g : TrafficRuleCollection.generator)
  (fuel : nat) :
  exists self',
    TrafficGenThread._generate_traffic (S fuel) g
      (TrafficGenWorker.delete_all_clients self)
    = ([], TrafficGenThread.Returned self')
    /\ TrafficGenWorker._run_event self' = false
    /\ TrafficGenWorker._stop_event self' = true
    /\ TrafficGenWorker.get_rule_count self' = 0.
Proof.
  destruct (stopped_loop fuel g (TrafficGenWorker.delete_all_clients self))
    as (self' & R & Re & Se & C); [reflexivity | reflexivity |].
  exists self'. now rewrite C.
Qed.

(** X21.  What a sender built by the traffic loop records: it is built
    exactly for the protocols TCP, UDP and HTTP, carries the rule's
    protocol as its own, and counts a probe with raw result [S] under
    the key of the rule's source, destination, port and protocol with
    [connected] true and the outcome "success" exactly when [S] agrees
    with the rule's [allowed] flag. *)
Theorem loop_sender_records_against_allowed (rule : TrafficRule.t)
  (success : Py.value) :
  match TrafficGenThread.sender rule with
  | Some s =>
      In (TrafficRule.protocol rule) ["TCP"; "UDP"; "HTTP"]
      /\ TCPClient.PROTOCOL s = TrafficRule.protocol rule
      /\ TCPClient.record_metric s success
         = TrafficRecord.to_metric
             (Py.Str (TrafficRule.source rule))
             (Py.Str (TrafficRule.destination rule))
             (Py.Int (TrafficRule.port rule))
             (Py.Str (TrafficRule.protocol rule)) (Py.Bool true)
             (Py.Bool (Bool.eqb (TrafficRule.allowed rule)
                         (Py.truth success)))
  | None => ~ In (TrafficRule.protocol rule) ["TCP"; "UDP"; "HTTP"]
  end.
Proof.
  unfold TrafficGenThread.sender.
  destruct (String.eqb (TrafficRule.protocol rule) "TCP") eqn:T;
    [apply String.eqb_eq in T|
     destruct (String.eqb (TrafficRule.protocol rule) "UDP") eqn:U;
       [apply String.eqb_eq in U|
        destruct (String.eqb (TrafficRule.protocol rule) "HTTP") eqn:P;
          [apply String.eqb_eq in P|]]].
  - split; [rewrite T; now left|]. split; [now rewrite T|].
    unfold TCPClient.record_metric, TCPClient.is_traffic_successful.
    cbn. now rewrite T.
  - split; [rewrite U; right; now left|]. split; [now rewrite U|].
    unfold TCPClient.record_metric, TCPClient.is_traffic_successful.
    cbn. now rewrite U.
  - split; [rewrite P; right; right; now left|]. split; [now rewrite P|].
    unfold TCPClient.record_metric, TCPClient.is_traffic_successful.
    cbn. now rewrite P.
  - apply String.eqb_neq in T, U, P. cbn [In]. intuition congruence.
Qed.

(** ** Starting clients on a new controller *)

Lemma slice_firstn {A : Type} (l : list A) (k start stop : Z) :
  0 <= k -> start = 0 -> stop = k ->
  Py.slice l start stop = firstn (Z.to_nat k) l.
Proof.
  intros K -> ->. unfold Py.slice, Py.clamp.
  cbn [Z.ltb Z.compare]. destruct (Z.ltb_spec k 0) as [C|_]; [lia|].
  set (len := Z.of_nat (List.length l)).
  assert (Ll : 0 <= len) by (unfold len; lia).
  replace (Z.max 0 (Z.min len 0)) with 0 by lia.
  cbn [Z.to_nat skipn]. rewrite Z.sub_0_r.
  destruct (Z.le_ge_cases len k) as [C|C].
  - replace (Z.max 0 (Z.min len k)) with len by lia.
    unfold len. rewrite Nat2Z.id, !firstn_all2; [reflexivity | lia | lia].
  - now replace (Z.max 0 (Z.min len k)) with k by lia.
Qed.

Lemma slice_skipn {A : Type} (l : list A) (k start stop : Z) :
  0 <= k -> Z.of_nat (List.length l) <= 2 * k ->
  start = k -> stop = 2 * k ->
  Py.slice l start stop = skipn (Z.to_nat k) l.
Proof.
  intros K L -> ->. unfold Py.slice, Py.clamp.
  destruct (Z.ltb_spec k 0) as [C|_]; [lia|].
  destruct (Z.ltb_spec (2 * k) 0) as [C|_]; [lia|].
  set (len := Z.of_nat (List.length l)) in *.
  assert (Ll : 0 <= len) by (unfold len; lia).
  replace (Z.max 0 (Z.min len (2 * k))) with len by lia.
  destruct (Z.le_ge_cases len k) as [C|C].
  - replace (Z.max 0 (Z.min len k)) with len by lia.
    rewrite Z.sub_diag. cbn [Z.to_nat firstn].
    symmetry. apply skipn_all2. unfold len in C. lia.
  - replace (Z.max 0 (Z.min len k)) with k by lia.
    apply firstn_all2. rewrite length_skipn. unfold len. lia.
Qed.

Lemma nodup_app_disjoint {A : Type} (a b : list A) (x : A) :
  NoDup (a ++ b) -> In x a -> ~ In x b.
Proof.
  induction a as [|y a IH]; cbn [app]; intros N I; [contradiction|].
  inversion N as [|? ? Ny Na]; subst. destruct I as [->|I].
  - intros Ib. apply Ny, in_or_app. now right.
  - now apply IH.
Qed.

Section FreshStart.
Context `{Py.StrHash} `{TrafficController.Host}.

Lemma create_loop_client_step (new_rules : list TrafficRule.t)
  (rules_per_worker i : Z) (todo : nat) (self : TrafficController.t) :
  TrafficController.create_loop TrafficController.client new_rules
    rules_per_worker i (S todo) self
  = match Py.slice new_rules (rules_per_worker * i)
            (rules_per_worker * i + rules_per_worker) with
    | [] => (Py.Ok tt, with_draw self)
    | r :: rs =>
        TrafficController.create_loop TrafficController.client new_rules
          rules_per_worker (i + 1) todo (with_client_worker (r :: rs) self)
    end.
Proof.
  cbn [TrafficController.create_loop TrafficController._get_worker_context].
  change (TrafficController.rule TrafficController.client)
    with TrafficRule.t.
  destruct (Py.slice new_rules (rules_per_worker * i)
              (rules_per_worker * i + rules_per_worker)) as [|r rs];
    [reflexivity|].
  unfold TrafficController.bind at 1. unfold TrafficController.try_print.
  unfold TrafficController.create_one, TrafficController.bind,
    TrafficController._create_worker, TrafficController.rpc.
  cbn [TrafficController.address TrafficController.processes fst snd
         TrafficController.with_processes TrafficController.uid
         TrafficController.draws Nat.pred
         TrafficController.with_workers_registry].
  rewrite get_set_string, String.eqb_refl.
  cbn [TrafficController.new_handler TrafficController.add_method].
  reflexivity.
Qed.

Lemma fold_add_get (ctx : TrafficController.context)
  (sl : list TrafficRule.t) :
  forall (reg : MemCache.t TrafficController.context) (k : string),
  PyDict.get String.eqb
    (fold_left
       (fun reg r => MemCache.add reg ("client_" ++ TrafficRule.id r) ctx)
       sl reg) k
  = if in_dec string_dec k
         (map (fun r => "client_" ++ TrafficRule.id r) sl)
    then Some ctx else PyDict.get String.eqb reg k.
Proof.
  induction sl as [|r sl IH]; intros reg k; cbn [fold_left map].
  - now destruct (in_dec string_dec k []).
  - rewrite IH. unfold MemCache.add. rewrite get_set_string.
    destruct (in_dec string_dec k
                (map (fun r0 => "client_" ++ TrafficRule.id r0) sl))
      as [I|N];
      destruct (in_dec string_dec k
                  (("client_" ++ TrafficRule.id r)
                     :: map (fun r0 => "client_" ++ TrafficRule.id r0) sl))
      as [I'|N']; try reflexivity.
    + exfalso. apply N'. now right.
    + destruct I' as [E|I']; [|contradiction].
      rewrite E, String.eqb_refl. reflexivity.
    + destruct (String.eqb_spec ("client_" ++ TrafficRule.id r) k) as [E|_];
        [|reflexivity].
      exfalso. apply N'. now left.
Qed.

Lemma placed_new (sl : list TrafficRule.t) (self : TrafficController.t)
  (r : TrafficRule.t) :
  In r sl -> placed r (with_client_worker sl self).
Proof.
  intros I. unfold placed, with_client_worker.
  exists (TrafficController.draws self),
    {| TrafficController.uid :=
         TrafficController.uuid4_hex (TrafficController.draws self);
       TrafficController.address :=
         Some (TrafficController.listener_address
                 (TrafficController.draws self));
       TrafficController.process :=
         Some ("axon_client_worker_"
                 ++ TrafficController.uuid4_hex
                      (TrafficController.draws self)) |},
    (TrafficGenWorker.add_clients
       (TrafficGenWorker.__init__
          (TrafficController.uuid4_hex (TrafficController.draws self))) sl).
  cbn [TrafficController.draws TrafficController.uid
         TrafficController.address TrafficController._rules_registry
         TrafficController._workers_registry TrafficController.processes
         MemCache.get].
  split; [lia|]. split; [reflexivity|]. split; [reflexivity|].
  split.
  { rewrite fold_add_get.
    destruct (in_dec string_dec _ _) as [_|N]; [reflexivity|].
    exfalso. apply N.
    now apply (in_map (fun r0 => "client_" ++ TrafficRule.id r0)). }
  split.
  { unfold MemCache.add. now rewrite get_set_string, String.eqb_refl. }
  split.
  { now rewrite get_set_string, String.eqb_refl. }
  split; [|reflexivity].
  unfold TrafficGenWorker.has_rule.
  cbn [TrafficGenWorker.add_clients TrafficGenWorker._rule_collections].
  apply add_rules_contains. now left.
Qed.

Lemma placed_keep (sl : list TrafficRule.t) (self : TrafficController.t)
  (r : TrafficRule.t) :
  TrafficController.draws self = 1%nat ->
  distinct_draws TrafficController.uuid4_hex ->
  distinct_draws TrafficController.listener_address ->
  ~ In (TrafficRule.id r) (map TrafficRule.id sl) ->
  placed r self -> placed r (with_client_worker sl self).
Proof.
  intros D Du Dl N (j & ctx & g & Lj & U & A & R & Wk & P & Hr & Rn).
  assert (j = 0%nat) as -> by lia.
  exists 0%nat, ctx, g. unfold with_client_worker. rewrite D.
  cbn [TrafficController.draws TrafficController._rules_registry
         TrafficController._workers_registry TrafficController.processes
         MemCache.get] in *.
  split; [lia|]. split; [exact U|]. split; [exact A|].
  split.
  { rewrite fold_add_get.
    destruct (in_dec string_dec _ _) as [I|_]; [|exact R].
    exfalso. apply in_map_iff in I as (r0 & E & I).
    apply N. apply in_map_iff. exists r0. split; [|exact I].
    now apply append_inv_head in E. }
  split.
  { unfold MemCache.add. rewrite get_set_string.
    destruct (String.eqb_spec
                ("client_" ++ TrafficController.uuid4_hex 1)
                ("client_" ++ TrafficController.uid ctx)) as [E|_];
      [|exact Wk].
    exfalso. apply append_inv_head in E. apply Du. congruence. }
  split; [|split; [exact Hr | exact Rn]].
  rewrite !get_set_string.
  destruct (String.eqb_spec (TrafficController.listener_address 1)
              (TrafficController.listener_address 0)) as [E|_]; [|exact P].
  exfalso. apply Dl. congruence.
Qed.

Lemma placed_draw (self : TrafficController.t) (r : TrafficRule.t) :
  placed r self -> placed r (with_draw self).
Proof.
  intros (j & ctx & g & Lj & Rest). exists j, ctx, g.
  split; [cbn; lia | exact Rest].
Qed.

End FreshStart.

(** X22.  [start_clients] on a new controller places every rule: for
    rules with distinct ids (and a host whose first two uuid draws and
    listener addresses differ), the call returns normally and every
    rule of the list is registered under ["client_<id>"] with the
    context of a worker that [workers_registry] holds under
    ["client_<uid>"], whose process runs a client worker that contains
    the rule and has started its traffic. *)
Theorem start_clients_places_every_rule
  `{Py.StrHash} `{TrafficController.Host} (rules : list TrafficRule.t) :
  0 <= TrafficController.cpu_count ->
  distinct_draws TrafficController.uuid4_hex ->
  distinct_draws TrafficController.listener_address ->
  NoDup (map TrafficRule.id rules) ->
  fst (TrafficController.start_clients rules TrafficController.__init__)
  = Py.Ok tt
  /\ forall r, In r rules ->
       placed r
         (snd (TrafficController.start_clients rules
                 TrafficController.__init__)).
Proof.
  intros Cpu Du Dl Nd.
  unfold TrafficController.start_clients, TrafficController.bind,
    TrafficController._get_all_rules, TrafficController._get_all_workers.
  rewrite (filter_all _ rules) by reflexivity.
  cbn [TrafficController.__init__ TrafficController._rules_registry
         TrafficController._workers_registry MemCache.__init__
         MemCache.get_all_keys PyDict.keys map filter fst snd].
  change (Z.of_nat (List.length (@nil string))) with 0.
  cbn [Z.eqb negb andb].
  unfold TrafficController._create_workers_and_add_rules.
  set (W := TrafficController.CLIENT_WORKER_COUNT).
  assert (HW : W = 1 \/ W = 2).
  { unfold W, TrafficController.CLIENT_WORKER_COUNT.
    destruct (Z.eqb_spec TrafficController.cpu_count 0); lia. }
  set (n := Z.of_nat (List.length rules)).
  assert (Hk : 0 <= Py.ceil_div n W /\ n <= W * Py.ceil_div n W).
  { unfold Py.ceil_div. assert (0 <= n) by (unfold n; lia).
    destruct HW as [-> | ->].
    - rewrite Z.div_1_r. lia.
    - pose proof (Z.div_mod (n + 2 - 1) 2 ltac:(lia)).
      pose proof (Z.mod_pos_bound (n + 2 - 1) 2 ltac:(lia)). lia. }
  set (k := Py.ceil_div n W) in *.
  set (init := {| TrafficController._rules_registry := [];
                  TrafficController._workers_registry := [];
                  TrafficController.processes := [];
                  TrafficController.draws := 0 |}).
  destruct Hk as [K0 Kn].
  destruct HW as [E1 | E2].
  - rewrite E1 in *. change (Z.to_nat (1 - 0)) with 1%nat.
    rewrite create_loop_client_step.
    rewrite (slice_firstn rules k) by lia.
    rewrite firstn_all2 by (unfold n in Kn; lia).
    destruct rules as [|r0 rs]; [split; [reflexivity | intros r []]|].
    cbn [TrafficController.create_loop TrafficController.ret fst snd].
    split; [reflexivity|]. intros r I. now apply placed_new.
  - rewrite E2 in *. change (Z.to_nat (2 - 0)) with 2%nat.
    rewrite create_loop_client_step.
    rewrite (slice_firstn rules k) by lia.
    pose proof (firstn_skipn (Z.to_nat k) rules) as Split.
    destruct (firstn (Z.to_nat k) rules) as [|r0 s0] eqn:F.
    { split; [reflexivity|]. intros r I. exfalso.
      destruct rules as [|x rs]; [exact I|].
      destruct (Z.to_nat k) eqn:Ek; [|discriminate F].
      unfold n in Kn. cbn [List.length] in Kn. lia. }
    rewrite create_loop_client_step.
    rewrite (slice_skipn rules k) by (unfold n in Kn; lia).
    destruct (skipn (Z.to_nat k) rules) as [|r1 s1] eqn:Sk.
    + split; [reflexivity|]. intros r I. cbn [snd].
      apply placed_draw, placed_new.
      rewrite <- Split, app_nil_r in I. exact I.
    + cbn [TrafficController.create_loop TrafficController.ret fst snd].
      split; [reflexivity|]. intros r I.
      rewrite <- Split in I, Nd.
      apply in_app_or in I as [I|I]; [|now apply placed_new].
      apply placed_keep; [reflexivity | exact Du | exact Dl | |
                          now apply placed_new].
      rewrite map_app in Nd.
      apply (nodup_app_disjoint _ _ _ Nd). now apply in_map.
Qed.


Lemma start_clients_places_every_rule_example :
  0 <= @TrafficController.cpu_count sample_host
  /\ distinct_draws (@TrafficController.uuid4_hex sample_host)
  /\ distinct_draws (@TrafficController.listener_address sample_host)
  /\ NoDup (map TrafficRule.id
              [tcp_rule "r1" 80; tcp_rule "r2" 81; tcp_rule "r3" 82])
  /\ fst (@TrafficController.start_clients length_hash sample_host
            [tcp_rule "r1" 80; tcp_rule "r2" 81; tcp_rule "r3" 82]
            TrafficController.__init__)
     = Py.Ok tt
  /\ forall r,
       In r [tcp_rule "r1" 80; tcp_rule "r2" 81; tcp_rule "r3" 82] ->
       @placed length_hash sample_host r
         (snd (@TrafficController.start_clients length_hash sample_host
                 [tcp_rule "r1" 80; tcp_rule "r2" 81; tcp_rule "r3" 82]
                 TrafficController.__init__)).
Proof.
  assert (C : 0 <= @TrafficController.cpu_count sample_host)
    by (cbn; lia).
  assert (Du : distinct_draws (@TrafficController.uuid4_hex sample_host))
    by (unfold distinct_draws; vm_compute; discriminate).
  assert (Dl : distinct_draws (@TrafficController.listener_address sample_host))
    by (unfold distinct_draws; vm_compute; discriminate).
  assert (Nd : NoDup (map TrafficRule.id
                        [tcp_rule "r1" 80; tcp_rule "r2" 81;
                         tcp_rule "r3" 82])).
  { cbn. repeat constructor; cbn; intuition discriminate. }
  split; [exact C|]. split; [exact Du|]. split; [exact Dl|].
  split; [exact Nd|].
  exact (@start_clients_places_every_rule length_hash sample_host
           [tcp_rule "r1" 80; tcp_rule "r2" 81; tcp_rule "r3" 82]
           C Du Dl Nd).
Defined.

(** ** The exchange between reporters and subscribers *)

Lemma threads_of_app (task : Exchange.task)
  (a b : list (Exchange.task * list Exchange.message)) :
  threads_of task (a ++ b) = (threads_of task a ++ threads_of task b)%list.
Proof. apply filter_app. Qed.

Lemma handed_app (task : Exchange.task)
  (a b : list (Exchange.task * list Exchange.message)) :
  handed task (a ++ b) = (handed task a ++ handed task b)%list.
Proof. unfold handed. now rewrite threads_of_app, map_app, concat_app. Qed.

Lemma nat_get_none {V : Type} (d : list (nat * V)) (k : nat) :
  ~ In k (map fst d) -> PyDict.get Nat.eqb d k = None.
Proof.
  induction d as [|[k0 v] d IH]; cbn [PyDict.get map fst]; intros N;
    [reflexivity|].
  destruct (Nat.eqb_spec k0 k) as [->|_]; [exfalso; apply N; now left|].
  apply IH. intros I. apply N. now right.
Qed.

Lemma nat_get_some {V : Type} (d : list (nat * V)) (k : nat) :
  In k (map fst d) -> exists v, PyDict.get Nat.eqb d k = Some v.
Proof.
  induction d as [|[k0 v] d IH]; cbn [PyDict.get map fst]; intros I;
    [contradiction|].
  destruct (Nat.eqb_spec k0 k) as [->|N]; [eauto|].
  destruct I as [E|I]; [contradiction | now apply IH].
Qed.

Lemma send_loop_keys (now : Z)
  (subscribers : list (Exchange.task * Exchange.details)) :
  map fst (fst (Exchange.send_loop now subscribers)) = map fst subscribers.
Proof.
  induction subscribers as [|[s d] rest IH]; [reflexivity|].
  cbn [Exchange.send_loop].
  destruct (Exchange.send_loop now rest) as [rest' threads].
  cbn [fst] in IH.
  destruct (Z.geb now (Exchange.next_fire_time d)); cbn [fst map];
    now rewrite IH.
Qed.

Lemma send_loop_get (now : Z)
  (subscribers : list (Exchange.task * Exchange.details))
  (task : Exchange.task) :
  PyDict.get Nat.eqb (fst (Exchange.send_loop now subscribers)) task
  = match PyDict.get Nat.eqb subscribers task with
    | Some d =>
        if Z.geb now (Exchange.next_fire_time d) then
          Some {| Exchange.queue := [];
                  Exchange.buffer_interval := Exchange.buffer_interval d;
                  Exchange.next_fire_time :=
                    now + Exchange.buffer_interval d |}
        else Some d
    | None => None
    end.
Proof.
  induction subscribers as [|[s d] rest IH]; [reflexivity|].
  cbn [Exchange.send_loop].
  destruct (Exchange.send_loop now rest) as [rest' threads].
  cbn [fst] in IH.
  destruct (Z.geb now (Exchange.next_fire_time d)) eqn:Due;
    cbn [fst PyDict.get]; destruct (Nat.eqb s task);
    try exact IH; now rewrite ?Due.
Qed.

Lemma send_loop_threads (now : Z)
  (subscribers : list (Exchange.task * Exchange.details))
  (task : Exchange.task) :
  NoDup (map fst subscribers) ->
  threads_of task (snd (Exchange.send_loop now subscribers))
  = match PyDict.get Nat.eqb subscribers task with
    | Some d =>
        if Z.geb now (Exchange.next_fire_time d)
        then [(task, Exchange.queue d)] else []
    | None => []
    end.
Proof.
  induction subscribers as [|[s d] rest IH]; intros Nd; [reflexivity|].
  cbn [map fst] in Nd. inversion Nd as [|? ? Ns Nr]; subst.
  specialize (IH Nr).
  cbn [Exchange.send_loop].
  destruct (Exchange.send_loop now rest) as [rest' threads].
  cbn [snd] in IH. cbn [PyDict.get].
  destruct (Nat.eqb_spec s task) as [->|Ne].
  - rewrite (nat_get_none rest task Ns) in IH.
    destruct (Z.geb now (Exchange.next_fire_time d)); cbn [snd].
    + unfold threads_of in *. cbn [filter fst]. rewrite Nat.eqb_refl.
      now rewrite IH.
    + exact IH.
  - destruct (Z.geb now (Exchange.next_fire_time d)); cbn [snd];
      [|exact IH].
    unfold threads_of in *. cbn [filter fst].
    destruct (Nat.eqb_spec s task) as [E|_]; [contradiction | exact IH].
Qed.

Lemma appended_get (m : Exchange.message)
  (subscribers : list (Exchange.task * Exchange.details))
  (task : Exchange.task) :
  PyDict.get Nat.eqb
    (map (fun entry =>
            (fst entry,
             {| Exchange.queue := (Exchange.queue (snd entry) ++ [m])%list;
                Exchange.buffer_interval :=
                  Exchange.buffer_interval (snd entry);
                Exchange.next_fire_time :=
                  Exchange.next_fire_time (snd entry) |}))
       subscribers) task
  = match PyDict.get Nat.eqb subscribers task with
    | Some d =>
        Some {| Exchange.queue := (Exchange.queue d ++ [m])%list;
                Exchange.buffer_interval := Exchange.buffer_interval d;
                Exchange.next_fire_time := Exchange.next_fire_time d |}
    | None => None
    end.
Proof.
  induction subscribers as [|[s d] rest IH]; [reflexivity|].
  cbn [map PyDict.get fst snd]. now destruct (Nat.eqb s task).
Qed.

Lemma appended_keys (m : Exchange.message)
  (subscribers : list (Exchange.task * Exchange.details)) :
  map fst
    (map (fun entry =>
            (fst entry,
             {| Exchange.queue := (Exchange.queue (snd entry) ++ [m])%list;
                Exchange.buffer_interval :=
                  Exchange.buffer_interval (snd entry);
                Exchange.next_fire_time :=
                  Exchange.next_fire_time (snd entry) |}))
       subscribers)
  = map fst subscribers.
Proof. rewrite map_map. reflexivity. Qed.

(** One readable event: the oldest queued message goes to every
    subscriber; a subscriber that is due gets its whole buffer handed
    over and is rescheduled, one that is not keeps buffering. *)
Lemma recieve_step (now : Z) (m : Exchange.message)
  (rest : list Exchange.message) (self : Exchange.t) :
  NoDup (map fst (Exchange._subscribers self)) ->
  Exchange._queue self = m :: rest ->
  exists self',
    Exchange._recieve now self = Some self'
    /\ Exchange._queue self' = rest
    /\ map fst (Exchange._subscribers self')
       = map fst (Exchange._subscribers self)
    /\ forall task d,
         PyDict.get Nat.eqb (Exchange._subscribers self) task = Some d ->
         if Z.geb now (Exchange.next_fire_time d) then
           threads_of task (Exchange.started self')
           = (threads_of task (Exchange.started self)
                ++ [(task, Exchange.queue d ++ [m])])%list
           /\ PyDict.get Nat.eqb (Exchange._subscribers self') task
              = Some {| Exchange.queue := [];
                        Exchange.buffer_interval :=
                          Exchange.buffer_interval d;
                        Exchange.next_fire_time :=
                          now + Exchange.buffer_interval d |}
         else
           threads_of task (Exchange.started self')
           = threads_of task (Exchange.started self)
           /\ PyDict.get Nat.eqb (Exchange._subscribers self') task
              = Some {| Exchange.queue := (Exchange.queue d ++ [m])%list;
                        Exchange.buffer_interval :=
                          Exchange.buffer_interval d;
                        Exchange.next_fire_time :=
                          Exchange.next_fire_time d |}.
Proof.
  intros Nd Eq. unfold Exchange._recieve. rewrite Eq.
  unfold Exchange._send.
  cbn [Exchange._subscribers Exchange._queue Exchange.started].
  pose proof (send_loop_keys now
                (map (fun entry =>
                        (fst entry,
                         {| Exchange.queue :=
                              (Exchange.queue (snd entry) ++ [m])%list;
                            Exchange.buffer_interval :=
                              Exchange.buffer_interval (snd entry);
                            Exchange.next_fire_time :=
                              Exchange.next_fire_time (snd entry) |}))
                   (Exchange._subscribers self))) as K.
  pose proof (fun task =>
                send_loop_get now
                  (map (fun entry =>
                          (fst entry,
                           {| Exchange.queue :=
                                (Exchange.queue (snd entry) ++ [m])%list;
                              Exchange.buffer_interval :=
                                Exchange.buffer_interval (snd entry);
                              Exchange.next_fire_time :=
                                Exchange.next_fire_time (snd entry) |}))
                     (Exchange._subscribers self)) task) as G.
  pose proof (fun task =>
                send_loop_threads now
                  (map (fun entry =>
                          (fst entry,
                           {| Exchange.queue :=
                                (Exchange.queue (snd entry) ++ [m])%list;
                              Exchange.buffer_interval :=
                                Exchange.buffer_interval (snd entry);
                              Exchange.next_fire_time :=
                                Exchange.next_fire_time (snd entry) |}))
                     (Exchange._subscribers self)) task) as Hd.
  destruct (Exchange.send_loop now _) as [subs threads].
  cbn [fst snd] in K, G, Hd.
  eexists. split; [reflexivity|].
  cbn [Exchange._subscribers Exchange._queue Exchange.started].
  split; [reflexivity|]. split; [now rewrite K, appended_keys|].
  intros task d Gd.
  specialize (G task). specialize (Hd task).
  rewrite appended_keys in Hd. specialize (Hd Nd).
  rewrite appended_get, Gd in G, Hd.
  cbn [Exchange.next_fire_time Exchange.queue Exchange.buffer_interval]
    in G, Hd.
  rewrite threads_of_app, Hd.
  destruct (Z.geb now (Exchange.next_fire_time d)).
  - split; [reflexivity | exact G].
  - split; [apply app_nil_r | exact G].
Qed.

(** X23.  The exchange delivers every message to every subscriber
    exactly once and in order: after the manager has served as many
    readable events as messages were queued, at whatever times, the
    queue is empty, the subscribers are the same, and for each
    subscriber the messages handed to its [handle] so far followed by
    those waiting in its buffer are what they were before followed by
    the queued messages. *)
Theorem exchange_delivers_once_in_order (times : list Z) :
  forall self : Exchange.t,
  NoDup (map fst (Exchange._subscribers self)) ->
  List.length times = List.length (Exchange._queue self) ->
  exists self',
    receive_all times self = Some self'
    /\ Exchange._queue self' = []
    /\ map fst (Exchange._subscribers self')
       = map fst (Exchange._subscribers self)
    /\ forall task, subscribed task self = true ->
         (handed task (Exchange.started self') ++ waiting task self')%list
         = (handed task (Exchange.started self) ++ waiting task self
              ++ Exchange._queue self)%list.
Proof.
  induction times as [|now times IH]; intros self Nd L.
  - exists self. destruct (Exchange._queue self); [|discriminate L].
    split; [reflexivity|]. split; [reflexivity|]. split; [reflexivity|].
    intros task _. now rewrite app_nil_r.
  - destruct (Exchange._queue self) as [|m rest] eqn:Eq; [discriminate L|].
    destruct (recieve_step now m rest self Nd Eq)
      as (self1 & R1 & Q1 & K1 & S1).
    destruct (IH self1) as (self' & R & Q & K & S).
    { now rewrite K1. }
    { rewrite Q1. cbn [List.length] in L. lia. }
    exists self'. cbn [receive_all]. rewrite R1.
    split; [exact R|]. split; [exact Q|]. split; [now rewrite K, K1|].
    intros task Sub.
    unfold subscribed, PyDict.mem in Sub.
    destruct (PyDict.get Nat.eqb (Exchange._subscribers self) task)
      as [d|] eqn:Gd; [|discriminate].
    specialize (S1 task d Gd).
    assert (Sub1 : subscribed task self1 = true).
    { unfold subscribed, PyDict.mem.
      destruct (Z.geb now (Exchange.next_fire_time d));
        destruct S1 as [_ ->]; reflexivity. }
    rewrite (S task Sub1), Q1. unfold waiting, handed. rewrite Gd.
    destruct (Z.geb now (Exchange.next_fire_time d));
      destruct S1 as [-> ->]; cbn [Exchange.queue];
      rewrite ?map_app, ?concat_app; cbn [map snd concat];
      rewrite ?app_nil_r, <- ?app_assoc; reflexivity.
Qed.

Lemma exchange_delivers_once_in_order_example :
  NoDup (map fst (Exchange._subscribers sample_exchange))
  /\ List.length [100; 110] = List.length (Exchange._queue sample_exchange)
  /\ exists self',
       receive_all [100; 110] sample_exchange = Some self'
       /\ Exchange._queue self' = []
       /\ map fst (Exchange._subscribers self')
          = map fst (Exchange._subscribers sample_exchange)
       /\ forall task, subscribed task sample_exchange = true ->
            (handed task (Exchange.started self') ++ waiting task self')%list
            = (handed task (Exchange.started sample_exchange)
                 ++ waiting task sample_exchange
                 ++ Exchange._queue sample_exchange)%list.
Proof.
  assert (Nd : NoDup (map fst (Exchange._subscribers sample_exchange))).
  { cbn. repeat constructor; cbn; intuition discriminate. }
  split; [exact Nd|]. split; [reflexivity|].
  exact (exchange_delivers_once_in_order [100; 110] sample_exchange Nd
           eq_refl).
Defined.


Lemma receive_all_app (a b : list Z) :
  forall self : Exchange.t,
  receive_all (a ++ b) self
  = match receive_all a self with
    | Some self' => receive_all b self'
    | None => None
    end.
Proof.
  induction a as [|now a IH]; intros self; [reflexivity|].
  cbn [app receive_all].
  destruct (Exchange._recieve now self); [apply IH | reflexivity].
Qed.

(** Events served before a subscriber is due only fill its buffer. *)
Lemma receive_all_buffering (task : Exchange.task) (times : list Z) :
  forall (self : Exchange.t) (msgs rest : list Exchange.message)
         (d : Exchange.details),
  NoDup (map fst (Exchange._subscribers self)) ->
  Exchange._queue self = (msgs ++ rest)%list ->
  List.length times = List.length msgs ->
  PyDict.get Nat.eqb (Exchange._subscribers self) task = Some d ->
  Forall (fun now => now < Exchange.next_fire_time d) times ->
  exists self',
    receive_all times self = Some self'
    /\ Exchange._queue self' = rest
    /\ map fst (Exchange._subscribers self')
       = map fst (Exchange._subscribers self)
    /\ threads_of task (Exchange.started self')
       = threads_of task (Exchange.started self)
    /\ PyDict.get Nat.eqb (Exchange._subscribers self') task
       = Some {| Exchange.queue := (Exchange.queue d ++ msgs)%list;
                 Exchange.buffer_interval := Exchange.buffer_interval d;
                 Exchange.next_fire_time := Exchange.next_fire_time d |}.
Proof.
  induction times as [|now times IH]; intros self msgs rest d Nd Eq L G F.
  - destruct msgs; [|discriminate L]. exists self. rewrite app_nil_r.
    repeat split; auto. rewrite G. now destruct d.
  - destruct msgs as [|m msgs]; [discriminate L|]. cbn [app] in Eq.
    inversion F as [|? ? Fn Ft]; subst.
    destruct (recieve_step now m (msgs ++ rest) self Nd Eq)
      as (self1 & R1 & Q1 & K1 & S1).
    specialize (S1 task d G).
    destruct (Z.geb_spec now (Exchange.next_fire_time d)) as [C|_]; [lia|].
    destruct S1 as [T1 G1].
    destruct (IH self1 msgs rest _ ltac:(now rewrite K1) Q1
                ltac:(cbn [List.length] in L; lia) G1 Ft)
      as (self' & R & Q & K & T & G').
    exists self'. cbn [receive_all]. rewrite R1.
    split; [exact R|]. split; [exact Q|]. split; [now rewrite K, K1|].
    split; [now rewrite T, T1|].
    rewrite G'. cbn [Exchange.queue Exchange.buffer_interval
                       Exchange.next_fire_time].
    now rewrite <- app_assoc.
Qed.

Lemma nat_del_gone {V : Type} (d d' : list (nat * V)) (k : nat) :
  NoDup (map fst d) ->
  PyDict.del Nat.eqb d k = Some d' ->
  PyDict.get Nat.eqb d' k = None.
Proof.
  revert d'. induction d as [|[k0 v] d IH]; cbn [PyDict.del map fst];
    intros d' Nd E; [discriminate|].
  inversion Nd as [|? ? N0 Nr]; subst.
  destruct (Nat.eqb_spec k0 k) as [->|Ne].
  - injection E as <-. now apply nat_get_none.
  - destruct (PyDict.del Nat.eqb d k) as [d''|]; [|discriminate].
    injection E as <-. cbn [PyDict.get].
    destruct (Nat.eqb_spec k0 k) as [E|_]; [contradiction|].
    now apply IH.
Qed.

Lemma nat_keys_set_absent {V : Type} (d : list (nat * V)) (k : nat) (v : V) :
  PyDict.get Nat.eqb d k = None ->
  map fst (PyDict.set Nat.eqb d k v) = (map fst d ++ [k])%list.
Proof.
  induction d as [|[k0 v0] d IH]; cbn [PyDict.get PyDict.set map fst app];
    intros G; [reflexivity|].
  destruct (Nat.eqb k0 k); [discriminate|].
  cbn [map fst]. now rewrite IH.
Qed.

Lemma nat_get_set_same {V : Type} (d : list (nat * V)) (k : nat) (v : V) :
  PyDict.get Nat.eqb (PyDict.set Nat.eqb d k v) k = Some v.
Proof. apply get_set_same, Nat.eqb_refl. Qed.

(** X24.  The exchange hands messages over only when another message
    arrives at or after the subscriber's fire time, and then all at
    once: messages received before [next_fire_time] only fill the
    buffer and start no thread; the first message received at a time
    [now >= next_fire_time] starts one [handle] thread with everything
    buffered so far and that message, empties the buffer and sets the
    fire time to [now + buffer_interval]. *)
Theorem exchange_buffers_until_due (task : Exchange.task) (times : list Z)
  (now : Z) (self : Exchange.t) (msgs : list Exchange.message)
  (m : Exchange.message) (d : Exchange.details) :
  NoDup (map fst (Exchange._subscribers self)) ->
  Exchange._queue self = (msgs ++ [m])%list ->
  List.length times = List.length msgs ->
  PyDict.get Nat.eqb (Exchange._subscribers self) task = Some d ->
  Forall (fun early => early < Exchange.next_fire_time d) times ->
  Exchange.next_fire_time d <= now ->
  (exists buffering,
     receive_all times self = Some buffering
     /\ threads_of task (Exchange.started buffering)
        = threads_of task (Exchange.started self)
     /\ waiting task buffering = (Exchange.queue d ++ msgs)%list)
  /\ exists self',
       receive_all (times ++ [now]) self = Some self'
       /\ threads_of task (Exchange.started self')
          = (threads_of task (Exchange.started self)
               ++ [(task, Exchange.queue d ++ msgs ++ [m])])%list
       /\ PyDict.get Nat.eqb (Exchange._subscribers self') task
          = Some {| Exchange.queue := [];
                    Exchange.buffer_interval := Exchange.buffer_interval d;
                    Exchange.next_fire_time :=
                      now + Exchange.buffer_interval d |}.
Proof.
  intros Nd Eq L G F Due.
  destruct (receive_all_buffering task times self msgs [m] d Nd Eq L G F)
    as (s1 & R1 & Q1 & K1 & T1 & G1).
  split.
  - exists s1. split; [exact R1|]. split; [exact T1|].
    unfold waiting. now rewrite G1.
  - destruct (recieve_step now m [] s1 ltac:(now rewrite K1) Q1)
      as (self' & R & _ & _ & S).
    specialize (S task _ G1).
    cbn [Exchange.next_fire_time Exchange.queue Exchange.buffer_interval]
      in S.
    destruct (Z.geb_spec now (Exchange.next_fire_time d)) as [_|C]; [|lia].
    destruct S as [T G'].
    exists self'. rewrite receive_all_app, R1. cbn [receive_all]. rewrite R.
    split; [reflexivity|]. split; [|exact G'].
    now rewrite T, T1, <- app_assoc.
Qed.

Lemma exchange_buffers_until_due_example :
  NoDup (map fst (Exchange._subscribers sample_exchange))
  /\ Exchange._queue sample_exchange = ([[("k1", 1)]] ++ [[("k2", 2)]])%list
  /\ List.length [110] = List.length [[("k1", 1)]]
  /\ PyDict.get Nat.eqb (Exchange._subscribers sample_exchange) 2%nat
     = Some {| Exchange.queue := []; Exchange.buffer_interval := 60;
               Exchange.next_fire_time := 130 |}
  /\ Forall (fun early => early < 130) [110]
  /\ 130 <= 140
  /\ (exists buffering,
        receive_all [110] sample_exchange = Some buffering
        /\ threads_of 2%nat (Exchange.started buffering)
           = threads_of 2%nat (Exchange.started sample_exchange)
        /\ waiting 2%nat buffering = ([] ++ [[("k1", 1)]])%list)
  /\ exists self',
       receive_all ([110] ++ [140]) sample_exchange = Some self'
       /\ threads_of 2%nat (Exchange.started self')
          = (threads_of 2%nat (Exchange.started sample_exchange)
               ++ [(2%nat, [] ++ [[("k1", 1)]] ++ [[("k2", 2)]])])%list
       /\ PyDict.get Nat.eqb (Exchange._subscribers self') 2%nat
          = Some {| Exchange.queue := []; Exchange.buffer_interval := 60;
                    Exchange.next_fire_time := 140 + 60 |}.
Proof.
  assert (Nd : NoDup (map fst (Exchange._subscribers sample_exchange))).
  { cbn. repeat constructor; cbn; intuition discriminate. }
  assert (F : Forall (fun early => early < 130) [110]).
  { repeat constructor. }
  assert (D : 130 <= 140) by lia.
  split; [exact Nd|]. split; [reflexivity|]. split; [reflexivity|].
  split; [reflexivity|]. split; [exact F|]. split; [exact D|].
  exact (exchange_buffers_until_due 2%nat [110] 140 sample_exchange
           [[("k1", 1)]] [("k2", 2)]
           {| Exchange.queue := []; Exchange.buffer_interval := 60;
              Exchange.next_fire_time := 130 |}
           Nd eq_refl eq_refl eq_refl F D).
Defined.

(** X25.  A subscription shorter than its buffer interval handles
    nothing: when a new task is attached at time [now] with interval
    [buffer_interval], every queued message is received before
    [now + buffer_interval], and the task is then detached, no [handle]
    thread has been started for it and the buffered messages are
    dropped with its entry.  Detaching it once more raises
    [KeyError]. *)
Theorem short_subscription_handles_nothing (task : Exchange.task)
  (buffer_interval now : Z) (times : list Z) (self : Exchange.t) :
  NoDup (map fst (Exchange._subscribers self)) ->
  subscribed task self = false ->
  List.length times = List.length (Exchange._queue self) ->
  Forall (fun early => early < now + buffer_interval) times ->
  exists received detached,
    receive_all times (Exchange.attach self task buffer_interval now)
    = Some received
    /\ waiting task received = Exchange._queue self
    /\ Exchange.detach received task = (Py.Ok tt, detached)
    /\ threads_of task (Exchange.started detached)
       = threads_of task (Exchange.started self)
    /\ subscribed task detached = false
    /\ Exchange.detach detached task = (Py.Raise Py.KeyError, detached).
Proof.
  intros Nd Sub L F.
  assert (G0 : PyDict.get Nat.eqb (Exchange._subscribers self) task = None).
  { unfold subscribed, PyDict.mem in Sub.
    now destruct (PyDict.get Nat.eqb (Exchange._subscribers self) task). }
  set (s1 := Exchange.attach self task buffer_interval now).
  assert (K1 : map fst (Exchange._subscribers s1)
               = (map fst (Exchange._subscribers self) ++ [task])%list).
  { unfold s1, Exchange.attach. cbn [Exchange._subscribers].
    now apply nat_keys_set_absent. }
  assert (Nd1 : NoDup (map fst (Exchange._subscribers s1))).
  { rewrite K1. apply NoDup_app; [exact Nd | repeat constructor; intros [] |].
    intros a Ia [<-|[]].
    destruct (nat_get_some _ _ Ia) as [v Gv]. congruence. }
  assert (G1 : PyDict.get Nat.eqb (Exchange._subscribers s1) task
               = Some {| Exchange.queue := [];
                         Exchange.buffer_interval := buffer_interval;
                         Exchange.next_fire_time := now + buffer_interval |}).
  { unfold s1, Exchange.attach. cbn [Exchange._subscribers].
    rewrite G0. apply nat_get_set_same. }
  destruct (receive_all_buffering task times s1 (Exchange._queue self) []
              _ Nd1 ltac:(now rewrite app_nil_r) L G1 F)
    as (s2 & R2 & Q2 & K2 & T2 & G2).
  destruct (del_of_get Nat.eqb _ _ _ G2) as [subs3 D3].
  exists s2, {| Exchange._queue := Exchange._queue s2;
                Exchange._subscribers := subs3;
                Exchange.started := Exchange.started s2 |}.
  split; [exact R2|].
  split; [unfold waiting; now rewrite G2|].
  split; [unfold Exchange.detach; now rewrite D3|].
  cbn [Exchange.started]. split; [exact T2|].
  assert (G3 : PyDict.get Nat.eqb subs3 task = None).
  { assert (Nd2 : NoDup (map fst (Exchange._subscribers s2)))
      by (rewrite K2; exact Nd1).
    apply (nat_del_gone (Exchange._subscribers s2)); [exact Nd2 | exact D3]. }
  split.
  - unfold subscribed, PyDict.mem. cbn [Exchange._subscribers].
    now rewrite G3.
  - unfold Exchange.detach. cbn [Exchange._subscribers].
    destruct (PyDict.del Nat.eqb subs3 task) as [d4|] eqn:D4; [|reflexivity].
    exfalso. clear - G3 D4. revert d4 D4.
    induction subs3 as [|[k0 v] subs3 IH]; cbn [PyDict.del PyDict.get] in *;
      intros d4 D4; [discriminate|].
    destruct (Nat.eqb k0 task); [discriminate|].
    destruct (PyDict.del Nat.eqb subs3 task) as [d5|]; [|discriminate].
    now apply (IH G3 d5).
Qed.

Lemma short_subscription_handles_nothing_example :
  NoDup (map fst (Exchange._subscribers sample_exchange))
  /\ subscribed 3%nat sample_exchange = false
  /\ List.length [100; 110] = List.length (Exchange._queue sample_exchange)
  /\ Forall (fun early => early < 95 + 30) [100; 110]
  /\ exists received detached,
       receive_all [100; 110] (Exchange.attach sample_exchange 3%nat 30 95)
       = Some received
       /\ waiting 3%nat received = Exchange._queue sample_exchange
       /\ Exchange.detach received 3%nat = (Py.Ok tt, detached)
       /\ threads_of 3%nat (Exchange.started detached)
          = threads_of 3%nat (Exchange.started sample_exchange)
       /\ subscribed 3%nat detached = false
       /\ Exchange.detach detached 3%nat = (Py.Raise Py.KeyError, detached).
Proof.
  assert (Nd : NoDup (map fst (Exchange._subscribers sample_exchange))).
  { cbn. repeat constructor; cbn; intuition discriminate. }
  assert (F : Forall (fun early => early < 95 + 30) [100; 110]).
  { repeat constructor. }
  split; [exact Nd|]. split; [reflexivity|]. split; [reflexivity|].
  split; [exact F|].
  exact (short_subscription_handles_nothing 3%nat 30 95 [100; 110]
           sample_exchange Nd eq_refl eq_refl F).
Defined.

(** ** The probes *)

Lemma record_all_app (a b : list (TCPClient.t * Py.value))
  (cache : MetricsCache.t) :
  record_all (a ++ b) cache = record_all b (record_all a cache).
Proof. unfold record_all. apply fold_left_app. Qed.

Lemma http_fold_records (self : TCPClient.t)
  (requests : list Probe.http_request) :
  forall cache : MetricsCache.t,
  fold_left
    (fun cache r =>
       match Probe.http_send_receive r with
       | Probe.Return => TCPClient.record self (Py.Bool true) cache
       | Probe.Throw _ => TCPClient.record self (Py.Bool false) cache
       end) requests cache
  = record_all (map (fun r => (self, Py.Bool (answers_200 r))) requests)
      cache.
Proof.
  induction requests as [|r requests IH]; intros cache; [reflexivity|].
  cbn [fold_left map]. rewrite IH. unfold record_all at 2.
  cbn [fold_left fst snd]. fold (record_all
    (map (fun r0 => (self, Py.Bool (answers_200 r0))) requests)).
  f_equal. unfold Probe.http_send_receive, answers_200.
  destruct (Probe.first_response r) as [status|].
  - destruct (Z.eqb status 200); cbn [negb]; [reflexivity|].
    destruct (Z.eqb status 0); cbn [negb]; [|reflexivity].
    now destruct (Probe.second_response r).
  - now destruct (Probe.second_response r).
Qed.

(** X26.  The retry of the HTTP client never rescues a request:
    [_send_receive] returns normally exactly when the first
    [get_response] returns status 200; when the first call raises and
    the second one returns a status, even 200, reading [status.code]
    raises [AttributeError].  So [ping] records one probe per request,
    as a success exactly for the requests whose first response is
    200. *)
Theorem http_retry_never_rescues (self : TCPClient.t)
  (net : nat -> Probe.http_request) (cache : MetricsCache.t)
  (r : Probe.http_request) :
  (Probe.http_send_receive r = Probe.Return <->
   Probe.first_response r = Some 200)
  /\ (forall status,
        Probe.first_response r = None ->
        Probe.second_response r = Some status ->
        Probe.http_send_receive r = Probe.Throw Probe.NoCodeAttribute)
  /\ Probe.http_ping self net cache
     = record_all
         (map (fun i => (self, Py.Bool (answers_200 (net i))))
            (seq 0 (Z.to_nat (TCPClient._request_count self))))
         cache.
Proof.
  split; [|split].
  - unfold Probe.http_send_receive.
    destruct (Probe.first_response r) as [status|].
    + destruct (Z.eqb_spec status 200) as [->|N]; cbn [negb].
      * tauto.
      * destruct (Z.eqb status 0); cbn [negb];
          [destruct (Probe.second_response r)|];
          split; intros E; try discriminate; injection E as E; lia.
    + destruct (Probe.second_response r); split; discriminate.
  - intros status F S. unfold Probe.http_send_receive. now rewrite F, S.
  - unfold Probe.http_ping. rewrite http_fold_records. now rewrite map_map.
Qed.

Lemma http_retry_never_rescues_example :
  (Probe.http_send_receive (flaky_http 0%nat) = Probe.Return <->
   Probe.first_response (flaky_http 0%nat) = Some 200)
  /\ (forall status,
        Probe.first_response (flaky_http 0%nat) = None ->
        Probe.second_response (flaky_http 0%nat) = Some status ->
        Probe.http_send_receive (flaky_http 0%nat)
        = Probe.Throw Probe.NoCodeAttribute)
  /\ Probe.http_ping sample_http_client flaky_http sample_cache
     = record_all
         (map (fun i => (sample_http_client,
                         Py.Bool (answers_200 (flaky_http i))))
            (seq 0 (Z.to_nat (TCPClient._request_count sample_http_client))))
         sample_cache.
Proof.
  exact (http_retry_never_rescues sample_http_client flaky_http sample_cache
           (flaky_http 0%nat)).
Defined.

Lemma tcp_loop_bound_total (self : TCPClient.t)
  (requests : list Probe.request) :
  forall cache : MetricsCache.t,
  total (Probe.tcp_loop self requests true cache)
  = total cache + Z.of_nat (List.length requests).
Proof.
  induction requests as [|r requests IH]; intros cache.
  - cbn [Probe.tcp_loop List.length]. change (Z.of_nat 0) with 0. lia.
  - cbn [Probe.tcp_loop].
    destruct (Probe.creates r).
    + rewrite IH.
      destruct (if Probe.connects r then Probe._send_receive r
                else Probe.Throw Probe.SocketError);
        rewrite total_record; cbn [List.length]; lia.
    + rewrite IH, total_record. cbn [List.length]. lia.
Qed.

(** X27.  How many probes a TCP ping records: when the first socket
    can be created, exactly [request_count], whatever happens to the
    connections and to later sockets; when it cannot, a single failure,
    and the remaining requests are not attempted (the [finally] clause
    finds [sock] unbound and the loop is left). *)
Theorem tcp_ping_counts_requests (self : TCPClient.t)
  (net : nat -> Probe.request) (cache : MetricsCache.t) :
  0 < TCPClient._request_count self ->
  total (Probe.tcp_ping self net cache)
  = total cache
    + (if Probe.creates (net 0%nat) then TCPClient._request_count self
       else 1).
Proof.
  intros P. unfold Probe.tcp_ping.
  destruct (Z.to_nat (TCPClient._request_count self)) as [|n] eqn:En; [lia|].
  cbn [seq map Probe.tcp_loop].
  destruct (Probe.creates (net 0%nat)).
  - rewrite tcp_loop_bound_total, length_map, length_seq.
    destruct (if Probe.connects (net 0%nat) then Probe._send_receive (net 0%nat)
              else Probe.Throw Probe.SocketError);
      rewrite total_record; lia.
  - rewrite total_record. lia.
Qed.

Lemma tcp_ping_counts_requests_example :
  0 < TCPClient._request_count sample_tcp_client
  /\ total (Probe.tcp_ping sample_tcp_client flaky_tcp sample_cache)
     = total sample_cache
       + (if Probe.creates (flaky_tcp 0%nat)
          then TCPClient._request_count sample_tcp_client else 1).
Proof.
  assert (P : 0 < TCPClient._request_count sample_tcp_client)
    by (cbn; lia).
  split; [exact P|].
  exact (tcp_ping_counts_requests sample_tcp_client flaky_tcp sample_cache P).
Defined.

(** ** Stopping all clients *)

Section StringDictMore.
Context {V : Type}.

Lemma str_del_gone (d d' : list (string * V)) (k : string) :
  NoDup (PyDict.keys d) ->
  PyDict.del String.eqb d k = Some d' ->
  PyDict.get String.eqb d' k = None.
Proof.
  revert d'. induction d as [|[k0 v] d IH];
    cbn [PyDict.del PyDict.keys map fst]; intros d' Nd E; [discriminate|].
  inversion Nd as [|? ? N0 Nr]; subst.
  destruct (String.eqb_spec k0 k) as [->|Ne].
  - injection E as <-. now apply get_none_keys.
  - destruct (PyDict.del String.eqb d k) as [d''|]; [|discriminate].
    injection E as <-. cbn [PyDict.get].
    destruct (String.eqb_spec k0 k) as [E|_]; [contradiction|].
    now apply IH.
Qed.

Lemma str_del_other (d d' : list (string * V)) (k k0 : string) :
  k <> k0 ->
  PyDict.del String.eqb d k = Some d' ->
  PyDict.get String.eqb d' k0 = PyDict.get String.eqb d k0.
Proof.
  intros Ne. apply get_del_other. intros k' E.
  apply String.eqb_eq in E. subst k'. now apply String.eqb_neq.
Qed.

Lemma str_del_keys (d d' : list (string * V)) (k : string) :
  PyDict.del String.eqb d k = Some d' ->
  forall k0, In k0 (PyDict.keys d') -> In k0 (PyDict.keys d).
Proof.
  revert d'. induction d as [|[k1 v] d IH];
    cbn [PyDict.del PyDict.keys map fst]; intros d' E k0 I; [discriminate|].
  destruct (String.eqb k1 k).
  - injection E as <-. now right.
  - destruct (PyDict.del String.eqb d k) as [d''|]; [|discriminate].
    injection E as <-. destruct I as [<-|I]; [now left|].
    right. exact (IH d'' eq_refl k0 I).
Qed.

Lemma str_del_nodup (d d' : list (string * V)) (k : string) :
  NoDup (PyDict.keys d) ->
  PyDict.del String.eqb d k = Some d' ->
  NoDup (PyDict.keys d').
Proof.
  revert d'. induction d as [|[k1 v] d IH];
    cbn [PyDict.del PyDict.keys map fst]; intros d' Nd E; [discriminate|].
  inversion Nd as [|? ? N0 Nr]; subst.
  destruct (String.eqb k1 k).
  - now injection E as <-.
  - destruct (PyDict.del String.eqb d k) as [d''|] eqn:D; [|discriminate].
    injection E as <-. cbn [map fst]. constructor.
    + intros I. apply N0. exact (str_del_keys d d'' k D k1 I).
    + now apply IH.
Qed.

Lemma str_del_none (d : list (string * V)) (k : string) :
  PyDict.del String.eqb d k = None -> PyDict.get String.eqb d k = None.
Proof.
  induction d as [|[k1 v] d IH]; cbn [PyDict.del PyDict.get]; intros E;
    [reflexivity|].
  destruct (String.eqb k1 k); [discriminate|].
  destruct (PyDict.del String.eqb d k); [discriminate | now apply IH].
Qed.

Lemma delete_nodup (c : MemCache.t V) (k : string) :
  NoDup (PyDict.keys c) -> NoDup (PyDict.keys (MemCache.delete c k)).
Proof.
  intros Nd. unfold MemCache.delete.
  destruct (PyDict.del String.eqb c k) as [d|] eqn:D; [|exact Nd].
  exact (str_del_nodup c d k Nd D).
Qed.

Lemma delete_get (c : MemCache.t V) (k k0 : string) :
  NoDup (PyDict.keys c) ->
  PyDict.get String.eqb (MemCache.delete c k) k0
  = if String.eqb k k0 then None else PyDict.get String.eqb c k0.
Proof.
  intros Nd. unfold MemCache.delete.
  destruct (PyDict.del String.eqb c k) as [d|] eqn:D.
  - destruct (String.eqb_spec k k0) as [<-|Ne].
    + exact (str_del_gone c d k Nd D).
    + exact (str_del_other c d k k0 Ne D).
  - destruct (String.eqb_spec k k0) as [<-|Ne]; [|reflexivity].
    now apply str_del_none.
Qed.

Lemma delete_many_get (keys : list string) :
  forall (c : MemCache.t V) (k0 : string),
  NoDup (PyDict.keys c) ->
  PyDict.get String.eqb (MemCache.delete_many c keys) k0
  = if existsb (String.eqb k0) keys then None
    else PyDict.get String.eqb c k0.
Proof.
  unfold MemCache.delete_many.
  induction keys as [|k keys IH]; intros c k0 Nd; [reflexivity|].
  cbn [fold_left existsb].
  rewrite IH by now apply delete_nodup.
  rewrite delete_get by exact Nd. rewrite (String.eqb_sym k0 k).
  destruct (existsb (String.eqb k0) keys); [now rewrite orb_true_r|].
  now rewrite orb_false_r.
Qed.

End StringDictMore.

Section StopAllFacts.
Context `{Py.StrHash}.

Lemma delete_all_loop_clients (workers : list string) :
  forall self : TrafficController.t,
  NoDup workers ->
  NoDup (PyDict.keys (TrafficController.processes self)) ->
  (forall k, In k workers ->
     exists ctx a g,
       PyDict.get String.eqb (TrafficController._workers_registry self) k
       = Some ctx
       /\ TrafficController.address ctx = Some a
       /\ TrafficController.process ctx <> None
       /\ PyDict.get String.eqb (TrafficController.processes self) a
          = Some (TrafficController.GenHandler g)) ->
  (forall k1 k2 c1 c2,
     In k1 workers -> In k2 workers ->
     PyDict.get String.eqb (TrafficController._workers_registry self) k1
     = Some c1 ->
     PyDict.get String.eqb (TrafficController._workers_registry self) k2
     = Some c2 ->
     TrafficController.address c1 = TrafficController.address c2 ->
     k1 = k2) ->
  exists self',
    TrafficControllerStopAll.delete_all_loop TrafficController.client
      workers self = (Py.Ok tt, self')
    /\ TrafficController._workers_registry self'
       = TrafficController._workers_registry self
    /\ TrafficController._rules_registry self'
       = TrafficController._rules_registry self
    /\ (forall k ctx a,
          In k workers ->
          PyDict.get String.eqb (TrafficController._workers_registry self) k
          = Some ctx ->
          TrafficController.address ctx = Some a ->
          PyDict.get String.eqb (TrafficController.processes self') a = None)
    /\ (forall a,
          PyDict.get String.eqb (TrafficController.processes self) a = None ->
          PyDict.get String.eqb (TrafficController.processes self') a = None).
Proof.
  induction workers as [|k rest IH]; intros self Nw Np Alive Inj.
  - exists self. cbn. repeat split; auto. intros k ctx a [].
  - inversion Nw as [|? ? Nk Nrest]; subst.
    destruct (Alive k (or_introl eq_refl)) as (ctx & a & g & Gk & Ak & Pk & Ga).
    cbn [TrafficControllerStopAll.delete_all_loop MemCache.get].
    rewrite Gk.
    unfold TrafficController.bind at 1. unfold TrafficController.rpc.
    rewrite Ak, Ga.
    cbn [TrafficControllerStopAll.delete_all_method].
    unfold TrafficController.bind at 1.
    unfold TrafficControllerStopAll.stop_process. rewrite Ak.
    destruct (TrafficController.process ctx) as [name|]; [|congruence].
    cbn [TrafficController.with_processes TrafficController.processes].
    set (h' := TrafficController.GenHandler
                 (TrafficGenWorker.delete_all_clients g)).
    assert (G' : PyDict.get String.eqb
                   (PyDict.set String.eqb (TrafficController.processes self)
                      a h') a = Some h').
    { now rewrite get_set_string, String.eqb_refl. }
    destruct (del_of_get String.eqb _ _ _ G') as [p2 D2]. rewrite D2.
    assert (Kset : PyDict.keys
                     (PyDict.set String.eqb (TrafficController.processes self)
                        a h')
                   = PyDict.keys (TrafficController.processes self)).
    { apply keys_set_present. congruence. }
    assert (Np2 : NoDup (PyDict.keys p2)).
    { apply (str_del_nodup (PyDict.set String.eqb (TrafficController.processes self) a h') p2 a); [now rewrite Kset | exact D2]. }
    assert (Gone : PyDict.get String.eqb p2 a = None).
    { apply (str_del_gone (PyDict.set String.eqb (TrafficController.processes self) a h') p2 a); [now rewrite Kset | exact D2]. }
    assert (Other : forall a0, a0 <> a ->
              PyDict.get String.eqb p2 a0
              = PyDict.get String.eqb (TrafficController.processes self) a0).
    { intros a0 Ne.
      rewrite (str_del_other (PyDict.set String.eqb (TrafficController.processes self) a h') p2 a a0 (not_eq_sym Ne) D2).
      rewrite get_set_string.
      destruct (String.eqb_spec a a0) as [E|_]; [congruence | reflexivity]. }
    match goal with
    | |- exists self', TrafficControllerStopAll.delete_all_loop _ _ ?s = _ /\ _ =>
        destruct (IH s) as (self' & R & Wr & Rr & Stopped & Mono)
    end.
    + exact Nrest.
    + exact Np2.
    + intros k2 I2.
      destruct (Alive k2 (or_intror I2)) as (c2 & a2 & g2 & G2 & A2 & P2 & Ga2).
      exists c2, a2, g2. cbn. repeat split; try assumption.
      rewrite Other; [exact Ga2|].
      intros ->. apply Nk.
      rewrite (Inj k k2 ctx c2 (or_introl eq_refl) (or_intror I2) Gk G2)
        by congruence.
      exact I2.
    + intros k1 k2 c1 c2 I1 I2. cbn.
      apply Inj; now right.
    + exists self'. split; [exact R|]. cbn in Wr, Rr.
      split; [exact Wr|]. split; [exact Rr|]. split.
      * intros k0 c0 a0 [<-|I0] G0 A0.
        -- assert (a0 = a) as -> by congruence. apply Mono. exact Gone.
        -- apply (Stopped k0 c0 a0 I0); assumption.
      * intros a0 N0. apply Mono. cbn.
        destruct (String.eqb_spec a0 a) as [->|Ne]; [exact Gone|].
        now rewrite Other.
Qed.

End StopAllFacts.

(** X28.  [stop_all_clients] stops the workers but keeps them
    registered: on a controller whose client pool is alive it returns
    normally, every client worker has received [delete_all_clients] and
    its process is gone, no ["client..."] key is left in
    [rules_registry] while the other keys keep their entries, and
    [workers_registry] is unchanged, so the stopped workers still count
    as the live pool. *)
Theorem stop_all_clients_keeps_workers_registered
  `{Py.StrHash} (self : TrafficController.t) :
  pool_alive self ->
  exists self',
    TrafficControllerStopAll.stop_all_clients self = (Py.Ok tt, self')
    /\ TrafficController._workers_registry self'
       = TrafficController._workers_registry self
    /\ live_workers "client" self' = live_workers "client" self
    /\ (forall k ctx a,
          In k (live_workers "client" self) ->
          PyDict.get String.eqb (TrafficController._workers_registry self) k
          = Some ctx ->
          TrafficController.address ctx = Some a ->
          PyDict.get String.eqb (TrafficController.processes self') a = None)
    /\ (forall k,
          PyDict.get String.eqb (TrafficController._rules_registry self') k
          = if Py.startswith k "client" then None
            else PyDict.get String.eqb
                   (TrafficController._rules_registry self) k).
Proof.
  intros (Nw & Nr & Np & Alive & Inj).
  assert (Nl : NoDup (live_workers "client" self)).
  { unfold live_workers. now apply NoDup_filter. }
  destruct (delete_all_loop_clients (live_workers "client" self) self
              Nl Np Alive Inj) as (s1 & R1 & Wr & Rr & Stopped & _).
  unfold TrafficControllerStopAll.stop_all_clients,
    TrafficControllerStopAll._delete_all_rules_from_workers.
  unfold TrafficController.bind at 1.
  unfold TrafficController._get_all_workers at 1.
  change (filter
            (fun worker =>
               Py.startswith worker
                 (TrafficController.type_name TrafficController.client))
            (MemCache.get_all_keys
               (TrafficController._workers_registry self)))
    with (live_workers "client" self).
  unfold TrafficController.bind at 1. rewrite R1.
  unfold TrafficController.bind, TrafficController._get_all_rules.
  eexists. split; [reflexivity|].
  cbn [TrafficController.with_rules_registry
         TrafficController._workers_registry
         TrafficController._rules_registry TrafficController.processes].
  split; [exact Wr|]. split.
  { unfold live_workers, TrafficController.with_rules_registry.
    cbn [TrafficController._workers_registry]. now rewrite Wr. }
  split; [exact Stopped|].
  intros k. rewrite Rr. rewrite delete_many_get by exact Nr.
  cbn [TrafficController.type_name].
  destruct (Py.startswith k "client") eqn:Sk.
  - destruct (existsb _ _) eqn:Ex; [reflexivity|].
    destruct (PyDict.get String.eqb
                (TrafficController._rules_registry self) k) as [c|] eqn:G;
      [|reflexivity].
    exfalso. apply get_in in G.
    assert (I : In k (filter (fun r => Py.startswith r "client")
                        (MemCache.get_all_keys
                           (TrafficController._rules_registry self)))).
    { apply filter_In. split; [|exact Sk].
      unfold MemCache.get_all_keys, PyDict.keys.
      change k with (fst (k, c)). now apply in_map. }
    assert (T : existsb (String.eqb k)
                  (filter (fun r => Py.startswith r "client")
                     (MemCache.get_all_keys
                        (TrafficController._rules_registry self))) = true).
    { apply existsb_exists. exists k. split; [exact I|].
      apply String.eqb_refl. }
    congruence.
  - destruct (existsb _ _) eqn:Ex; [|reflexivity].
    exfalso. apply existsb_exists in Ex as (k1 & I1 & E1).
    apply String.eqb_eq in E1. subst k1.
    apply filter_In in I1 as [_ S1]. congruence.
Qed.


Lemma sample_started_pool_alive : pool_alive sample_started.
Proof.
  unfold pool_alive, live_workers.
  let v := eval vm_compute in sample_started in
  assert (E : sample_started = v) by (vm_compute; reflexivity).
  rewrite E. clear E.
  cbn [TrafficController._workers_registry TrafficController._rules_registry
         TrafficController.processes PyDict.keys map fst
         MemCache.get_all_keys].
  split; [repeat constructor; cbn; intuition discriminate|].
  split; [repeat constructor; cbn; intuition discriminate|].
  split; [repeat constructor; cbn; intuition discriminate|].
  split.
  - intros k I. vm_compute in I.
    destruct I as [<-|[<-|[]]]; eexists _, _, _;
      (split; [vm_compute; reflexivity|]);
      (split; [reflexivity|]); (split; [discriminate|]);
      vm_compute; reflexivity.
  - intros k1 k2 c1 c2 I1 I2. vm_compute in I1, I2.
    destruct I1 as [<-|[<-|[]]]; destruct I2 as [<-|[<-|[]]];
      vm_compute; intros G1 G2 A; try reflexivity;
      injection G1 as <-; injection G2 as <-; discriminate A.
Qed.

Lemma stop_all_clients_keeps_workers_registered_example :
  pool_alive sample_started
  /\ exists self',
       @TrafficControllerStopAll.stop_all_clients length_hash
         sample_started = (Py.Ok tt, self')
       /\ TrafficController._workers_registry self'
          = TrafficController._workers_registry sample_started
       /\ live_workers "client" self' = live_workers "client" sample_started
       /\ (forall k ctx a,
             In k (live_workers "client" sample_started) ->
             PyDict.get String.eqb
               (TrafficController._workers_registry sample_started) k
             = Some ctx ->
             TrafficController.address ctx = Some a ->
             PyDict.get String.eqb (TrafficController.processes self') a
             = None)
       /\ (forall k,
             PyDict.get String.eqb (TrafficController._rules_registry self') k
             = if Py.startswith k "client" then None
               else PyDict.get String.eqb
                      (TrafficController._rules_registry sample_started) k).
Proof.
  split; [exact sample_started_pool_alive|].
  exact (@stop_all_clients_keeps_workers_registered length_hash
           sample_started sample_started_pool_alive).
Defined.


(** ** Starting clients on a partly filled pool *)

Lemma filter_all_in {A : Type} (f : A -> bool) (l : list A) :
  (forall x, In x l -> f x = true) -> filter f l = l.
Proof.
  induction l as [|x l IH]; intros A0; [reflexivity|].
  cbn [filter]. rewrite (A0 x) by now left.
  f_equal. apply IH. intros y I. apply A0. now right.
Qed.





(** ** The in-memory cache *)

Section CacheFacts.
Context {V : Type}.

Lemma delete_many_nodup (keys : list string) :
  forall c : MemCache.t V,
  NoDup (PyDict.keys c) -> NoDup (PyDict.keys (MemCache.delete_many c keys)).
Proof.
  unfold MemCache.delete_many.
  induction keys as [|k keys IH]; intros c Nd; [exact Nd|].
  cbn [fold_left]. apply IH. now apply delete_nodup.
Qed.

Lemma set_many_nodup (data : list (string * V)) :
  forall c : MemCache.t V,
  NoDup (PyDict.keys c) ->
  NoDup (PyDict.keys (snd (BaseCache.set_many c data))).
Proof.
  unfold BaseCache.set_many. cbn [snd].
  induction data as [|[k v] data IH]; intros c Nd; [exact Nd|].
  cbn [fold_left fst snd]. apply IH. unfold MemCache.add.
  now apply keys_set_nodup.
Qed.

Lemma cache_after_nodup (calls : list (cache_call V)) :
  NoDup (PyDict.keys (cache_after calls)).
Proof.
  unfold cache_after.
  assert (G : forall c : MemCache.t V,
            NoDup (PyDict.keys c) ->
            NoDup (PyDict.keys (fold_left cache_step calls c))).
  { induction calls as [|call calls IH]; intros c Nd; [exact Nd|].
    cbn [fold_left]. apply IH. destruct call as [k v|k|ks|data];
      cbn [cache_step].
    - unfold MemCache.add. now apply keys_set_nodup.
    - now apply delete_nodup.
    - now apply delete_many_nodup.
    - now apply set_many_nodup. }
  apply G. constructor.
Qed.

Lemma get_many_get (self : MemCache.t V) (keys : list string)
  (k0 : string) :
  forall d : list (string * V),
  PyDict.get String.eqb
    (fold_left
       (fun d k =>
          match MemCache.get self (Py.Str k) with
          | Some val => PyDict.set String.eqb d k val
          | None => d
          end) keys d) k0
  = match (if existsb (String.eqb k0) keys
           then PyDict.get String.eqb self k0 else None) with
    | Some v => Some v
    | None => PyDict.get String.eqb d k0
    end.
Proof.
  induction keys as [|k keys IH]; intros d; [reflexivity|].
  cbn [fold_left existsb MemCache.get]. rewrite IH.
  destruct (String.eqb_spec k0 k) as [->|Ne]; cbn [orb].
  - destruct (PyDict.get String.eqb self k) as [val|] eqn:G.
    + rewrite get_set_string, String.eqb_refl.
      now destruct (existsb (String.eqb k) keys).
    + now destruct (existsb (String.eqb k) keys).
  - assert (E : PyDict.get String.eqb
                  (match PyDict.get String.eqb self k with
                   | Some val => PyDict.set String.eqb d k val
                   | None => d
                   end) k0
                = PyDict.get String.eqb d k0).
    { destruct (PyDict.get String.eqb self k) as [val|]; [|reflexivity].
      rewrite get_set_string.
      destruct (String.eqb_spec k k0) as [E|_]; [congruence | reflexivity]. }
    now rewrite E.
Qed.

End CacheFacts.

